(** * Trade Conflict Simulation Console: the dashboard polling client

    A shallow embedding of [dashboard/app.js]: the polling tick [refresh],
    the panel renderers and the three chart renderers, together with the
    session state they share ([history], [lastTimestamp], [staleTicks]).

    Modelling conventions.
    - A parsed JSON document is a [JsVal].  Objects are association lists
      held in the order in which [Object.entries] enumerates them; arrays
      and objects produced by two different parses are never [===].
    - JSON numbers are exact rationals ([Q]); binary64 rounding, NaN and the
      infinities are outside the model.  A number computed by the client is
      a [Num]: either a rational or [NaR], which stands for every result
      the rational model does not describe (a division by zero, NaN, and
      the number of a string or an array, which is not computed).
    - Text written to the page keeps interpolated values symbolic
      ([Interp v] is the platform's string conversion of [v]); only
      [toFixed(2)] is rendered to digits.  Whether a conversion to a string
      or a number throws is modelled ([Js.convertible]): it does on an
      object with a member named [toString], and on an array holding one.
    - Exceptions are modelled by [Outcome]; effects by a state monad whose
      state survives a throw, as mutations made before a JavaScript
      exception do.
    - Ticks are serialised: one [refresh] runs to its end before the next
      starts. *)

From Stdlib Require Import ZArith QArith Qminmax Qabs Qround.
From Stdlib Require Import List String Ascii Bool Arith Lia Lqa.
From Stdlib Require Import DecimalString.
Import ListNotations.

Set Warnings "-register-all".

Local Open Scope string_scope.
Local Open Scope list_scope.

(** ** JavaScript values *)

Inductive JsVal : Type :=
| VUndef
| VNull
| VBool (b : bool)
| VNum (q : Q)
| VStr (s : string)
| VArr (items : list JsVal)
| VObj (props : list (string * JsVal)).

Inductive Err : Type :=
| TypeError (msg : string)
| NetworkError.

Inductive Outcome (A : Type) : Type :=
| Ok (a : A)
| Throw (e : Err).
Arguments Ok {A} a.
Arguments Throw {A} e.

(** A number computed by the client.  [NaR]: not a rational. *)
Inductive Num : Type :=
| Fin (q : Q)
| NaR.

(** [v == null]: [undefined] or [null]. *)
Definition nullish (v : JsVal) : bool :=
  match v with
  | VUndef | VNull => true
  | _ => false
  end.

Module Js.

(** ToBoolean. *)
Definition truthy (v : JsVal) : bool :=
  match v with
  | VUndef | VNull => false
  | VBool b => b
  | VNum q => negb (Qeq_bool q 0)
  | VStr s => negb (String.eqb s "")
  | VArr _ | VObj _ => true
  end.

(** [a || b] *)
Definition or (a b : JsVal) : JsVal := if truthy a then a else b.

(** [a === b].  Arrays and objects compare by identity; the two sides
    always come from different parses (or one of them is a literal), so
    the comparison is false. *)
Definition strictEq (a b : JsVal) : bool :=
  match a, b with
  | VUndef, VUndef => true
  | VNull, VNull => true
  | VBool x, VBool y => Bool.eqb x y
  | VNum x, VNum y => Qeq_bool x y
  | VStr x, VStr y => String.eqb x y
  | _, _ => false
  end.

(** [typeof v === "number"] *)
Definition isNumber (v : JsVal) : bool :=
  match v with VNum _ => true | _ => false end.

Definition lookup (k : string) (props : list (string * JsVal)) : JsVal :=
  match find (fun p => String.eqb (fst p) k) props with
  | Some p => snd p
  | None => VUndef
  end.

Definition ofNat (n : nat) : JsVal := VNum (inject_Z (Z.of_nat n)).

(** [v.k] for the fixed data keys read by app.js (none of them is
    inherited from a prototype, apart from [length]). *)
Definition get (v : JsVal) (k : string) : Outcome JsVal :=
  match v with
  | VUndef => Throw (TypeError "Cannot read properties of undefined")
  | VNull => Throw (TypeError "Cannot read properties of null")
  | VObj props => Ok (lookup k props)
  | VArr items =>
      Ok (if String.eqb k "length" then ofNat (List.length items) else VUndef)
  | VStr s =>
      Ok (if String.eqb k "length" then ofNat (String.length s) else VUndef)
  | VBool _ | VNum _ => Ok VUndef
  end.

Definition indexKey (n : nat) : string :=
  NilZero.string_of_uint (Nat.to_uint n).

Fixpoint indexed {A : Type} (n : nat) (l : list A) : list (string * A) :=
  match l with
  | [] => []
  | x :: r => (indexKey n, x) :: indexed (S n) r
  end.

Fixpoint chars (s : string) : list JsVal :=
  match s with
  | EmptyString => []
  | String c r => VStr (String c EmptyString) :: chars r
  end.

(** [Object.entries(v)] *)
Definition entries (v : JsVal) : Outcome (list (string * JsVal)) :=
  match v with
  | VUndef | VNull =>
      Throw (TypeError "Cannot convert undefined or null to object")
  | VObj props => Ok props
  | VArr items => Ok (indexed 0 items)
  | VStr s => Ok (indexed 0 (chars s))
  | VBool _ | VNum _ => Ok []
  end.

(** [v.slice().reverse()].  A string has [slice] but no [reverse]; every
    other non-array has no callable [slice]. *)
Definition sliceReverse (v : JsVal) : Outcome (list JsVal) :=
  match v with
  | VArr items => Ok (rev items)
  | VUndef => Throw (TypeError "Cannot read properties of undefined")
  | VNull => Throw (TypeError "Cannot read properties of null")
  | VStr _ => Throw (TypeError "reverse is not a function")
  | _ => Throw (TypeError "slice is not a function")
  end.

(** The receiver of [v.filter(...)] *)
Definition asArray (method : string) (v : JsVal) : Outcome (list JsVal) :=
  match v with
  | VArr items => Ok items
  | VUndef => Throw (TypeError "Cannot read properties of undefined")
  | VNull => Throw (TypeError "Cannot read properties of null")
  | _ => Throw (TypeError (method ++ " is not a function"))
  end.

(** ToPrimitive, the first step of ToString and of ToNumber, returns.  A
    parsed object inherits [toString] and [valueOf] from [Object.prototype]
    unless it has a member of that name; such a member is not callable and
    is skipped, and the inherited [valueOf] returns the object itself, so
    an object with a member named [toString] has no primitive value: a
    TypeError.  An array is joined, which converts every element other
    than [null]. *)
Fixpoint convertible (v : JsVal) : bool :=
  match v with
  | VObj props => negb (existsb (fun p => String.eqb (fst p) "toString") props)
  | VArr items => forallb convertible items
  | _ => true
  end.

(** ToString or ToNumber of [v], for its effect: the TypeError where [v]
    has no primitive value.  The result of the conversion is kept
    symbolic ([Interp v]) or computed by [toNum]. *)
Definition coerce (v : JsVal) : Outcome unit :=
  if convertible v then Ok tt
  else Throw (TypeError "Cannot convert object to primitive value").

(** ToString of [v] is the empty string. *)
Fixpoint emptyText (v : JsVal) : bool :=
  match v with
  | VStr s => String.eqb s ""
  | VArr [] => true
  | VArr [x] => nullish x || emptyText x
  | _ => false
  end.

(** The number ToNumber gives, inside the rational model: the number
    itself, 0 for [null] and [false], 1 for [true]; NaN, hence [NaR], for
    [undefined] and for an object.  The number of a string, and of an
    array, which goes through its string, is not computed: [NaR] as
    well. *)
Definition toNum (v : JsVal) : Num :=
  match v with
  | VNum q => Fin q
  | VNull => Fin 0
  | VBool b => Fin (if b then 1 else 0)
  | _ => NaR
  end.

(** ToNumber *)
Definition toNumber (v : JsVal) : Outcome Num :=
  match coerce v with
  | Ok _ => Ok (toNum v)
  | Throw e => Throw e
  end.

End Js.

(** ** Arithmetic on computed numbers *)

Definition nlift2 (f : Q -> Q -> Q) (a b : Num) : Num :=
  match a, b with
  | Fin x, Fin y => Fin (f x y)
  | _, _ => NaR
  end.

Definition nadd := nlift2 Qplus.
Definition nsub := nlift2 Qminus.
Definition nmul := nlift2 Qmult.
Definition nmin := nlift2 Qmin.
Definition nmax := nlift2 Qmax.

Definition ndiv (a b : Num) : Num :=
  match a, b with
  | Fin x, Fin y => if Qeq_bool y 0 then NaR else Fin (x / y)
  | _, _ => NaR
  end.

Definition ofNat (n : nat) : Num := Fin (inject_Z (Z.of_nat n)).

(** [typeof v === "number"] filter *)
Fixpoint numbers (vals : list JsVal) : list Q :=
  match vals with
  | [] => []
  | VNum q :: r => q :: numbers r
  | _ :: r => numbers r
  end.

(** [Math.max(...qs, last)] and [Math.min(...qs, last)] on numbers. *)
Definition maxOf (qs : list Q) (last : Q) : Q := fold_right Qmax last qs.
Definition minOf (qs : list Q) (last : Q) : Q := fold_right Qmin last qs.

(** The result of [Math.max(...values, 1)] on the values of a mapping,
    inside the rational model: the greatest of 1 and the numbers of the
    values. *)
Definition mathMax1 (values : list JsVal) : Num :=
  fold_right (fun v greatest => nmax (Js.toNum v) greatest) (Fin 1) values.

(** [Math.max(...values, 1)]: every argument goes through ToNumber before
    the greatest is taken. *)
Definition mathMax (values : list JsVal) : Outcome Num :=
  if forallb Js.convertible values then Ok (mathMax1 values)
  else Throw (TypeError "Cannot convert object to primitive value").

(** ** Text, markup and canvas calls *)

Inductive Piece : Type :=
| Lit (s : string)
| Interp (v : JsVal)
| InterpNum (n : Num)
| JsonOf (v : JsVal).

Definition Text : Type := list Piece.

Inductive Html : Type :=
| Shipped
| TextNode (t : Text)
| Elem (tag : string) (attrs : list (string * Text)) (kids : list Html).

Inductive CtxCall : Type :=
| clearRect (x y w h : Num)
| fillStyle (color : string)
| fillRect (x y w h : Num)
| save
| translate (x y : Num)
| rotate (angle : Num)
| font (f : string)
| fillText (t : Text) (x y : Num)
| restore
| beginPath
| moveTo (x y : Num)
| lineTo (x y : Num)
| strokeStyle (color : string)
| lineWidth (n : Num)
| stroke.

Record CanvasEl : Type := mkCanvas {
  width : Q;
  height : Q;
  calls : list CtxCall
}.

(** The display surface: every region the client writes to exists.
    [elems id] holds the children of the element, [canvases id] the calls
    made on the canvas context since it was last fully cleared. *)
Record Dom : Type := mkDom {
  elems : string -> list Html;
  canvases : string -> CanvasEl
}.

(** ** [Number.prototype.toFixed(2)]

    ECMAScript: for [|x| >= 10^21] the result is the ordinary string
    conversion of [x]; otherwise the digits of the integer [n] closest to
    [|x| * 100] (the larger one on a tie), a point before the last two. *)

Definition digitChar (d : Z) : ascii := ascii_of_nat (48 + Z.to_nat d).

Definition decimal (n : Z) : string :=
  NilZero.string_of_uint (N.to_uint (Z.to_N n)).

Definition fixed2 (x : Q) : string :=
  let n := Qfloor (Qabs x * 100 + (1 # 2)) in
  String.append (if Qle_bool 0 x then "" else "-")
    (String.append (decimal (n / 100))
       (String "."
          (String (digitChar ((n / 10) mod 10))
             (String (digitChar (n mod 10)) EmptyString)))).

Definition toFixed2 (x : Q) : Piece :=
  if Qle_bool (inject_Z (10 ^ 21)) (Qabs x) then Interp (VNum x)
  else Lit (fixed2 x).

(** ** Effects *)

Definition Exec (St A : Type) : Type := St -> Outcome A * St.

Definition ret {St A : Type} (a : A) : Exec St A := fun s => (Ok a, s).

Definition bind {St A B : Type} (m : Exec St A) (k : A -> Exec St B) : Exec St B :=
  fun s =>
    match m s with
    | (Ok a, s') => k a s'
    | (Throw e, s') => (Throw e, s')
    end.

Definition lift {St A : Type} (o : Outcome A) : Exec St A := fun s => (o, s).

Definition gets {St A : Type} (f : St -> A) : Exec St A := fun s => (Ok (f s), s).

Definition modify {St : Type} (f : St -> St) : Exec St unit := fun s => (Ok tt, f s).

Definition tryCatch {St A : Type} (m : Exec St A) (handler : Err -> Exec St A)
  : Exec St A :=
  fun s =>
    match m s with
    | (Ok a, s') => (Ok a, s')
    | (Throw e, s') => handler e s'
    end.

Declare Scope exec_scope.
Delimit Scope exec_scope with exec.
Notation "x <- m ;; k" := (bind m (fun x => k))
  (at level 61, m at next level, right associativity) : exec_scope.
Notation "m ;; k" := (bind m (fun _ => k))
  (at level 61, right associativity) : exec_scope.
Local Open Scope exec_scope.

(** [l.forEach(f)] *)
Fixpoint forEach {St A : Type} (f : A -> Exec St unit) (l : list A) : Exec St unit :=
  match l with
  | [] => ret tt
  | x :: r => f x ;; forEach f r
  end.

(** [l.forEach((x, idx) => f(x, idx))], counting from [idx]. *)
Fixpoint forEachIdx {St A : Type} (f : A -> nat -> Exec St unit) (idx : nat)
  (l : list A) : Exec St unit :=
  match l with
  | [] => ret tt
  | x :: r => f x idx ;; forEachIdx f (S idx) r
  end.

(** [l.filter(p)]: the predicate runs on every element, in order. *)
Fixpoint filterE {St A : Type} (p : A -> Exec St bool) (l : list A)
  : Exec St (list A) :=
  match l with
  | [] => ret []
  | x :: r =>
      keep <- p x ;;
      rest <- filterE p r ;;
      ret (if keep then x :: rest else rest)
  end.

(** [l.map(f)] *)
Fixpoint mapE {St A B : Type} (f : A -> Exec St B) (l : list A)
  : Exec St (list B) :=
  match l with
  | [] => ret []
  | x :: r =>
      y <- f x ;;
      rest <- mapE f r ;;
      ret (y :: rest)
  end.

(** [l.find(p)]: stops at the first hit. *)
Fixpoint findE {St A : Type} (p : A -> Exec St bool) (l : list A)
  : Exec St (option A) :=
  match l with
  | [] => ret None
  | x :: r =>
      hit <- p x ;;
      if hit then ret (Some x) else findE p r
  end.

(** *** DOM writes *)

Definition setElems (id : string) (kids : list Html) (d : Dom) : Dom :=
  mkDom (fun i => if String.eqb i id then kids else elems d i) (canvases d).

Definition setCalls (id : string) (cs : list CtxCall) (d : Dom) : Dom :=
  let canvas := canvases d id in
  mkDom (elems d)
    (fun i =>
       if String.eqb i id
       then mkCanvas (width canvas) (height canvas) cs
       else canvases d i).

(** [byId(id).textContent = ...] for a text that is not empty: a string
    literal, or a template literal around one. *)
Definition setText (id : string) (t : Text) : Exec Dom unit :=
  modify (setElems id [TextNode t]).

(** The children [textContent = v] leaves in an element: none for
    [null], [undefined] and a value whose string is empty, else one text
    node. *)
Definition textOf (v : JsVal) : list Html :=
  if nullish v || Js.emptyText v then [] else [TextNode [Interp v]].

(** [byId(id).textContent = v] for a value read from the document:
    anything but [null] and [undefined] goes through ToString. *)
Definition setTextContent (id : string) (v : JsVal) : Exec Dom unit :=
  (if nullish v then ret tt else lift (Js.coerce v)) ;;
  modify (setElems id (textOf v)).

(** [byId(id).innerHTML = ...], the markup given as the tree it parses to. *)
Definition setInnerHTML (id : string) (kids : list Html) : Exec Dom unit :=
  modify (setElems id kids).

(** [byId(id).appendChild(child)] *)
Definition appendChild (id : string) (child : Html) : Exec Dom unit :=
  modify (fun d => setElems id (elems d id ++ [child]) d).

(** [ctx.<call>(...)] on the canvas [id] *)
Definition ctx (id : string) (c : CtxCall) : Exec Dom unit :=
  modify (fun d => setCalls id (calls (canvases d id) ++ [c]) d).

(** [ctx.clearRect(0, 0, canvas.width, canvas.height)]: nothing drawn
    before it remains. *)
Definition clearCanvas (id : string) : Exec Dom unit :=
  modify (fun d =>
    setCalls id
      [clearRect (Fin 0) (Fin 0) (Fin (width (canvases d id)))
         (Fin (height (canvases d id)))] d).

(** ** Session state (app.js lines 4-10) *)

Record History : Type := mkHistory {
  welfareAlpha : list JsVal;
  welfareBeta : list JsVal;
  welfareGamma : list JsVal
}.

Definition li (kids : list Html) : Html := Elem "li" [] kids.
Definition div (class : string) (kids : list Html) : Html :=
  Elem "div" [("class", [Lit class])] kids.
Definition plainDiv (kids : list Html) : Html := Elem "div" [] kids.
Definition span (t : Text) : Html := Elem "span" [] [TextNode t].
Definition strong (t : Text) : Html := Elem "strong" [] [TextNode t].

(** ** Panel renderers *)

(** app.js lines 16-33 *)
Definition renderTimeline (items : JsVal) : Exec Dom unit :=
  setInnerHTML "timeline" [] ;;
  len <- lift (if Js.truthy items then Js.get items "length" else Ok VUndef) ;;
  if negb (Js.truthy items) || Js.strictEq len (VNum 0)
  then appendChild "timeline" (li [TextNode [Lit "Awaiting first policy updates..."]])
  else
    reversed <- lift (Js.sliceReverse items) ;;
    forEach (fun item =>
      timestamp <- lift (Js.get item "timestamp") ;;
      lift (Js.coerce timestamp) ;;
      label <- lift (Js.get item "label") ;;
      lift (Js.coerce label) ;;
      appendChild "timeline"
        (li [div "timestamp" [TextNode [Interp timestamp]];
             plainDiv [TextNode [Interp label]]]))
      reversed.

(** The list item shared by the feed and the messages panel
    (app.js lines 45-51 and 70-76); the template literal converts each
    field as it reads it. *)
Definition eventItem (target : string) (event : JsVal) : Exec Dom unit :=
  timestamp <- lift (Js.get event "timestamp") ;;
  lift (Js.coerce timestamp) ;;
  source <- lift (Js.get event "source") ;;
  lift (Js.coerce source) ;;
  title <- lift (Js.get event "title") ;;
  lift (Js.coerce title) ;;
  memo <- lift (Js.get event "memo") ;;
  lift (Js.coerce memo) ;;
  appendChild target
    (li [div "timestamp" [TextNode [Interp timestamp; Lit " | "; Interp source]];
         plainDiv [strong [Interp title]];
         plainDiv [TextNode [Interp memo]]]).

(** app.js lines 35-53 *)
Definition renderFeed (events : JsVal) : Exec Dom unit :=
  setInnerHTML "feed" [] ;;
  len <- lift (if Js.truthy events then Js.get events "length" else Ok VUndef) ;;
  if negb (Js.truthy events) || Js.strictEq len (VNum 0)
  then appendChild "feed" (li [TextNode [Lit "No agent activity yet."]])
  else
    reversed <- lift (Js.sliceReverse events) ;;
    forEach (eventItem "feed") reversed.

Definition allowedTopics : list string :=
  ["policy"; "strategy"; "negotiation"; "market"].

(** [["policy", "strategy", "negotiation", "market"].includes(event.topic)] *)
Definition topicAllowed (event : JsVal) : Exec Dom bool :=
  topic <- lift (Js.get event "topic") ;;
  ret (existsb (fun t => Js.strictEq (VStr t) topic) allowedTopics).

(** app.js lines 55-78 *)
Definition renderMessages (events : JsVal) : Exec Dom unit :=
  setInnerHTML "messages" [] ;;
  len <- lift (if Js.truthy events then Js.get events "length" else Ok VUndef) ;;
  if negb (Js.truthy events) || Js.strictEq len (VNum 0)
  then appendChild "messages" (li [TextNode [Lit "No inter-agent messages yet."]])
  else
    arr <- lift (Js.asArray "events.filter" events) ;;
    matching <- filterE topicAllowed arr ;;
    forEach (eventItem "messages") (firstn 12 (rev matching)).

(** [formatNumber], as the text it leaves in the template
    (app.js lines 86-87). *)
Definition formatNumber (value : JsVal) : Piece :=
  match value with
  | VNum q => toFixed2 q
  | _ => Interp value
  end.

(** [${formatNumber(value)}] in a template literal: [toFixed] gives a
    string; any other value goes through ToString. *)
Definition interpolate (value : JsVal) : Outcome unit :=
  if Js.isNumber value then Ok tt else Js.coerce value.

Definition tableRow (kv : string * JsVal) : Html :=
  div "row" [span [Lit (fst kv)]; span [formatNumber (snd kv)]].

(** The rows of [table(obj)], as markup (app.js lines 88-94);
    [Object.entries(obj || {})] cannot throw, its argument being truthy. *)
Definition table (obj : JsVal) : list Html :=
  match Js.entries (Js.or obj (VObj [])) with
  | Ok es => map tableRow es
  | Throw _ => []
  end.

(** [table(obj)] as it runs: one template literal per entry. *)
Definition tableRows (obj : JsVal) : Exec Dom (list Html) :=
  es <- lift (Js.entries (Js.or obj (VObj []))) ;;
  mapE (fun kv => lift (interpolate (snd kv)) ;; ret (tableRow kv)) es.

Definition kpi (label : string) (value : JsVal) : Html :=
  div "kpi" [div "kpi-label" [TextNode [Lit label]];
             div "kpi-value" [TextNode [formatNumber value]]].

Definition section (title : string) (rows : list Html) : Html :=
  div "section" [div "section-title" [TextNode [Lit title]];
                 div "metric-table" rows].

Definition noData : list Html := [TextNode [Lit "No data available."]].

(** The markup of lines 96-125 around the three KPI values and the rows
    of the three tables. *)
Definition card (gdp welfare pressure : JsVal) (exports imports tariffs : list Html)
  : Html :=
  div "country-card"
    [div "country-kpis"
       [kpi "GDP" gdp; kpi "Welfare" welfare; kpi "Political pressure" pressure];
     div "country-sections"
       [section "Exports" exports;
        section "Imports" imports;
        section "Tariffs" tariffs]].

Definition countryCard (gdp welfare pressure exports imports tariffs : JsVal)
  : Html :=
  card gdp welfare pressure (table exports) (table imports)
    (table (Js.or tariffs (VObj []))).

(** app.js lines 80-127.  The template literal of lines 95-126 is
    evaluated from left to right, and [innerHTML] is assigned once it has
    a value. *)
Definition renderCountryMetrics (targetId : string) (data : JsVal)
  : Exec Dom unit :=
  gdp <- lift (if Js.truthy data then Js.get data "gdp" else Ok VUndef) ;;
  if negb (Js.truthy data) || Js.strictEq gdp VUndef
  then setText targetId [Lit "No data available."]
  else
    lift (interpolate gdp) ;;
    welfare <- lift (Js.get data "welfare") ;;
    lift (interpolate welfare) ;;
    pressure <- lift (Js.get data "political_pressure") ;;
    lift (interpolate pressure) ;;
    exports <- lift (Js.get data "exports") ;;
    exportRows <- tableRows exports ;;
    imports <- lift (Js.get data "imports") ;;
    importRows <- tableRows imports ;;
    tariffs <- lift (Js.get data "tariffs") ;;
    tariffRows <- tableRows (Js.or tariffs (VObj [])) ;;
    setInnerHTML targetId [card gdp welfare pressure exportRows importRows tariffRows].

(** ** Chart renderers *)

Definition q (z : Z) : Q := inject_Z z.

(** One bar of the trade-flow chart (app.js lines 138-151). *)
Definition drawBar (id : string) (canvasHeight : Q) (max barWidth : Num)
  (kv : string * JsVal) (idx : nat) : Exec Dom unit :=
  value <- lift (Js.toNumber (snd kv)) ;;
  let height := nmul (ndiv value max) (Fin (canvasHeight - q 40)) in
  let x := nadd (Fin (q 20)) (nmul (ofNat idx) barWidth) in
  let y := nsub (Fin (canvasHeight - q 20)) height in
  ctx id (fillStyle "#5aa2ff") ;;
  ctx id (fillRect x y (nmul barWidth (Fin (6 # 10))) height) ;;
  ctx id save ;;
  ctx id (translate x (Fin (canvasHeight - q 6))) ;;
  ctx id (rotate (Fin (- (1 # 2)))) ;;
  ctx id (fillStyle "#9aa4ad") ;;
  ctx id (font "10px IBM Plex Mono") ;;
  ctx id (fillText [Lit (fst kv)] (Fin 0) (Fin 0)) ;;
  ctx id restore ;;
  ctx id (fillStyle "#e6e8ea") ;;
  lift (Js.coerce (snd kv)) ;;
  ctx id (fillText [Interp (snd kv)] x (nsub y (Fin (q 6)))).

(** app.js lines 129-153.  [keys.map((k) => tradeFlow[k])] are the values
    of the enumerated entries. *)
Definition drawTradeFlow (id : string) (tradeFlow : JsVal) : Exec Dom unit :=
  clearCanvas id ;;
  es <- lift (Js.entries tradeFlow) ;;
  canvas <- gets (fun d => canvases d id) ;;
  max <- lift (mathMax (map snd es)) ;;
  let barWidth := ndiv (Fin (width canvas - q 40)) (ofNat (List.length es)) in
  forEachIdx (drawBar id (height canvas) max barWidth) 0 es.

(** The scale of the welfare chart (app.js lines 158-168). *)
Record WelfareScale : Type := mkScale {
  xStep : Q;
  minValue : Q;
  maxValue : Q;
  range : Q
}.

Definition padding : Q := q 30.

Definition allValues (h : History) : list Q :=
  numbers (welfareAlpha h ++ welfareBeta h ++ welfareGamma h).

Definition welfareScale (canvasWidth : Q) (h : History) : WelfareScale :=
  let maxPoints := Nat.max (List.length (welfareAlpha h)) 2 in
  let lo := minOf (allValues h) (q 80) in
  let hi := maxOf (allValues h) (q 100) in
  mkScale ((canvasWidth - padding * q 2) / q (Z.of_nat (maxPoints - 1)))
    lo hi (Qmax 1 (hi - lo)).

(** [drawLine] (app.js lines 170-182) *)
Definition drawLine (id : string) (canvasHeight : Q) (sc : WelfareScale)
  (values : list JsVal) (color : string) : Exec Dom unit :=
  ctx id beginPath ;;
  forEachIdx (fun value idx =>
    let x := Fin (padding + q (Z.of_nat idx) * xStep sc) in
    number <- lift (Js.toNumber value) ;;
    let normalized := ndiv (nsub number (Fin (minValue sc))) (Fin (range sc)) in
    let y := nsub (Fin (canvasHeight - padding))
               (nmul normalized (Fin (canvasHeight - padding * q 2))) in
    if Nat.eqb idx 0 then ctx id (moveTo x y) else ctx id (lineTo x y))
    0 values ;;
  ctx id (strokeStyle color) ;;
  ctx id (lineWidth (Fin (q 2))) ;;
  ctx id stroke.

Definition legend (id : string) (canvasWidth : Q) (name color : string)
  (textY swatchY : Z) : Exec Dom unit :=
  ctx id (fillStyle "#9aa4ad") ;;
  ctx id (fillText [Lit name] (Fin (canvasWidth - q 90)) (Fin (q textY))) ;;
  ctx id (fillStyle color) ;;
  ctx id (fillRect (Fin (canvasWidth - q 110)) (Fin (q swatchY)) (Fin (q 14)) (Fin (q 4))).

(** app.js lines 155-206 *)
Definition drawWelfare (id : string) (h : History) : Exec Dom unit :=
  clearCanvas id ;;
  canvas <- gets (fun d => canvases d id) ;;
  let sc := welfareScale (width canvas) h in
  drawLine id (height canvas) sc (welfareAlpha h) "#5aa2ff" ;;
  drawLine id (height canvas) sc (welfareBeta h) "#ffb15a" ;;
  drawLine id (height canvas) sc (welfareGamma h) "#8bd17c" ;;
  ctx id (fillStyle "#9aa4ad") ;;
  ctx id (font "11px IBM Plex Mono") ;;
  ctx id (fillText [Lit "Alpha"] (Fin (width canvas - q 90)) (Fin (q 22))) ;;
  ctx id (fillStyle "#5aa2ff") ;;
  ctx id (fillRect (Fin (width canvas - q 110)) (Fin (q 14)) (Fin (q 14)) (Fin (q 4))) ;;
  legend id (width canvas) "Beta" "#ffb15a" 38 30 ;;
  legend id (width canvas) "Gamma" "#8bd17c" 54 46 ;;
  ctx id (fillStyle "#9aa4ad") ;;
  ctx id (font "10px IBM Plex Mono") ;;
  ctx id (fillText [Lit "Min: "; toFixed2 (minValue sc)] (Fin padding) (Fin (q 16))) ;;
  ctx id (fillText [Lit "Max: "; toFixed2 (maxValue sc)] (Fin padding) (Fin (q 30))).

(** [Math.min(0.85, 0.2 + value / max)] (app.js line 214) *)
Definition intensity (value max : Num) : Num :=
  nmin (Fin (85 # 100)) (nadd (Fin (2 # 10)) (ndiv value max)).

Definition heatmapCell (max : Num) (kv : string * JsVal) : Html :=
  Elem "div"
    [("class", [Lit "heatmap-cell"]);
     ("style.background",
      [Lit "rgba(90, 162, 255, "; InterpNum (intensity (Js.toNum (snd kv)) max);
       Lit ")"])]
    [span [Lit (fst kv)]; span [Interp (snd kv)]].

(** app.js lines 208-221 *)
Definition renderHeatmap (tradeFlow : JsVal) : Exec Dom unit :=
  setInnerHTML "heatmap" [] ;;
  es <- lift (Js.entries (Js.or tradeFlow (VObj []))) ;;
  max <- lift (mathMax (map snd es)) ;;
  forEach (fun kv =>
    lift (Js.coerce (snd kv)) ;;
    appendChild "heatmap" (heatmapCell max kv))
    es.

(** ** The polling tick *)

(** The module-level variables of app.js (lines 4-10), next to [History]. *)
Record Session : Type := mkSession {
  history : History;
  lastTimestamp : JsVal;
  staleTicks : nat
}.

(** Everything a tick can touch: the session state, the page, and what the
    outside observes (calls of [location.reload] and [console.error]). *)
Record World : Type := mkWorld {
  session : Session;
  dom : Dom;
  reloads : nat;
  console : list Err
}.

Definition setSession (s : Session) (w : World) : World :=
  mkWorld s (dom w) (reloads w) (console w).

Definition setDom (d : Dom) (w : World) : World :=
  mkWorld (session w) d (reloads w) (console w).

Definition onSession (f : Session -> Session) : Exec World unit :=
  modify (fun w => setSession (f (session w)) w).

(** [location.reload()] *)
Definition locationReload : Exec World unit :=
  modify (fun w => mkWorld (session w) (dom w) (S (reloads w)) (console w)).

(** [console.error(err)] *)
Definition consoleError (err : Err) : Exec World unit :=
  modify (fun w => mkWorld (session w) (dom w) (reloads w) (console w ++ [err])).

(** A renderer run on the page of the world. *)
Definition inDom {A : Type} (m : Exec Dom A) : Exec World A :=
  fun w =>
    match m (dom w) with
    | (o, d) => (o, setDom d w)
    end.

(** What one tick gets from the network: [fetch] rejects, or resolves to a
    response with its [ok] flag and, when [response.json()] resolves, the
    parsed body. *)
Inductive Fetched : Type :=
| Rejected
| Response (ok : bool) (body : option JsVal).

(** app.js lines 233-235 *)
Definition showHeader (data : JsVal) : Exec World unit :=
  round <- lift (Js.get data "round") ;;
  inDom (setTextContent "round" round) ;;
  phase <- lift (Js.get data "phase") ;;
  inDom (setTextContent "phase" phase) ;;
  timestamp <- lift (Js.get data "timestamp") ;;
  inDom (setTextContent "timestamp" timestamp).

(** app.js lines 236-241 *)
Definition trackStaleness (data : JsVal) : Exec World unit :=
  timestamp <- lift (Js.get data "timestamp") ;;
  last <- gets (fun w => lastTimestamp (session w)) ;;
  if Js.strictEq timestamp last
  then onSession (fun s => mkSession (history s) (lastTimestamp s) (staleTicks s + 1))
  else
    onSession (fun s => mkSession (history s) (lastTimestamp s) 0) ;;
    onSession (fun s => mkSession (history s) timestamp (staleTicks s)).

(** app.js lines 242-254 *)
Definition showStrategy (data : JsVal) : Exec Dom unit :=
  classification <- lift (Js.get data "classification") ;;
  setTextContent "classification" classification ;;
  setText "classification-memo"
    [Lit "Scenario classified; see policy notes for strategic guidance."] ;;
  events <- lift (Js.get data "events") ;;
  reversed <- lift (Js.sliceReverse (Js.or events (VArr []))) ;;
  strategyEvent <-
    findE (fun event =>
             topic <- lift (Js.get event "topic") ;;
             ret (Js.strictEq topic (VStr "strategy")))
          reversed ;;
  let awaiting := setText "payoff" [Lit "Payoff matrix awaiting update."] in
  match strategyEvent with
  | Some event =>
      payload <- lift (if Js.truthy event then Js.get event "payload" else Ok event) ;;
      if Js.truthy event && Js.truthy payload
      then
        matrix <- lift (Js.get payload "payoff_matrix") ;;
        setText "payoff" [Lit "Payoff matrix: "; JsonOf (Js.or matrix (VObj []))]
      else awaiting
  | None => awaiting
  end.

(** app.js lines 256-258 *)
Definition showLearning (data : JsVal) : Exec Dom unit :=
  learning <- lift (Js.get data "learning") ;;
  aggression <- lift (Js.get learning "alpha_aggression") ;;
  setTextContent "alpha-aggression" aggression ;;
  score <- lift (Js.get learning "effectiveness_score") ;;
  setTextContent "effectiveness-score" score ;;
  note <- lift (Js.get learning "note") ;;
  setTextContent "learning-note" note.

(** [data.countries[name] || data.countries[alias]] (app.js lines 264-266) *)
Definition pickCountry (countries : JsVal) (name alias : string)
  : Exec Dom JsVal :=
  byName <- lift (Js.get countries name) ;;
  byAlias <- lift (if Js.truthy byName then Ok VUndef else Js.get countries alias) ;;
  ret (Js.or byName byAlias).

(** app.js lines 263-270 *)
Definition showCountries (data : JsVal) : Exec Dom unit :=
  countries <- lift (Js.get data "countries") ;;
  if Js.truthy countries
  then
    alpha <- pickCountry countries "Country Alpha" "alpha" ;;
    beta <- pickCountry countries "Country Beta" "beta" ;;
    gamma <- pickCountry countries "Country Gamma" "gamma" ;;
    (if Js.truthy alpha then renderCountryMetrics "alpha-metrics" alpha else ret tt) ;;
    (if Js.truthy beta then renderCountryMetrics "beta-metrics" beta else ret tt) ;;
    (if Js.truthy gamma then renderCountryMetrics "gamma-metrics" gamma else ret tt)
  else ret tt.

(** app.js lines 272-284 *)
Definition showStatus (data : JsVal) : Exec Dom unit :=
  health <- lift (Js.get data "system_health") ;;
  (if Js.truthy health
   then
     backend <- lift (Js.get health "backend") ;;
     lift (Js.coerce backend) ;;
     setText "system-health" [Lit "State backend: "; Interp backend]
   else ret tt) ;;
  agents <- lift (Js.get data "agent_status") ;;
  if Js.truthy agents
  then
    setInnerHTML "agent-status" [] ;;
    es <- lift (Js.entries agents) ;;
    forEach (fun kv =>
      lift (Js.coerce (snd kv)) ;;
      appendChild "agent-status"
        (li [TextNode [Lit (fst kv); Lit ": "; Interp (snd kv)]]))
      es
  else ret tt.

(** app.js lines 260-284 *)
Definition renderPanels (data : JsVal) : Exec Dom unit :=
  timeline <- lift (Js.get data "policy_timeline") ;;
  renderTimeline (Js.or timeline (VArr [])) ;;
  events <- lift (Js.get data "events") ;;
  renderFeed (Js.or events (VArr [])) ;;
  renderMessages (Js.or events (VArr [])) ;;
  showCountries data ;;
  showStatus data.

(** [push] on the three buffers, then [shift] on the three when the first
    has grown past 20 (app.js lines 287-294). *)
Definition pushWelfare (a b c : JsVal) (h : History) : History :=
  let pushed :=
    mkHistory (welfareAlpha h ++ [a]) (welfareBeta h ++ [b]) (welfareGamma h ++ [c]) in
  if Nat.ltb 20 (List.length (welfareAlpha pushed))
  then mkHistory (tl (welfareAlpha pushed)) (tl (welfareBeta pushed))
         (tl (welfareGamma pushed))
  else pushed.

(** app.js lines 286-295 *)
Definition recordWelfare (data : JsVal) : Exec World unit :=
  impact <- lift (Js.get data "welfare_impact") ;;
  if Js.truthy impact
  then
    a <- lift (Js.get impact "Country Alpha") ;;
    b <- lift (Js.get impact "Country Beta") ;;
    c <- lift (Js.get impact "Country Gamma") ;;
    onSession (fun s =>
      mkSession (pushWelfare a b c (history s)) (lastTimestamp s) (staleTicks s))
  else ret tt.

(** app.js lines 297-299 *)
Definition drawCharts (data : JsVal) : Exec World unit :=
  flow <- lift (Js.get data "trade_flow") ;;
  inDom (drawTradeFlow "trade-flow" (Js.or flow (VObj []))) ;;
  inDom (renderHeatmap (Js.or flow (VObj []))) ;;
  h <- gets (fun w => history (session w)) ;;
  inDom (drawWelfare "welfare" h).

(** app.js lines 300-302 *)
Definition reloadWhenStale : Exec World unit :=
  n <- gets (fun w => staleTicks (session w)) ;;
  if Nat.leb 6 n then locationReload else ret tt.

(** app.js lines 233-302: the tick once a document has been parsed. *)
Definition render (data : JsVal) : Exec World unit :=
  showHeader data ;;
  trackStaleness data ;;
  inDom (showStrategy data) ;;
  inDom (showLearning data) ;;
  inDom (renderPanels data) ;;
  recordWelfare data ;;
  drawCharts data ;;
  reloadWhenStale.

(** The body of the outer [try] (app.js lines 225-302). *)
Definition attempt (fetched : Fetched) : Exec World unit :=
  match fetched with
  | Rejected => lift (Throw NetworkError)
  | Response false _ => ret tt
  | Response true None => ret tt
  | Response true (Some data) => render data
  end.

(** app.js lines 223-306 *)
Definition refresh (fetched : Fetched) : Exec World unit :=
  tryCatch (attempt fetched) consoleError.

(** ** The page over time *)

Definition initialSession : Session :=
  mkSession (mkHistory [] [] []) (VStr "") 0.

(** The page as shipped: untouched markup, blank canvases of the given
    sizes. *)
Definition pristine (d : Dom) : Dom :=
  mkDom (fun _ => [Shipped])
    (fun i => mkCanvas (width (canvases d i)) (height (canvases d i)) []).

(** The client right after the page has loaded. *)
Definition start (d : Dom) : World := mkWorld initialSession (pristine d) 0 [].

(** One timer tick.  A tick that called [location.reload] ends with the
    page loaded afresh: the script's variables and the markup start over. *)
Definition tick (fetched : Fetched) (w : World) : World :=
  let w' := snd (refresh fetched w) in
  if Nat.ltb (reloads w) (reloads w')
  then mkWorld initialSession (pristine (dom w')) (reloads w') (console w')
  else w'.

Definition run (w : World) (ticks : list Fetched) : World :=
  fold_left (fun acc fetched => tick fetched acc) ticks w.

(** Did the tick call [location.reload]? *)
Definition reloaded (fetched : Fetched) (w : World) : bool :=
  Nat.ltb (reloads w) (reloads (snd (refresh fetched w))).

(** Which ticks of a run called [location.reload]. *)
Fixpoint reloadTrace (w : World) (ticks : list Fetched) : list bool :=
  match ticks with
  | [] => []
  | f :: r => reloaded f w :: reloadTrace (tick f w) r
  end.

(** ** Vocabulary of the statements *)

(** [v.k] read as a value: [undefined] where the read would throw. *)
Definition field (v : JsVal) (k : string) : JsVal :=
  match Js.get v k with
  | Ok x => x
  | Throw _ => VUndef
  end.

(** A tick that fetched [ok] and parsed [data]. *)
Definition parsed (data : JsVal) : Fetched := Response true (Some data).

(** The staleness rule in the words of the specification: equal timestamp,
    one more stale tick; different timestamp, counter back to 0 and the new
    timestamp remembered. *)
Definition staleUpdate (timestamp : JsVal) (s : Session) : Session :=
  if Js.strictEq timestamp (lastTimestamp s)
  then mkSession (history s) (lastTimestamp s) (staleTicks s + 1)
  else mkSession (history s) timestamp 0.

(** A History Buffer in the words of the specification: append, and when
    the capacity is exceeded drop the oldest element. *)
Definition fifoPush {A : Type} (capacity : nat) (v : A) (buffer : list A)
  : list A :=
  if Nat.ltb (List.length buffer) capacity then buffer ++ [v]
  else skipn 1 buffer ++ [v].

(** The three buffers advance together and stay within the capacity. *)
Definition lockstep (h : History) : Prop :=
  List.length (welfareAlpha h) = List.length (welfareBeta h) /\
  List.length (welfareBeta h) = List.length (welfareGamma h) /\
  (List.length (welfareAlpha h) <= 20)%nat.

Definition isOk {A : Type} (o : Outcome A) : bool :=
  match o with
  | Ok _ => true
  | Throw _ => false
  end.

(** A step that only writes to the page. *)
Definition pageOnly (w w' : World) : Prop :=
  session w' = session w /\ reloads w' = reloads w /\ console w' = console w.

Definition writesPage {A : Type} (m : Exec World A) : Prop :=
  forall w, pageOnly w (snd (m w)).

(** What lines 286-295 do to the buffers. *)
Definition welfareStep (data : JsVal) (h : History) : History :=
  let impact := field data "welfare_impact" in
  if Js.truthy impact
  then pushWelfare (field impact "Country Alpha") (field impact "Country Beta")
         (field impact "Country Gamma") h
  else h.

(** What is left of a tick once the staleness rule has produced the session
    [s1]: the rest never touches [lastTimestamp] and [staleTicks], pushes
    to the buffers at most once (and does so when it runs to its end),
    logs nothing by itself, and reloads exactly when it reaches its last
    statement with six or more stale ticks counted. *)
Definition tickPost (data : JsVal) (w : World) (s1 : Session)
  (r : Outcome unit * World) : Prop :=
  let s' := session (snd r) in
  lastTimestamp s' = lastTimestamp s1 /\
  staleTicks s' = staleTicks s1 /\
  (history s' = history (session w) \/
   history s' = welfareStep data (history (session w))) /\
  (isOk (fst r) = true -> history s' = welfareStep data (history (session w))) /\
  console (snd r) = console w /\
  reloads (snd r) =
    if isOk (fst r) && Nat.leb 6 (staleTicks s') then S (reloads w) else reloads w.

Definition afterStaleness (w : World) (s1 : Session) (w2 : World) : Prop :=
  session w2 = s1 /\ reloads w2 = reloads w /\ console w2 = console w.

(** ** Sample inputs *)

(** A page as shipped, with two 400 x 200 canvases. *)
Definition samplePage : Dom :=
  mkDom (fun _ => [Shipped]) (fun _ => mkCanvas (q 400) (q 200) []).

(** [{"timestamp": ts, "learning": {}}]: the smallest document on which a
    tick runs to its end. *)
Definition snapshotAt (ts : string) : JsVal :=
  VObj [("timestamp", VStr ts); ("learning", VObj [])].

(** [{"learning": {}}]: the same without a timestamp. *)
Definition snapshotNoTimestamp : JsVal := VObj [("learning", VObj [])].

(** The document carries the timestamp [ts] (in the sense of [===]). *)
Definition carries (ts : JsVal) (d : JsVal) : Prop :=
  Js.strictEq (field d "timestamp") ts = true.

(** Every tick of the run reaches the last statement of [refresh]. *)
Fixpoint ticksComplete (w : World) (docs : list JsVal) : Prop :=
  match docs with
  | [] => True
  | d :: rest =>
      fst (render d w) = Ok tt /\ ticksComplete (tick (parsed d) w) rest
  end.

(** [{"timestamp": "t1", "welfare_impact": {...}, "trade_flow": {...}}]:
    a document with every chart input but without [learning]. *)
Definition snapshotNoLearning : JsVal :=
  VObj [("timestamp", VStr "t1");
        ("policy_timeline", VArr []);
        ("events", VArr []);
        ("welfare_impact",
         VObj [("Country Alpha", VNum (q 90)); ("Country Beta", VNum (q 91));
               ("Country Gamma", VNum (q 92))]);
        ("trade_flow", VObj [("energy", VNum (q 3))])].

(** The list item written for one event (app.js lines 70-76), its fields
    read as values. *)
Definition eventLi (event : JsVal) : Html :=
  li [div "timestamp"
        [TextNode [Interp (field event "timestamp"); Lit " | ";
                   Interp (field event "source")]];
      plainDiv [strong [Interp (field event "title")]];
      plainDiv [TextNode [Interp (field event "memo")]]].

(** The topic of the event is one of the four of the allowlist. *)
Definition allowedTopic (event : JsVal) : bool :=
  existsb (fun t => Js.strictEq (VStr t) (field event "topic")) allowedTopics.

(** [[{"topic": "other", "title": "noise"}]] *)
Definition eventsOffTopic : list JsVal :=
  [VObj [("topic", VStr "other"); ("title", VStr "noise")]].

(** What [renderCountryMetrics] leaves in the panel, in the words of the
    specification: the placeholder when the record or its [gdp] is absent,
    the card otherwise. *)
Definition metricsPanel (data : JsVal) : list Html :=
  if negb (Js.truthy data) || Js.strictEq (field data "gdp") VUndef
  then noData
  else [countryCard (field data "gdp") (field data "welfare")
          (field data "political_pressure") (field data "exports")
          (field data "imports") (field data "tariffs")].

(** The record the tick looks up for one entity
    ([data.countries[name] || data.countries[alias]], app.js lines 263-266);
    [undefined] when there is no [countries]. *)
Definition entityRecord (data : JsVal) (name alias : string) : JsVal :=
  let countries := field data "countries" in
  if Js.truthy countries
  then Js.or (field countries name) (field countries alias)
  else VUndef.







(** A page step that does not write to the element [id]. *)
Definition leaves {A : Type} (id : string) (m : Exec Dom A) : Prop :=
  forall d, elems (snd (m d)) id = elems d id.

(** A tick step that does not write to the element [id]. *)
Definition keepsPanel {A : Type} (id : string) (m : Exec World A) : Prop :=
  forall w, elems (dom (snd (m w))) id = elems (dom w) id.



(** The buffers as the chart reads them: one list of stored values. *)
Definition stored (h : History) : list JsVal :=
  welfareAlpha h ++ welfareBeta h ++ welfareGamma h.

(** [m] only issues context calls on the canvas [id], and returns. *)
Definition draws (id : string) (m : Exec Dom unit) : Prop :=
  forall d,
    fst (m d) = Ok tt /\
    width (canvases (snd (m d)) id) = width (canvases d id) /\
    height (canvases (snd (m d)) id) = height (canvases d id) /\
    exists cs, calls (canvases (snd (m d)) id) = calls (canvases d id) ++ cs.

(** ... and the last calls it issues are [last]. *)
Definition endsWith (id : string) (last : list CtxCall) (m : Exec Dom unit)
  : Prop :=
  forall d,
    fst (m d) = Ok tt /\
    exists cs, calls (canvases (snd (m d)) id) = calls (canvases d id) ++ cs ++ last.


(** Buffers holding numbers within [85, 95] and values that are not
    numbers; the same with a 110. *)
Definition historyInBand : History :=
  mkHistory [VNum (q 85); VNum (q 95)] [VNum (q 90); VUndef] [VNum (q 88); VStr "x"].

Definition historyWithPeak : History :=
  mkHistory [VNum (q 85); VNum (q 110)] [VNum (q 90); VUndef] [VNum (q 88); VNull].

(** The elements written by the part of a tick that comes after the
    [learning] fields (app.js lines 260-298). *)
Definition laterPanels : list string :=
  ["timeline"; "feed"; "messages"; "alpha-metrics"; "beta-metrics";
   "gamma-metrics"; "system-health"; "agent-status"; "heatmap"].

(** A page step that issues no call on any canvas. *)
Definition keepsCanvases {A : Type} (m : Exec Dom A) : Prop :=
  forall d, canvases (snd (m d)) = canvases d.

(** [{"timestamp": "t1", "learning": {}, "welfare_impact": {...}}] *)
Definition snapshotWelfare : JsVal :=
  VObj [("timestamp", VStr "t1"); ("learning", VObj []);
        ("welfare_impact",
         VObj [("Country Alpha", VNum (q 90)); ("Country Beta", VNum (q 91))])].

(** The step returns normally from every state. *)
Definition returns {St A : Type} (m : Exec St A) : Prop :=
  forall s, isOk (fst (m s)) = true.

(** An array none of whose elements is [null]. *)
Definition nonNullList (v : JsVal) : Prop :=
  exists items, v = VArr items /\ Forall (fun x => nullish x = false) items.

(** No object inside [v] has a member named [toString]: every value read
    from [v] has a string and a number. *)
Fixpoint plain (v : JsVal) : bool :=
  match v with
  | VObj props =>
      negb (existsb (fun p => String.eqb (fst p) "toString") props) &&
      forallb (fun p => plain (snd p)) props
  | VArr items => forallb plain items
  | _ => true
  end.

(** A document on which every tick runs to its end: it has [learning],
    [events] and [policy_timeline], where present, are arrays without
    [null] elements, and no object in it has a member named [toString].
    Every field may otherwise be missing or of any shape. *)
Definition wellShaped (data : JsVal) : Prop :=
  nullish data = false /\
  plain data = true /\
  nullish (field data "learning") = false /\
  nonNullList (Js.or (field data "events") (VArr [])) /\
  nonNullList (Js.or (field data "policy_timeline") (VArr [])).

(** The buffers hold nothing that [value - minValue] (line 174) would
    throw on. *)
Definition buffersConvertible (h : History) : Prop :=
  Forall (fun v => Js.convertible v = true) (stored h).

(** The list item written for one timeline entry (app.js lines 26-31), its
    fields read as values. *)
Definition timelineLi (item : JsVal) : Html :=
  li [div "timestamp" [TextNode [Interp (field item "timestamp")]];
      plainDiv [TextNode [Interp (field item "label")]]].

(** A list panel: the placeholder for no entry, else one item per entry,
    the latest entry first. *)
Definition latestFirst (placeholder : string) (item : JsVal -> Html)
  (entries : list JsVal) : list Html :=
  match entries with
  | [] => [li [TextNode [Lit placeholder]]]
  | _ :: _ => map item (rev entries)
  end.

(** [event.topic === "strategy"] on a value read with [field]. *)
Definition isStrategy (event : JsVal) : bool :=
  Js.strictEq (field event "topic") (VStr "strategy").

Definition awaitingPayoff : Text := [Lit "Payoff matrix awaiting update."].

(** The text of the payoff line for a list of events: taken from the
    latest event with topic [strategy], if it has a payload. *)
Definition payoffText (events : list JsVal) : Text :=
  match find isStrategy (rev events) with
  | Some event =>
      if Js.truthy (field event "payload")
      then [Lit "Payoff matrix: ";
            JsonOf (Js.or (field (field event "payload") "payoff_matrix") (VObj []))]
      else awaitingPayoff
  | None => awaitingPayoff
  end.

(** The list item written for one agent (app.js lines 280-282). *)
Definition agentLi (kv : string * JsVal) : Html :=
  li [TextNode [Lit (fst kv); Lit ": "; Interp (snd kv)]].

(** [Object.entries(v)] of a value that is not [null]. *)
Definition entriesOf (v : JsVal) : list (string * JsVal) :=
  match Js.entries v with
  | Ok es => es
  | Throw _ => []
  end.

(** A tick whose document, if one was parsed, is well-shaped; failed
    fetches are allowed. *)
Definition tickOk (fetched : Fetched) : Prop :=
  match fetched with
  | Response true (Some data) => wellShaped data
  | _ => True
  end.

(** [{"timestamp": "t1", "learning": {"note": "n"}, "events": [{"topic":
    "market"}], "countries": 3, "trade_flow": "x", "agent_status": true}]:
    well-shaped, with several fields of the wrong type. *)
Definition snapshotOddShapes : JsVal :=
  VObj [("timestamp", VStr "t1");
        ("learning", VObj [("note", VStr "n")]);
        ("events", VArr [VObj [("topic", VStr "market")]]);
        ("countries", VNum (q 3));
        ("trade_flow", VStr "x");
        ("agent_status", VBool true)].

(** The last [n] elements of a list. *)
Definition lastn {A : Type} (n : nat) (l : list A) : list A :=
  skipn (List.length l - n) l.

(** The push of lines 287-294 repeated, one triple of values per tick. *)
Definition pushAll (h : History) (triples : list (JsVal * JsVal * JsVal))
  : History :=
  fold_left
    (fun acc t => pushWelfare (fst (fst t)) (snd (fst t)) (snd t) acc)
    triples h.

(** The three values a document with [welfare_impact] pushes. *)
Definition impactOf (data : JsVal) (name : string) : JsVal :=
  field (field data "welfare_impact") name.

(** [{"timestamp": ts, "learning": {}, "welfare_impact": {"Country Alpha":
    a}}] *)
Definition snapshotImpact (ts : string) (a : Z) : JsVal :=
  VObj [("timestamp", VStr ts); ("learning", VObj []);
        ("welfare_impact", VObj [("Country Alpha", VNum (q a))])].



Definition barWidth (W : Q) (n : nat) : Q := (W - q 40) / inject_Z (Z.of_nat n).




(** Lines 233-235 run through: [round], [phase] and [timestamp] each have
    a string. *)
Definition headerShows (data : JsVal) : bool :=
  Js.convertible (field data "round") && Js.convertible (field data "phase") &&
  Js.convertible (field data "timestamp").

(** [{"timestamp": "", "round": {"toString": 0}, "learning": {}}]: a
    document whose [round] has no string. *)
Definition snapshotBadRound : JsVal :=
  VObj [("timestamp", VStr ""); ("round", VObj [("toString", VNum 0)]);
        ("learning", VObj [])].

(** A timeline entry, and an event, whose displayed fields all have a
    string. *)
Definition entryShows (item : JsVal) : bool :=
  negb (nullish item) &&
  Js.convertible (field item "timestamp") && Js.convertible (field item "label").

Definition eventShows (event : JsVal) : bool :=
  negb (nullish event) &&
  Js.convertible (field event "timestamp") && Js.convertible (field event "source") &&
  Js.convertible (field event "title") && Js.convertible (field event "memo").

(** The value can stand in the card: a number, or a value with a string. *)
Definition interpolable (value : JsVal) : bool :=
  Js.isNumber value || Js.convertible value.

Definition rowsShow (obj : JsVal) : bool :=
  forallb (fun kv => interpolable (snd kv)) (entriesOf (Js.or obj (VObj []))).

(** Every value the card of lines 95-126 displays can stand in it. *)
Definition cardShows (data : JsVal) : bool :=
  interpolable (field data "gdp") && interpolable (field data "welfare") &&
  interpolable (field data "political_pressure") &&
  rowsShow (field data "exports") && rowsShow (field data "imports") &&
  rowsShow (field data "tariffs").

(** [renderCountryMetrics] returns on the record: it is absent, or its
    [gdp] is, or its card can be written. *)
Definition panelShows (data : JsVal) : bool :=
  negb (Js.truthy data) || Js.strictEq (field data "gdp") VUndef || cardShows data.


(** The status lines of lines 272-284 can be written. *)
Definition statusShows (data : JsVal) : bool :=
  (negb (Js.truthy (field data "system_health")) ||
   Js.convertible (field (field data "system_health") "backend")) &&
  (negb (Js.truthy (field data "agent_status")) ||
   forallb (fun kv => Js.convertible (snd kv)) (entriesOf (field data "agent_status"))).

(** *** The order of the members of a parsed object

    [JSON.parse] creates the properties of an object in the order of the
    members in the text; a repeated name keeps its first place and takes
    the last value.  [Object.entries] then lists the properties whose name
    is an array index (a canonical decimal numeral up to 2^32 - 2) in
    ascending order, and after them the others in order of creation. *)







(** * Properties *)

(** ** Reading and converting values *)

Lemma get_ok (v : JsVal) (k : string) :
  nullish v = false -> Js.get v k = Ok (field v k).
Proof.
  unfold field. destruct v; simpl; intros H; try reflexivity; discriminate H.
Qed.

Lemma get_throw (v : JsVal) (k : string) :
  nullish v = true -> exists e, Js.get v k = Throw e.
Proof.
  destruct v; simpl; intros H; try discriminate H; eexists; reflexivity.
Qed.

Lemma truthy_not_nullish (v : JsVal) : Js.truthy v = true -> nullish v = false.
Proof. destruct v; simpl; intros H; try reflexivity; discriminate H. Qed.

Lemma coerce_ok (v : JsVal) : Js.convertible v = true -> Js.coerce v = Ok tt.
Proof. unfold Js.coerce. intros ->. reflexivity. Qed.

Lemma coerce_throw (v : JsVal) :
  Js.convertible v = false -> exists e, Js.coerce v = Throw e.
Proof. unfold Js.coerce. intros ->. eexists. reflexivity. Qed.

Lemma nullish_convertible (v : JsVal) : nullish v = true -> Js.convertible v = true.
Proof. destruct v; simpl; intros H; try discriminate H; reflexivity. Qed.

Lemma toNumber_ok (v : JsVal) :
  Js.convertible v = true -> Js.toNumber v = Ok (Js.toNum v).
Proof. unfold Js.toNumber. intros Hc. rewrite (coerce_ok _ Hc). reflexivity. Qed.

(** ** One tick, stage by stage *)

Lemma bind_run {St A B : Type} (m : Exec St A) (k : A -> Exec St B) (s : St) :
  bind m k s =
  match m s with
  | (Ok a, s') => k a s'
  | (Throw e, s') => (Throw e, s')
  end.
Proof. reflexivity. Qed.

Lemma bind_ok {St A B : Type} (m : Exec St A) (k : A -> Exec St B) (s s' : St)
  (a : A) :
  m s = (Ok a, s') -> bind m k s = k a s'.
Proof. intros H. rewrite bind_run, H. reflexivity. Qed.

Lemma bind_throw {St A B : Type} (m : Exec St A) (k : A -> Exec St B) (s s' : St)
  (e : Err) :
  m s = (Throw e, s') -> bind m k s = (Throw e, s').
Proof. intros H. rewrite bind_run, H. reflexivity. Qed.

(** A read [v.k] of a value that is not [null] hands [field v k] on. *)
Lemma bind_get {St B : Type} (v : JsVal) (k : string) (rest : JsVal -> Exec St B)
  (s : St) :
  nullish v = false -> bind (lift (Js.get v k)) rest s = rest (field v k) s.
Proof. intros Hn. rewrite bind_run. unfold lift. rewrite (get_ok _ _ Hn). reflexivity. Qed.

(** A conversion of a value that has a string or a number goes through. *)
Lemma bind_coerce {St B : Type} (v : JsVal) (rest : unit -> Exec St B) (s : St) :
  Js.convertible v = true -> bind (lift (Js.coerce v)) rest s = rest tt s.
Proof. intros Hc. rewrite bind_run. unfold lift. rewrite (coerce_ok _ Hc). reflexivity. Qed.

Lemma bind_coerce_throw {St B : Type} (v : JsVal) (rest : unit -> Exec St B) (s : St) :
  Js.convertible v = false ->
  exists e, bind (lift (Js.coerce v)) rest s = (Throw e, s).
Proof.
  intros Hc. rewrite bind_run. unfold lift.
  destruct (coerce_throw _ Hc) as [e ->]. eauto.
Qed.

Lemma inDom_shape {A : Type} (m : Exec Dom A) (w : World) :
  exists o d, inDom m w = (o, setDom d w).
Proof. unfold inDom. destruct (m (dom w)) as [o d]. eauto. Qed.

Lemma setTextContent_run (id : string) (v : JsVal) (d : Dom) :
  Js.convertible v = true ->
  setTextContent id v d = (Ok tt, setElems id (textOf v) d).
Proof.
  intros Hc. unfold setTextContent. rewrite bind_run.
  destruct (nullish v); [reflexivity | ].
  unfold lift. rewrite (coerce_ok _ Hc). reflexivity.
Qed.

Lemma setTextContent_throw (id : string) (v : JsVal) (d : Dom) :
  Js.convertible v = false -> exists e, setTextContent id v d = (Throw e, d).
Proof.
  intros Hc. unfold setTextContent. rewrite bind_run.
  destruct (nullish v) eqn:Hn.
  - rewrite (nullish_convertible _ Hn) in Hc. discriminate Hc.
  - unfold lift. destruct (coerce_throw _ Hc) as [e ->]. eauto.
Qed.

Lemma inDom_run {A : Type} (m : Exec Dom A) (w : World) (o : Outcome A) (d : Dom) :
  m (dom w) = (o, d) -> inDom m w = (o, setDom d w).
Proof. unfold inDom. intros ->. reflexivity. Qed.

Lemma headerShows_fields (data : JsVal) :
  headerShows data = true ->
  Js.convertible (field data "round") = true /\
  Js.convertible (field data "phase") = true /\
  Js.convertible (field data "timestamp") = true.
Proof.
  unfold headerShows. intros H.
  apply andb_prop in H. destruct H as (H & Ht).
  apply andb_prop in H. destruct H as (Hr & Hp). repeat split; assumption.
Qed.

(** Lines 233-235 on a document whose three header fields have a string. *)
Lemma showHeader_eq (data : JsVal) (w : World) :
  nullish data = false ->
  headerShows data = true ->
  showHeader data w =
  (Ok tt,
   setDom
     (setElems "timestamp" (textOf (field data "timestamp"))
        (setElems "phase" (textOf (field data "phase"))
           (setElems "round" (textOf (field data "round")) (dom w))))
     w).
Proof.
  intros Hn Hs. destruct (headerShows_fields _ Hs) as (Hr & Hp & Ht).
  unfold showHeader.
  rewrite (bind_get _ _ _ _ Hn).
  rewrite (bind_ok _ _ _ _ _ (inDom_run _ _ _ _ (setTextContent_run _ _ _ Hr))).
  rewrite (bind_get _ _ _ _ Hn).
  rewrite (bind_ok _ _ _ _ _ (inDom_run _ _ _ _ (setTextContent_run _ _ _ Hp))).
  rewrite (bind_get _ _ _ _ Hn).
  rewrite (inDom_run _ _ _ _ (setTextContent_run _ _ _ Ht)).
  reflexivity.
Qed.

Lemma showHeader_ok (data : JsVal) (w : World) :
  nullish data = false ->
  headerShows data = true ->
  exists d, showHeader data w = (Ok tt, setDom d w).
Proof. intros Hn Hs. rewrite (showHeader_eq _ _ Hn Hs). eauto. Qed.

Lemma showHeader_throw (data : JsVal) (w : World) :
  nullish data = true -> exists e, showHeader data w = (Throw e, w).
Proof.
  intros H. unfold showHeader. rewrite bind_run. unfold lift.
  destruct (get_throw data "round" H) as [e ->]. eauto.
Qed.

(** ... and on a document one of whose header fields has none: the
    assignment throws, after the fields before it have been written. *)
Lemma showHeader_stops (data : JsVal) (w : World) :
  nullish data = false ->
  headerShows data = false ->
  exists e d,
    showHeader data w = (Throw e, setDom d w) /\
    canvases d = canvases (dom w) /\
    (forall id, In id laterPanels -> elems d id = elems (dom w) id).
Proof.
  intros Hn Hs. unfold headerShows in Hs. unfold showHeader.
  rewrite (bind_get _ _ _ _ Hn).
  destruct (Js.convertible (field data "round")) eqn:Hr.
  - rewrite (bind_ok _ _ _ _ _ (inDom_run _ _ _ _ (setTextContent_run _ _ _ Hr))).
    rewrite (bind_get _ _ _ _ Hn).
    destruct (Js.convertible (field data "phase")) eqn:Hp.
    + rewrite (bind_ok _ _ _ _ _ (inDom_run _ _ _ _ (setTextContent_run _ _ _ Hp))).
      rewrite (bind_get _ _ _ _ Hn).
      simpl in Hs.
      destruct (setTextContent_throw "timestamp" _
                  (dom (setDom (setElems "phase" (textOf (field data "phase"))
                          (dom (setDom (setElems "round" (textOf (field data "round"))
                                  (dom w)) w)))
                          (setDom (setElems "round" (textOf (field data "round"))
                                     (dom w)) w))) Hs) as [e He].
      rewrite (inDom_run _ _ _ _ He).
      exists e. eexists. split; [reflexivity | split; [reflexivity | ]].
      intros id Hid. repeat (destruct Hid as [<- | Hid]; [reflexivity | ]). contradiction.
    + destruct (setTextContent_throw "phase" _
                  (dom (setDom (setElems "round" (textOf (field data "round"))
                                  (dom w)) w)) Hp) as [e He].
      rewrite (bind_throw _ _ _ _ _ (inDom_run _ _ _ _ He)).
      exists e. eexists. split; [reflexivity | split; [reflexivity | ]].
      intros id Hid. repeat (destruct Hid as [<- | Hid]; [reflexivity | ]). contradiction.
  - destruct (setTextContent_throw "round" _ (dom w) Hr) as [e He].
    rewrite (bind_throw _ _ _ _ _ (inDom_run _ _ _ _ He)).
    exists e, (dom w). split; [reflexivity | split; [reflexivity | ]].
    intros id Hid. reflexivity.
Qed.

Lemma trackStaleness_ok (data : JsVal) (w : World) :
  nullish data = false ->
  trackStaleness data w =
  (Ok tt, setSession (staleUpdate (field data "timestamp") (session w)) w).
Proof.
  intros H. unfold trackStaleness, staleUpdate.
  rewrite (bind_get _ _ _ _ H).
  rewrite bind_run. unfold gets.
  destruct (Js.strictEq (field data "timestamp") (lastTimestamp (session w)));
    reflexivity.
Qed.

Lemma pageOnly_refl (w : World) : pageOnly w w.
Proof. repeat split. Qed.

Lemma pageOnly_trans (w1 w2 w3 : World) :
  pageOnly w1 w2 -> pageOnly w2 w3 -> pageOnly w1 w3.
Proof.
  intros (Hs1 & Hr1 & Hc1) (Hs2 & Hr2 & Hc2).
  repeat split; congruence.
Qed.

Lemma writesPage_inDom {A : Type} (m : Exec Dom A) : writesPage (inDom m).
Proof.
  intros w. unfold inDom. destruct (m (dom w)) as [o d]. repeat split.
Qed.

Lemma writesPage_lift {A : Type} (o : Outcome A) : writesPage (lift o).
Proof. intros w. apply pageOnly_refl. Qed.

Lemma writesPage_gets {A : Type} (f : World -> A) : writesPage (gets f).
Proof. intros w. apply pageOnly_refl. Qed.

Lemma writesPage_bind {A B : Type} (m : Exec World A) (k : A -> Exec World B) :
  writesPage m -> (forall a, writesPage (k a)) -> writesPage (bind m k).
Proof.
  intros Hm Hk w. rewrite bind_run.
  specialize (Hm w). destruct (m w) as [[a | e] w1]; simpl in Hm.
  - eapply pageOnly_trans; [exact Hm | apply Hk].
  - exact Hm.
Qed.

Create HintDb page.
#[local] Hint Resolve writesPage_inDom writesPage_lift writesPage_gets : page.

Ltac page_steps :=
  repeat (first [ apply writesPage_bind; [ | intros ? ] | solve [ auto with page ] ]).

Lemma writesPage_showHeader (data : JsVal) : writesPage (showHeader data).
Proof. unfold showHeader. page_steps. Qed.

Lemma writesPage_drawCharts (data : JsVal) : writesPage (drawCharts data).
Proof. unfold drawCharts. page_steps. Qed.

Lemma recordWelfare_ok (data : JsVal) (w : World) :
  nullish data = false ->
  exists w',
    recordWelfare data w = (Ok tt, w') /\
    dom w' = dom w /\ reloads w' = reloads w /\ console w' = console w /\
    lastTimestamp (session w') = lastTimestamp (session w) /\
    staleTicks (session w') = staleTicks (session w) /\
    history (session w') = welfareStep data (history (session w)).
Proof.
  intros H. unfold recordWelfare, welfareStep.
  rewrite bind_run. unfold lift. rewrite (get_ok _ _ H).
  destruct (Js.truthy (field data "welfare_impact")) eqn:Ht.
  - rewrite !bind_run. rewrite !(get_ok _ _ (truthy_not_nullish _ Ht)).
    eexists. split; [reflexivity | repeat split].
  - eexists. split; [reflexivity | repeat split].
Qed.

Lemma reloadWhenStale_run (w : World) :
  exists w',
    reloadWhenStale w = (Ok tt, w') /\
    session w' = session w /\ dom w' = dom w /\ console w' = console w /\
    reloads w' =
      if Nat.leb 6 (staleTicks (session w)) then S (reloads w) else reloads w.
Proof.
  unfold reloadWhenStale. rewrite bind_run. unfold gets.
  destruct (Nat.leb 6 (staleTicks (session w)));
    eexists; (split; [reflexivity | repeat split]).
Qed.

Lemma tickPost_inDom (data : JsVal) (w : World) (s1 : Session)
  (m : Exec Dom unit) (k : Exec World unit) (w2 : World) :
  history s1 = history (session w) ->
  afterStaleness w s1 w2 ->
  (forall w3, afterStaleness w s1 w3 -> tickPost data w s1 (k w3)) ->
  tickPost data w s1 (bind (inDom m) (fun _ => k) w2).
Proof.
  intros Hh (Hs & Hr & Hc) Hk. rewrite bind_run.
  pose proof (writesPage_inDom m w2) as (Hs' & Hr' & Hc').
  destruct (inDom m w2) as [[[] | e] w3]; simpl in Hs', Hr', Hc'.
  - apply Hk. repeat split; congruence.
  - unfold tickPost. simpl. rewrite Hs', Hs, Hr', Hr, Hc', Hc.
    repeat split; auto. discriminate.
Qed.

Lemma tickPost_tail (data : JsVal) (w : World) (s1 : Session) (w4 : World) :
  nullish data = false ->
  history s1 = history (session w) ->
  afterStaleness w s1 w4 ->
  tickPost data w s1
    (bind (recordWelfare data)
       (fun _ => bind (drawCharts data) (fun _ => reloadWhenStale)) w4).
Proof.
  intros H Hh (Hs4 & Hr4 & Hc4). rewrite bind_run.
  destruct (recordWelfare_ok data w4 H)
    as (w5 & -> & Hd5 & Hr5 & Hc5 & Hl5 & Ht5 & Hh5).
  rewrite bind_run.
  pose proof (writesPage_drawCharts data w5) as (Hs6 & Hr6 & Hc6).
  destruct (drawCharts data w5) as [[[] | e] w6]; simpl in Hs6, Hr6, Hc6.
  - destruct (reloadWhenStale_run w6) as (w7 & -> & Hs7 & Hd7 & Hc7 & Hr7).
    unfold tickPost. simpl.
    rewrite Hs7, Hs6, Hl5, Ht5, Hh5, Hs4, Hc7, Hc6, Hc5, Hc4, Hr7.
    rewrite Hs6, Ht5, Hs4, Hr6, Hr5, Hr4, Hh.
    repeat split; auto.
  - unfold tickPost. simpl.
    rewrite Hs6, Hl5, Ht5, Hh5, Hs4, Hc6, Hc5, Hc4, Hr6, Hr5, Hr4, Hh.
    repeat split; auto.
Qed.

Lemma staleUpdate_history (timestamp : JsVal) (s : Session) :
  history (staleUpdate timestamp s) = history s.
Proof. unfold staleUpdate. destruct (Js.strictEq _ _); reflexivity. Qed.

(** The rendering part of a tick on a document that is not [null] and
    whose header fields have a string: the staleness rule runs. *)
Lemma render_effect (data : JsVal) (w : World) :
  nullish data = false ->
  headerShows data = true ->
  tickPost data w (staleUpdate (field data "timestamp") (session w))
    (render data w).
Proof.
  intros H Hs. unfold render.
  rewrite bind_run.
  destruct (showHeader_ok data w H Hs) as [d1 ->].
  rewrite bind_run, (trackStaleness_ok _ _ H).
  pose proof (staleUpdate_history (field data "timestamp") (session w)) as Hh.
  apply tickPost_inDom; [exact Hh | repeat split | intros w2 H2].
  apply tickPost_inDom; [exact Hh | exact H2 | intros w3 H3].
  apply tickPost_inDom; [exact Hh | exact H3 | intros w4 H4].
  apply tickPost_tail; assumption.
Qed.

(** A document that parsed to [null] stops the tick at its first read. *)
Lemma render_null (data : JsVal) (w : World) :
  nullish data = true -> exists e, render data w = (Throw e, w).
Proof.
  intros H. unfold render. rewrite bind_run.
  destruct (showHeader_throw data w H) as [e ->]. eauto.
Qed.

(** A header field without a string stops the tick before the staleness
    rule: only the header fields before it have been written. *)
Lemma render_header_stops (data : JsVal) (w : World) :
  nullish data = false ->
  headerShows data = false ->
  exists e d,
    render data w = (Throw e, setDom d w) /\
    canvases d = canvases (dom w) /\
    (forall id, In id laterPanels -> elems d id = elems (dom w) id).
Proof.
  intros Hn Hs. unfold render.
  destruct (showHeader_stops data w Hn Hs) as (e & d & He & Hframe).
  rewrite (bind_throw _ _ _ _ _ He). exists e, d. split; [reflexivity | exact Hframe].
Qed.

Lemma render_ok_not_null (data : JsVal) (w : World) :
  fst (render data w) = Ok tt -> nullish data = false.
Proof.
  intros Hok. destruct (nullish data) eqn:Hn; [ | reflexivity].
  destruct (render_null data w Hn) as [e He]. rewrite He in Hok. discriminate.
Qed.

Lemma render_ok_header (data : JsVal) (w : World) :
  fst (render data w) = Ok tt -> headerShows data = true.
Proof.
  intros Hok. pose proof (render_ok_not_null data w Hok) as Hn.
  destruct (headerShows data) eqn:Hs; [reflexivity | ].
  destruct (render_header_stops data w Hn Hs) as (e & d & He & _).
  rewrite He in Hok. discriminate.
Qed.

(** ** The tick boundary *)

(** The outer [catch] turns a throw of the rendering part into one
    [console.error] and nothing else. *)
Lemma refresh_parsed (data : JsVal) (w : World) :
  let r := render data w in
  let w' := snd (refresh (parsed data) w) in
  session w' = session (snd r) /\
  dom w' = dom (snd r) /\
  reloads w' = reloads (snd r) /\
  console w' =
    console (snd r) ++ match fst r with Ok _ => [] | Throw e => [e] end.
Proof.
  cbv zeta. unfold refresh, parsed, tryCatch, attempt.
  destruct (render data w) as [[[] | e] w1]; simpl; repeat split.
  symmetry. apply app_nil_r.
Qed.

Lemma refresh_returns (fetched : Fetched) (w : World) :
  fst (refresh fetched w) = Ok tt.
Proof.
  unfold refresh, tryCatch.
  destruct (attempt fetched w) as [[[] | e] w1]; reflexivity.
Qed.

(** A tick stopped before line 236 leaves the session state alone. *)
Lemma refresh_stopped_early (data : JsVal) (w : World) :
  nullish data = true \/ headerShows data = false ->
  session (snd (refresh (parsed data) w)) = session w /\
  reloads (snd (refresh (parsed data) w)) = reloads w /\
  exists e, console (snd (refresh (parsed data) w)) = console w ++ [e].
Proof.
  intros Hearly.
  destruct (refresh_parsed data w) as (-> & _ & -> & ->).
  destruct (nullish data) eqn:Hn.
  - destruct (render_null data w Hn) as [e ->]. simpl. eauto.
  - destruct Hearly as [Hnull | Hs]; [discriminate Hnull | ].
    destruct (render_header_stops data w Hn Hs) as (e & d & -> & _). simpl. eauto.
Qed.

Lemma refresh_history (fetched : Fetched) (w : World) :
  history (session (snd (refresh fetched w))) = history (session w) \/
  exists a b c,
    history (session (snd (refresh fetched w))) =
    pushWelfare a b c (history (session w)).
Proof.
  destruct fetched as [ | [ | ] [data | ]]; try (left; reflexivity).
  change (Response true (Some data)) with (parsed data).
  destruct (nullish data) eqn:Hn;
    [ | destruct (headerShows data) eqn:Hs].
  - left. destruct (refresh_stopped_early data w (or_introl Hn)) as (-> & _).
    reflexivity.
  - destruct (refresh_parsed data w) as (-> & _).
    destruct (render_effect data w Hn Hs) as (_ & _ & [Hh | Hh] & _).
    + left. exact Hh.
    + rewrite Hh. unfold welfareStep.
      destruct (Js.truthy (field data "welfare_impact")); eauto.
  - left. destruct (refresh_stopped_early data w (or_intror Hs)) as (-> & _).
    reflexivity.
Qed.

(** ** The History Buffers *)

Lemma pushWelfare_fifo (a b c : JsVal) (h : History) :
  lockstep h ->
  pushWelfare a b c h =
  mkHistory (fifoPush 20 a (welfareAlpha h)) (fifoPush 20 b (welfareBeta h))
    (fifoPush 20 c (welfareGamma h)).
Proof.
  intros (Hab & Hbc & Hle). unfold pushWelfare, fifoPush. cbn [welfareAlpha].
  rewrite <- Hbc, <- Hab, length_app. cbn [List.length].
  destruct (Nat.ltb_spec 20 (List.length (welfareAlpha h) + 1)) as [Hlt | Hge];
    destruct (Nat.ltb_spec (List.length (welfareAlpha h)) 20) as [Hlt' | Hge'];
    try lia.
  - cbn [welfareAlpha welfareBeta welfareGamma].
    destruct h as [[ | x xs] [ | y ys] [ | z zs]]; simpl in *;
      try lia; reflexivity.
  - reflexivity.
Qed.

Lemma fifoPush_length {A : Type} (capacity : nat) (v : A) (buffer : list A) :
  (0 < capacity)%nat ->
  (List.length buffer <= capacity)%nat ->
  (List.length (fifoPush capacity v buffer) <= capacity)%nat /\
  List.length (fifoPush capacity v buffer) =
    Nat.min capacity (S (List.length buffer)).
Proof.
  intros Hc Hle. unfold fifoPush.
  destruct (Nat.ltb_spec (List.length buffer) capacity) as [Hlt | Hge];
    rewrite length_app; cbn [List.length].
  - lia.
  - rewrite length_skipn. lia.
Qed.

Lemma pushWelfare_lockstep (a b c : JsVal) (h : History) :
  lockstep h -> lockstep (pushWelfare a b c h).
Proof.
  intros Hl. rewrite (pushWelfare_fifo a b c h Hl).
  destruct Hl as (Hab & Hbc & Hle). unfold lockstep. cbn [welfareAlpha welfareBeta welfareGamma].
  pose proof (fifoPush_length 20 a (welfareAlpha h)) as Ha.
  pose proof (fifoPush_length 20 b (welfareBeta h)) as Hb.
  pose proof (fifoPush_length 20 c (welfareGamma h)) as Hc.
  lia.
Qed.

Lemma tick_lockstep (fetched : Fetched) (w : World) :
  lockstep (history (session w)) -> lockstep (history (session (tick fetched w))).
Proof.
  intros Hl. unfold tick.
  destruct (Nat.ltb (reloads w) (reloads (snd (refresh fetched w)))).
  - simpl. unfold lockstep. simpl. lia.
  - destruct (refresh_history fetched w) as [-> | (a & b & c & ->)].
    + exact Hl.
    + apply pushWelfare_lockstep, Hl.
Qed.

Lemma run_lockstep (ticks : list Fetched) (w : World) :
  lockstep (history (session w)) -> lockstep (history (session (run w ticks))).
Proof.
  revert w. induction ticks as [ | f ticks IH]; intros w Hl; simpl.
  - exact Hl.
  - apply IH, tick_lockstep, Hl.
Qed.

(** C4. A tick whose fetch is rejected, whose response is not [ok], or whose
    body does not parse ends at once: the session state (last timestamp,
    stale counter, the three buffers) and the page are what they were, no
    reload is requested, at most the transport error is logged; and no
    tick at all, failed or not, lets an exception out of [refresh]. *)
Theorem tick_failure_leaves_session_unchanged (w : World) :
  (forall fetched, fst (refresh fetched w) = Ok tt) /\
  (let w' := snd (refresh Rejected w) in
   session w' = session w /\ dom w' = dom w /\ reloads w' = reloads w /\
   console w' = console w ++ [NetworkError]) /\
  (forall body, snd (refresh (Response false body) w) = w) /\
  snd (refresh (Response true None) w) = w /\
  (forall fetched,
     fetched = Rejected \/ (exists body, fetched = Response false body) \/
     fetched = Response true None ->
     session (tick fetched w) = session w /\ dom (tick fetched w) = dom w).
Proof.
  split; [ | split; [ | split; [ | split]]].
  - intros fetched. apply refresh_returns.
  - repeat split.
  - intros [body | ]; reflexivity.
  - reflexivity.
  - intros fetched [-> | [[body ->] | ->]]; unfold tick; simpl;
      rewrite Nat.ltb_irrefl; split; reflexivity.
Qed.

Lemma tick_failure_leaves_session_unchanged_witness :
  session (tick (Response false None) (start samplePage)) =
    session (start samplePage) /\
  dom (tick (Response false None) (start samplePage)) = dom (start samplePage).
Proof.
  apply (tick_failure_leaves_session_unchanged (start samplePage)).
  right. left. exists None. reflexivity.
Defined.

(** C2. Over every sequence of ticks the three buffers have one common
    length, at most 20; one tick leaves them alone or pushes one value onto
    each of the three; a push is the first-in first-out push of capacity 20
    on each buffer (the oldest value leaves when the buffer is full); a
    tick that runs to its end on a document with [welfare_impact] does
    push; and a document without [welfare_impact] changes no buffer. *)
Theorem history_buffers_bounded_fifo_lockstep :
  (forall page ticks, lockstep (history (session (run (start page) ticks)))) /\
  (forall fetched w,
     history (session (snd (refresh fetched w))) = history (session w) \/
     exists a b c,
       history (session (snd (refresh fetched w))) =
       pushWelfare a b c (history (session w))) /\
  (forall a b c h,
     lockstep h ->
     pushWelfare a b c h =
     mkHistory (fifoPush 20 a (welfareAlpha h)) (fifoPush 20 b (welfareBeta h))
       (fifoPush 20 c (welfareGamma h))) /\
  (forall data w,
     Js.truthy (field data "welfare_impact") = true ->
     fst (render data w) = Ok tt ->
     history (session (snd (refresh (parsed data) w))) =
     pushWelfare (field (field data "welfare_impact") "Country Alpha")
       (field (field data "welfare_impact") "Country Beta")
       (field (field data "welfare_impact") "Country Gamma")
       (history (session w))) /\
  (forall data w,
     Js.truthy (field data "welfare_impact") = false ->
     history (session (snd (refresh (parsed data) w))) = history (session w)).
Proof.
  split; [ | split; [ | split; [ | split]]].
  - intros page ticks. apply run_lockstep. unfold lockstep. simpl. lia.
  - apply refresh_history.
  - apply pushWelfare_fifo.
  - intros data w Ht Hok.
    destruct (refresh_parsed data w) as (-> & _).
    pose proof (render_ok_not_null data w Hok) as Hn.
    pose proof (render_ok_header data w Hok) as Hs.
    destruct (render_effect data w Hn Hs) as (_ & _ & _ & Hh & _).
    rewrite Hh by (rewrite Hok; reflexivity).
    unfold welfareStep. rewrite Ht. reflexivity.
  - intros data w Hf.
    destruct (nullish data) eqn:Hn;
      [ | destruct (headerShows data) eqn:Hs].
    + destruct (refresh_stopped_early data w (or_introl Hn)) as (-> & _).
      reflexivity.
    + destruct (refresh_parsed data w) as (-> & _).
      destruct (render_effect data w Hn Hs) as (_ & _ & [Hh | Hh] & _).
      * exact Hh.
      * rewrite Hh. unfold welfareStep. rewrite Hf. reflexivity.
    + destruct (refresh_stopped_early data w (or_intror Hs)) as (-> & _).
      reflexivity.
Qed.

Lemma history_buffers_bounded_fifo_lockstep_witness :
  pushWelfare (VNum 1) (VNum 2) (VNum 3)
    (mkHistory (repeat VNull 20) (repeat VNull 20) (repeat VNull 20)) =
  mkHistory (repeat VNull 19 ++ [VNum 1]) (repeat VNull 19 ++ [VNum 2])
    (repeat VNull 19 ++ [VNum 3]) /\
  history (session (snd (refresh (parsed snapshotWelfare) (start samplePage)))) =
  mkHistory [VNum (q 90)] [VNum (q 91)] [VUndef] /\
  history (session (snd (refresh (parsed (snapshotAt "t1")) (start samplePage)))) =
  history (session (start samplePage)).
Proof.
  destruct history_buffers_bounded_fifo_lockstep as (_ & _ & Hfifo & Hpush & Hskip).
  split; [ | split].
  - rewrite Hfifo; [reflexivity | ].
    unfold lockstep. simpl. lia.
  - rewrite Hpush; [reflexivity | reflexivity | vm_compute; reflexivity].
  - apply Hskip. reflexivity.
Defined.

(** ** Staleness and the reload *)

Lemma refresh_staleness (data : JsVal) (w : World) :
  nullish data = false ->
  headerShows data = true ->
  let s' := session (snd (refresh (parsed data) w)) in
  let s1 := staleUpdate (field data "timestamp") (session w) in
  lastTimestamp s' = lastTimestamp s1 /\ staleTicks s' = staleTicks s1.
Proof.
  intros Hn Hs. cbv zeta.
  destruct (refresh_parsed data w) as (-> & _).
  destruct (render_effect data w Hn Hs) as (Hl & Ht & _). split; assumption.
Qed.

Lemma reloaded_parsed (data : JsVal) (w : World) :
  nullish data = false ->
  headerShows data = true ->
  reloaded (parsed data) w =
  isOk (fst (render data w)) &&
  Nat.leb 6 (staleTicks (staleUpdate (field data "timestamp") (session w))).
Proof.
  intros Hn Hs. unfold reloaded.
  destruct (refresh_parsed data w) as (_ & _ & -> & _).
  destruct (render_effect data w Hn Hs) as (_ & Ht & _ & _ & _ & ->).
  rewrite Ht.
  destruct (isOk (fst (render data w)) && Nat.leb 6 _).
  - apply Nat.ltb_lt. lia.
  - apply Nat.ltb_irrefl.
Qed.

Lemma tick_not_reloaded (fetched : Fetched) (w : World) :
  reloaded fetched w = false -> tick fetched w = snd (refresh fetched w).
Proof. unfold reloaded, tick. intros ->. reflexivity. Qed.

Lemma staleUpdate_stale (timestamp : JsVal) (s : Session) :
  Js.strictEq timestamp (lastTimestamp s) = true ->
  lastTimestamp (staleUpdate timestamp s) = lastTimestamp s /\
  staleTicks (staleUpdate timestamp s) = (staleTicks s + 1)%nat.
Proof. unfold staleUpdate. intros ->. split; reflexivity. Qed.

Lemma staleUpdate_fresh (timestamp : JsVal) (s : Session) :
  Js.strictEq timestamp (lastTimestamp s) = false ->
  lastTimestamp (staleUpdate timestamp s) = timestamp /\
  staleTicks (staleUpdate timestamp s) = 0%nat.
Proof. unfold staleUpdate. intros ->. split; reflexivity. Qed.

(** Stale ticks that run to their end reload on the tick that brings the
    counter to 6, and on none before. *)
Lemma stale_trace (docs : list JsVal) (w : World) :
  Forall (carries (lastTimestamp (session w))) docs ->
  ticksComplete w docs ->
  (staleTicks (session w) + List.length docs <= 6)%nat ->
  reloadTrace w (map parsed docs) =
  map (fun i => Nat.leb 6 (staleTicks (session w) + i)) (seq 1 (List.length docs)).
Proof.
  revert w. induction docs as [ | d rest IH]; intros w Hall Hrun Hlen.
  - reflexivity.
  - destruct Hrun as (Hok & Hrest).
    pose proof (Forall_inv Hall) as Heq. unfold carries in Heq.
    pose proof (Forall_inv_tail Hall) as Hall'.
    pose proof (render_ok_not_null d w Hok) as Hn.
    pose proof (render_ok_header d w Hok) as Hs.
    pose proof (reloaded_parsed d w Hn Hs) as Hre.
    destruct (staleUpdate_stale _ _ Heq) as (Hl1 & Ht1).
    rewrite Hok, Ht1 in Hre. cbn [isOk andb] in Hre.
    cbn [map reloadTrace List.length seq]. rewrite Hre. f_equal.
    simpl in Hlen.
    destruct rest as [ | d' rest'].
    + reflexivity.
    + assert (Hno : reloaded (parsed d) w = false).
      { rewrite Hre. apply Nat.leb_gt. simpl in Hlen. lia. }
      rewrite (tick_not_reloaded _ _ Hno) in *.
      destruct (refresh_staleness d w Hn Hs) as (Hl2 & Ht2).
      rewrite IH;
        [ | rewrite Hl2, Hl1; exact Hall' | exact Hrest
          | rewrite Ht2, Ht1; simpl in *; lia].
      rewrite Ht2, Ht1. cbn [seq map].
      rewrite <- (seq_shift _ 1), map_map.
      apply map_ext. intros i. f_equal. lia.
Qed.

(** A tick with a new timestamp followed by six that repeat it: the reload
    comes with the seventh document. *)
Lemma fresh_then_stale_trace (d : JsVal) (rest : list JsVal) (w : World) :
  Js.strictEq (field d "timestamp") (lastTimestamp (session w)) = false ->
  Forall (carries (field d "timestamp")) rest ->
  ticksComplete w (d :: rest) ->
  List.length rest = 6%nat ->
  reloadTrace w (map parsed (d :: rest)) =
  [false; false; false; false; false; false; true].
Proof.
  intros Hne Hall (Hok & Hrest) Hlen.
  pose proof (render_ok_not_null d w Hok) as Hn.
  pose proof (render_ok_header d w Hok) as Hs.
  pose proof (reloaded_parsed d w Hn Hs) as Hre.
  destruct (staleUpdate_fresh _ _ Hne) as (Hl1 & Ht1).
  rewrite Hok, Ht1 in Hre. cbn [isOk andb Nat.leb] in Hre.
  cbn [map reloadTrace]. rewrite Hre. f_equal.
  rewrite (tick_not_reloaded _ _ Hre) in *.
  destruct (refresh_staleness d w Hn Hs) as (Hl2 & Ht2).
  rewrite stale_trace;
    [ | rewrite Hl2, Hl1; exact Hall | exact Hrest | rewrite Ht2, Ht1, Hlen; lia].
  rewrite Ht2, Ht1, Hlen. reflexivity.
Qed.

(** Only a tick that passed line 235 can reload. *)
Lemma reloaded_needs_header (data : JsVal) (w : World) :
  reloaded (parsed data) w = true ->
  nullish data = false /\ headerShows data = true.
Proof.
  intros Hre. unfold reloaded in Hre. apply Nat.ltb_lt in Hre.
  destruct (nullish data) eqn:Hn;
    [ | destruct (headerShows data) eqn:Hs; [split; reflexivity | ]].
  - destruct (refresh_stopped_early data w (or_introl Hn)) as (_ & Hr & _). lia.
  - destruct (refresh_stopped_early data w (or_intror Hs)) as (_ & Hr & _). lia.
Qed.

(** C1, as stated, fails.  Six consecutive documents with the identical
    timestamp ["t1"], each rendered to the end, and no reload on any of the
    six ticks; the reload comes with a seventh.  And not every parsed
    document is counted: one that repeats the stored timestamp but whose
    [round] has no string stops at line 233, before the staleness rule, and
    leaves the counter at 0; so does a document that parsed to [null]. *)
Lemma six_identical_timestamps_do_not_reset :
  reloadTrace (start samplePage) (repeat (parsed (snapshotAt "t1")) 6) =
    [false; false; false; false; false; false] /\
  reloadTrace (start samplePage) (repeat (parsed (snapshotAt "t1")) 7) =
    [false; false; false; false; false; false; true] /\
  (Js.strictEq (field snapshotBadRound "timestamp")
     (lastTimestamp (session (start samplePage))) = true /\
   staleTicks (session (snd (refresh (parsed snapshotBadRound) (start samplePage)))) =
     0%nat) /\
  session (snd (refresh (parsed VNull) (start samplePage))) =
    session (start samplePage).
Proof. repeat split; vm_compute; reflexivity. Qed.

(** C1, amended.  On a parsed document that is not [null] and whose
    [round], [phase] and [timestamp] have a string (lines 233-235 run
    through): a timestamp that is not [===] to [lastTimestamp] puts
    [staleTicks] to 0 and is remembered, an equal one adds 1 to
    [staleTicks].  Any other parsed document stops before line 236 and
    leaves the session state as it was.  A tick reloads only if it ran to
    its end with [staleTicks] at 6 or more, and then exactly once.  From a
    counter at 0, six consecutive ticks that repeat the remembered
    timestamp and run to their end reload on the sixth and on none before;
    counted from the document that introduced the timestamp this is the
    seventh document carrying it. *)
Theorem staleness_resets_on_sixth_repeat :
  (forall data w,
     nullish data = false ->
     headerShows data = true ->
     let s := session w in
     let s' := session (snd (refresh (parsed data) w)) in
     (Js.strictEq (field data "timestamp") (lastTimestamp s) = false ->
      staleTicks s' = 0%nat /\ lastTimestamp s' = field data "timestamp") /\
     (Js.strictEq (field data "timestamp") (lastTimestamp s) = true ->
      staleTicks s' = (staleTicks s + 1)%nat /\
      lastTimestamp s' = lastTimestamp s)) /\
  (forall data w,
     nullish data = true \/ headerShows data = false ->
     session (snd (refresh (parsed data) w)) = session w /\
     reloads (snd (refresh (parsed data) w)) = reloads w) /\
  (forall data w,
     reloaded (parsed data) w = true ->
     fst (render data w) = Ok tt /\
     (6 <= staleTicks (session (snd (refresh (parsed data) w))))%nat) /\
  (forall data w,
     fst (render data w) = Ok tt ->
     (6 <= staleTicks (session (snd (refresh (parsed data) w))))%nat ->
     reloads (snd (refresh (parsed data) w)) = S (reloads w)) /\
  (forall w docs,
     staleTicks (session w) = 0%nat ->
     Forall (carries (lastTimestamp (session w))) docs ->
     ticksComplete w docs ->
     List.length docs = 6%nat ->
     reloadTrace w (map parsed docs) = [false; false; false; false; false; true]) /\
  (forall w d rest,
     Js.strictEq (field d "timestamp") (lastTimestamp (session w)) = false ->
     Forall (carries (field d "timestamp")) rest ->
     ticksComplete w (d :: rest) ->
     List.length rest = 6%nat ->
     reloadTrace w (map parsed (d :: rest)) =
     [false; false; false; false; false; false; true]).
Proof.
  split; [ | split; [ | split; [ | split; [ | split]]]].
  - intros data w Hn Hs. cbv zeta.
    destruct (refresh_staleness data w Hn Hs) as (Hl & Ht). split; intros Heq.
    + destruct (staleUpdate_fresh _ _ Heq) as (Hl1 & Ht1). split; congruence.
    + destruct (staleUpdate_stale _ _ Heq) as (Hl1 & Ht1). split; congruence.
  - intros data w Hearly.
    destruct (refresh_stopped_early data w Hearly) as (Hs & Hr & _).
    split; assumption.
  - intros data w Hre.
    destruct (reloaded_needs_header data w Hre) as (Hn & Hs).
    rewrite (reloaded_parsed data w Hn Hs) in Hre.
    apply andb_prop in Hre. destruct Hre as (Hok & Hsix).
    destruct (refresh_staleness data w Hn Hs) as (_ & Ht). rewrite Ht.
    split.
    + destruct (fst (render data w)) as [[] | e]; [reflexivity | discriminate].
    + apply Nat.leb_le. exact Hsix.
  - intros data w Hok Hsix.
    pose proof (render_ok_not_null data w Hok) as Hn.
    pose proof (render_ok_header data w Hok) as Hs.
    destruct (refresh_parsed data w) as (Hses & _ & -> & _).
    destruct (render_effect data w Hn Hs) as (_ & _ & _ & _ & _ & ->).
    rewrite Hses in Hsix. apply Nat.leb_le in Hsix. rewrite Hok, Hsix. reflexivity.
  - intros w docs Hzero Hall Hrun Hlen.
    rewrite stale_trace; [ | exact Hall | exact Hrun | lia].
    rewrite Hzero, Hlen. reflexivity.
  - intros w d rest. apply fresh_then_stale_trace.
Qed.

Lemma staleness_resets_on_sixth_repeat_witness :
  (staleTicks (session (snd (refresh (parsed (snapshotAt "t1")) (start samplePage)))) = 0%nat /\
   lastTimestamp (session (snd (refresh (parsed (snapshotAt "t1")) (start samplePage)))) =
     VStr "t1") /\
  session (snd (refresh (parsed snapshotBadRound) (start samplePage))) =
    session (start samplePage) /\
  reloadTrace (start samplePage) (map parsed (repeat (snapshotAt "") 6)) =
    [false; false; false; false; false; true] /\
  reloadTrace (start samplePage) (map parsed (snapshotAt "t1" :: repeat (snapshotAt "t1") 6)) =
    [false; false; false; false; false; false; true].
Proof.
  destruct staleness_resets_on_sixth_repeat as (Hstep & Hearly & _ & _ & Hsix & Hseven).
  split; [ | split; [ | split]].
  - apply (Hstep (snapshotAt "t1") (start samplePage)); reflexivity.
  - apply (Hearly snapshotBadRound (start samplePage)). right. reflexivity.
  - apply Hsix.
    + reflexivity.
    + repeat constructor.
    + vm_compute. repeat split.
    + reflexivity.
  - apply Hseven.
    + reflexivity.
    + repeat constructor.
    + vm_compute. repeat split.
    + reflexivity.
Defined.

(** C10, as stated, fails.  Six consecutive documents without a timestamp,
    each rendered to the end, and no reload; the first of them only stores
    the absent value.  And a first document whose timestamp is the empty
    string is not counted when its [round] has no string: the tick stops
    at line 233. *)
Lemma six_missing_timestamps_do_not_reset :
  reloadTrace (start samplePage) (repeat (parsed snapshotNoTimestamp) 6) =
    [false; false; false; false; false; false] /\
  staleTicks (session (run (start samplePage) (repeat (parsed snapshotNoTimestamp) 6))) =
    5%nat /\
  field snapshotBadRound "timestamp" = VStr "" /\
  staleTicks (session (snd (refresh (parsed snapshotBadRound) (start samplePage)))) =
    0%nat.
Proof. repeat split; vm_compute; reflexivity. Qed.

(** C10, amended.  [lastTimestamp] starts as the empty string, so a first
    document whose timestamp is the empty string is counted as stale at
    once, provided lines 233-235 run through ([round], [phase] and
    [timestamp] have a string).  Under the same proviso a document without
    a timestamp stores the absent value, and counts as stale when the
    stored value is already absent.  From the start of the page, seven
    consecutive documents without a timestamp, each rendered to the end,
    reload on the seventh and on none before. *)
Theorem missing_timestamp_counts_as_stale :
  lastTimestamp initialSession = VStr "" /\
  (forall page data,
     nullish data = false ->
     headerShows data = true ->
     field data "timestamp" = VStr "" ->
     staleTicks (session (snd (refresh (parsed data) (start page)))) = 1%nat) /\
  (forall data w,
     nullish data = false ->
     headerShows data = true ->
     field data "timestamp" = VUndef ->
     lastTimestamp (session (snd (refresh (parsed data) w))) = VUndef) /\
  (forall data w,
     nullish data = false ->
     headerShows data = true ->
     field data "timestamp" = VUndef ->
     lastTimestamp (session w) = VUndef ->
     staleTicks (session (snd (refresh (parsed data) w))) =
     (staleTicks (session w) + 1)%nat) /\
  (forall page docs,
     Forall (fun d => field d "timestamp" = VUndef) docs ->
     ticksComplete (start page) docs ->
     List.length docs = 7%nat ->
     reloadTrace (start page) (map parsed docs) =
     [false; false; false; false; false; false; true]).
Proof.
  split; [reflexivity | split; [ | split; [ | split]]].
  - intros page data Hn Hs Hts.
    destruct (refresh_staleness data (start page) Hn Hs) as (_ & ->).
    rewrite Hts. reflexivity.
  - intros data w Hn Hs Hts.
    destruct (refresh_staleness data w Hn Hs) as (-> & _).
    rewrite Hts. unfold staleUpdate.
    destruct (Js.strictEq VUndef (lastTimestamp (session w))) eqn:Heq.
    + simpl. destruct (lastTimestamp (session w)); try discriminate Heq. reflexivity.
    + reflexivity.
  - intros data w Hn Hs Hts Hlast.
    destruct (refresh_staleness data w Hn Hs) as (_ & ->).
    rewrite Hts. unfold staleUpdate. rewrite Hlast. reflexivity.
  - intros page [ | d rest] Hall Hrun Hlen; [discriminate Hlen | ].
    pose proof (Forall_inv Hall) as Hd. pose proof (Forall_inv_tail Hall) as Hrest.
    apply fresh_then_stale_trace.
    + rewrite Hd. reflexivity.
    + rewrite Hd. eapply Forall_impl; [ | exact Hrest].
      intros x Hx. unfold carries. rewrite Hx. reflexivity.
    + exact Hrun.
    + simpl in Hlen. lia.
Qed.

Lemma missing_timestamp_counts_as_stale_witness :
  staleTicks (session (snd (refresh (parsed (snapshotAt "")) (start samplePage)))) = 1%nat /\
  lastTimestamp (session (snd (refresh (parsed snapshotNoTimestamp) (start samplePage)))) =
    VUndef /\
  staleTicks
    (session (snd (refresh (parsed snapshotNoTimestamp)
                     (tick (parsed snapshotNoTimestamp) (start samplePage))))) = 1%nat /\
  reloadTrace (start samplePage) (map parsed (repeat snapshotNoTimestamp 7)) =
    [false; false; false; false; false; false; true].
Proof.
  destruct missing_timestamp_counts_as_stale as (_ & Hempty & Hstore & Hpair & Hseven).
  split; [ | split; [ | split]].
  - apply Hempty; reflexivity.
  - apply Hstore; reflexivity.
  - apply (Hpair snapshotNoTimestamp
             (tick (parsed snapshotNoTimestamp) (start samplePage)));
      vm_compute; reflexivity.
  - apply Hseven.
    + repeat constructor.
    + vm_compute. repeat split.
    + reflexivity.
Defined.

(** ** The messages panel *)

Lemma setElems_same (id : string) (kids : list Html) (d : Dom) :
  elems (setElems id kids d) id = kids.
Proof. simpl. rewrite String.eqb_refl. reflexivity. Qed.

Lemma eventShows_fields (event : JsVal) :
  eventShows event = true ->
  nullish event = false /\
  Js.convertible (field event "timestamp") = true /\
  Js.convertible (field event "source") = true /\
  Js.convertible (field event "title") = true /\
  Js.convertible (field event "memo") = true.
Proof.
  unfold eventShows. intros H.
  apply andb_prop in H. destruct H as (H & Hm).
  apply andb_prop in H. destruct H as (H & Ht).
  apply andb_prop in H. destruct H as (H & Hs).
  apply andb_prop in H. destruct H as (Hn & Hts).
  apply negb_true_iff in Hn. repeat split; assumption.
Qed.

Lemma eventShows_not_null (events : list JsVal) :
  Forall (fun e => eventShows e = true) events ->
  Forall (fun e => nullish e = false) events.
Proof.
  intros Hall. eapply Forall_impl; [ | exact Hall].
  intros e He. apply (eventShows_fields e He).
Qed.

Lemma eventItem_run (target : string) (event : JsVal) (d : Dom) :
  eventShows event = true ->
  eventItem target event d =
  (Ok tt, setElems target (elems d target ++ [eventLi event]) d).
Proof.
  intros Hshow.
  destruct (eventShows_fields _ Hshow) as (Hn & Hts & Hs & Ht & Hm).
  unfold eventItem.
  rewrite (bind_get _ _ _ _ Hn), (bind_coerce _ _ _ Hts).
  rewrite (bind_get _ _ _ _ Hn), (bind_coerce _ _ _ Hs).
  rewrite (bind_get _ _ _ _ Hn), (bind_coerce _ _ _ Ht).
  rewrite (bind_get _ _ _ _ Hn), (bind_coerce _ _ _ Hm).
  reflexivity.
Qed.

Lemma forEach_eventItem (target : string) (events : list JsVal) (d : Dom) :
  Forall (fun e => eventShows e = true) events ->
  fst (forEach (eventItem target) events d) = Ok tt /\
  elems (snd (forEach (eventItem target) events d)) target =
  elems d target ++ map eventLi events.
Proof.
  revert d. induction events as [ | e rest IH]; intros d Hall.
  - simpl. rewrite app_nil_r. split; reflexivity.
  - cbn [forEach]. rewrite bind_run, (eventItem_run _ _ _ (Forall_inv Hall)).
    destruct (IH (setElems target (elems d target ++ [eventLi e]) d)
                (Forall_inv_tail Hall)) as (Hok & Hel).
    split; [exact Hok | ].
    rewrite Hel, setElems_same, <- app_assoc. reflexivity.
Qed.

Lemma filterE_topicAllowed (events : list JsVal) (d : Dom) :
  Forall (fun e => nullish e = false) events ->
  filterE topicAllowed events d = (Ok (filter allowedTopic events), d).
Proof.
  induction events as [ | e rest IH]; intros Hall.
  - reflexivity.
  - cbn [filterE filter]. rewrite bind_run.
    unfold topicAllowed at 1. rewrite (bind_get _ _ _ _ (Forall_inv Hall)). cbn [ret].
    rewrite bind_run, (IH (Forall_inv_tail Hall)). reflexivity.
Qed.

Lemma filter_keeps_Forall {A : Type} (P : A -> Prop) (f : A -> bool) (l : list A) :
  Forall P l -> Forall P (filter f l).
Proof.
  intros Hall. apply Forall_forall. intros x Hx.
  apply filter_In in Hx. destruct Hx as (Hx & _).
  revert x Hx. apply Forall_forall. exact Hall.
Qed.

Lemma firstn_keeps_Forall {A : Type} (P : A -> Prop) (n : nat) (l : list A) :
  Forall P l -> Forall P (firstn n l).
Proof.
  intros Hall. rewrite <- (firstn_skipn n l) in Hall.
  apply Forall_app in Hall. exact (proj1 Hall).
Qed.

Lemma length_not_zero (items : list JsVal) :
  items <> [] -> Js.strictEq (Js.ofNat (List.length items)) (VNum 0) = false.
Proof. destruct items as [ | x r]; [contradiction | reflexivity]. Qed.

(** For a non-empty array of events, none of them [null], the messages
    panel is emptied and then gets the items of the events with an allowed
    topic, latest first, at most twelve of them. *)
Lemma renderMessages_filtered (events : list JsVal) (d : Dom) :
  events <> [] ->
  Forall (fun e => nullish e = false) events ->
  renderMessages (VArr events) d =
  forEach (eventItem "messages") (firstn 12 (rev (filter allowedTopic events)))
    (setElems "messages" [] d).
Proof.
  intros Hne Hall. unfold renderMessages.
  rewrite bind_run. unfold setInnerHTML, modify.
  rewrite bind_run. unfold lift at 1. cbn [Js.truthy Js.get].
  cbn [String.eqb Ascii.eqb Bool.eqb]. rewrite (length_not_zero _ Hne). cbn [negb orb].
  rewrite bind_run. unfold lift at 1. cbn [Js.asArray].
  rewrite bind_run, (filterE_topicAllowed _ _ Hall). reflexivity.
Qed.

(** ... and holds one item for each of these events when their fields have
    a string. *)
Lemma renderMessages_array (events : list JsVal) (d : Dom) :
  events <> [] ->
  Forall (fun e => nullish e = false) events ->
  Forall (fun e => eventShows e = true)
    (firstn 12 (rev (filter allowedTopic events))) ->
  fst (renderMessages (VArr events) d) = Ok tt /\
  elems (snd (renderMessages (VArr events) d)) "messages" =
  map eventLi (firstn 12 (rev (filter allowedTopic events))).
Proof.
  intros Hne Hall Hshown. rewrite (renderMessages_filtered events d Hne Hall).
  destruct (forEach_eventItem "messages" _ (setElems "messages" [] d) Hshown)
    as (Hok & Hel).
  split; [exact Hok | ]. rewrite Hel. reflexivity.
Qed.

Lemma renderMessages_no_events (d : Dom) :
  elems (snd (renderMessages (VArr []) d)) "messages" =
  [li [TextNode [Lit "No inter-agent messages yet."]]].
Proof. reflexivity. Qed.

(** C6 fails on the code in its last part.  The placeholder is written
    only when the event list itself is empty; a non-empty list in which no
    event has an allowed topic leaves the messages container with no child
    at all. *)
Theorem messages_empty_container_when_no_topic_allowed
  (events : list JsVal) (d : Dom) :
  events <> [] ->
  Forall (fun e => nullish e = false) events ->
  Forall (fun e => allowedTopic e = false) events ->
  fst (renderMessages (VArr events) d) = Ok tt /\
  elems (snd (renderMessages (VArr events) d)) "messages" = [].
Proof.
  intros Hne Hall Hnone.
  assert (Hfilter : filter allowedTopic events = []).
  { clear - Hnone. induction events as [ | e rest IH]; [reflexivity | ].
    cbn [filter]. rewrite (Forall_inv Hnone). apply IH, (Forall_inv_tail Hnone). }
  destruct (renderMessages_array events d Hne Hall) as (Hok & Hel).
  - rewrite Hfilter. constructor.
  - split; [exact Hok | ]. rewrite Hel, Hfilter. reflexivity.
Qed.

Lemma messages_empty_container_when_no_topic_allowed_witness :
  fst (renderMessages (VArr eventsOffTopic) samplePage) = Ok tt /\
  elems (snd (renderMessages (VArr eventsOffTopic) samplePage)) "messages" = [].
Proof.
  apply messages_empty_container_when_no_topic_allowed.
  - discriminate.
  - repeat constructor.
  - repeat constructor.
Defined.

(** ** The entity metrics panel *)

Lemma entries_ok (v : JsVal) :
  Js.truthy v = true -> Js.entries v = Ok (entriesOf v).
Proof.
  unfold entriesOf. destruct v; simpl; intros H; try discriminate H; reflexivity.
Qed.

Lemma or_truthy (a b : JsVal) : Js.truthy b = true -> Js.truthy (Js.or a b) = true.
Proof. unfold Js.or. intros Hb. destruct (Js.truthy a) eqn:Ha; assumption. Qed.

Lemma or_or (a b : JsVal) : Js.or (Js.or a b) b = Js.or a b.
Proof.
  unfold Js.or. destruct (Js.truthy a) eqn:Ha.
  - rewrite Ha. reflexivity.
  - destruct (Js.truthy b); reflexivity.
Qed.

Lemma table_rows (obj : JsVal) :
  table obj = map tableRow (entriesOf (Js.or obj (VObj []))).
Proof.
  unfold table. rewrite (entries_ok _ (or_truthy obj (VObj []) eq_refl)). reflexivity.
Qed.

Lemma bind_interpolate {St B : Type} (v : JsVal) (rest : unit -> Exec St B) (s : St) :
  interpolable v = true -> bind (lift (interpolate v)) rest s = rest tt s.
Proof.
  unfold interpolable, interpolate. intros Hv. rewrite bind_run. unfold lift.
  destruct (Js.isNumber v); [reflexivity | ].
  rewrite (coerce_ok _ Hv). reflexivity.
Qed.

Lemma bind_interpolate_throw {St B : Type} (v : JsVal) (rest : unit -> Exec St B)
  (s : St) :
  interpolable v = false ->
  exists e, bind (lift (interpolate v)) rest s = (Throw e, s).
Proof.
  unfold interpolable, interpolate. intros Hv. rewrite bind_run. unfold lift.
  apply orb_false_elim in Hv. destruct Hv as (-> & Hc).
  destruct (coerce_throw _ Hc) as [e ->]. eauto.
Qed.

Lemma mapE_rows (es : list (string * JsVal)) (d : Dom) :
  let row := fun kv : string * JsVal =>
               bind (lift (interpolate (snd kv))) (fun _ => ret (tableRow kv)) in
  if forallb (fun kv => interpolable (snd kv)) es
  then mapE row es d = (Ok (map tableRow es), d)
  else exists e, mapE row es d = (Throw e, d).
Proof.
  cbv zeta. induction es as [ | kv r IH]; [reflexivity | ].
  cbn [forallb mapE map]. rewrite bind_run.
  destruct (interpolable (snd kv)) eqn:Hkv; cbn [andb].
  - rewrite (bind_interpolate _ _ _ Hkv). cbn [ret]. rewrite bind_run.
    destruct (forallb (fun kv0 => interpolable (snd kv0)) r).
    + rewrite IH. reflexivity.
    + destruct IH as [e ->]. eauto.
  - destruct (bind_interpolate_throw (snd kv) (fun _ => ret (tableRow kv)) d Hkv)
      as [e ->]. eauto.
Qed.

Lemma bind_tableRows {B : Type} (obj : JsVal) (rest : list Html -> Exec Dom B)
  (d : Dom) :
  rowsShow obj = true -> bind (tableRows obj) rest d = rest (table obj) d.
Proof.
  unfold rowsShow. intros Hrows. rewrite (table_rows obj). unfold tableRows.
  rewrite bind_run. rewrite bind_run. unfold lift at 1.
  rewrite (entries_ok _ (or_truthy obj (VObj []) eq_refl)).
  pose proof (mapE_rows (entriesOf (Js.or obj (VObj []))) d) as Hmap.
  cbv zeta in Hmap. rewrite Hrows in Hmap. rewrite Hmap. reflexivity.
Qed.

Lemma bind_tableRows_throw {B : Type} (obj : JsVal) (rest : list Html -> Exec Dom B)
  (d : Dom) :
  rowsShow obj = false -> exists e, bind (tableRows obj) rest d = (Throw e, d).
Proof.
  unfold rowsShow. intros Hrows. unfold tableRows.
  rewrite bind_run. rewrite bind_run. unfold lift at 1.
  rewrite (entries_ok _ (or_truthy obj (VObj []) eq_refl)).
  pose proof (mapE_rows (entriesOf (Js.or obj (VObj []))) d) as Hmap.
  cbv zeta in Hmap. rewrite Hrows in Hmap. destruct Hmap as [e ->]. eauto.
Qed.

Lemma rowsShow_or (obj : JsVal) : rowsShow (Js.or obj (VObj [])) = rowsShow obj.
Proof. unfold rowsShow. rewrite or_or. reflexivity. Qed.

(** Lines 80-127 write the panel of [metricsPanel] when the record is
    absent or every value of its card can stand in the markup ... *)
Lemma renderCountryMetrics_run (target : string) (data : JsVal) (d : Dom) :
  panelShows data = true ->
  renderCountryMetrics target data d =
  (Ok tt, setElems target (metricsPanel data) d).
Proof.
  unfold panelShows, renderCountryMetrics, metricsPanel. intros Hshow.
  destruct (Js.truthy data) eqn:Ht; [ | reflexivity].
  pose proof (truthy_not_nullish _ Ht) as Hn.
  rewrite bind_run. unfold lift at 1. rewrite (get_ok _ _ Hn). cbn [negb orb] in *.
  destruct (Js.strictEq (field data "gdp") VUndef); [reflexivity | ].
  cbn [orb] in Hshow. unfold cardShows in Hshow.
  apply andb_prop in Hshow. destruct Hshow as (Hshow & Htar).
  apply andb_prop in Hshow. destruct Hshow as (Hshow & Himp).
  apply andb_prop in Hshow. destruct Hshow as (Hshow & Hexp).
  apply andb_prop in Hshow. destruct Hshow as (Hshow & Hpre).
  apply andb_prop in Hshow. destruct Hshow as (Hgdp & Hwel).
  rewrite <- rowsShow_or in Htar.
  rewrite (bind_interpolate _ _ _ Hgdp).
  rewrite (bind_get _ _ _ _ Hn), (bind_interpolate _ _ _ Hwel).
  rewrite (bind_get _ _ _ _ Hn), (bind_interpolate _ _ _ Hpre).
  rewrite (bind_get _ _ _ _ Hn), (bind_tableRows _ _ _ Hexp).
  rewrite (bind_get _ _ _ _ Hn), (bind_tableRows _ _ _ Himp).
  rewrite (bind_get _ _ _ _ Hn), (bind_tableRows _ _ _ Htar).
  reflexivity.
Qed.

(** ... and throw otherwise, before anything is written. *)
Lemma renderCountryMetrics_throw (target : string) (data : JsVal) (d : Dom) :
  panelShows data = false ->
  exists e, renderCountryMetrics target data d = (Throw e, d).
Proof.
  unfold panelShows, renderCountryMetrics. intros Hshow.
  destruct (Js.truthy data) eqn:Ht; [ | discriminate Hshow].
  pose proof (truthy_not_nullish _ Ht) as Hn.
  rewrite bind_run. unfold lift at 1. rewrite (get_ok _ _ Hn). cbn [negb orb] in *.
  destruct (Js.strictEq (field data "gdp") VUndef); [discriminate Hshow | ].
  cbn [orb] in Hshow. unfold cardShows in Hshow.
  destruct (interpolable (field data "gdp")) eqn:Hgdp;
    [rewrite (bind_interpolate _ _ _ Hgdp) | apply bind_interpolate_throw, Hgdp].
  rewrite (bind_get _ _ _ _ Hn).
  destruct (interpolable (field data "welfare")) eqn:Hwel;
    [rewrite (bind_interpolate _ _ _ Hwel) | apply bind_interpolate_throw, Hwel].
  rewrite (bind_get _ _ _ _ Hn).
  destruct (interpolable (field data "political_pressure")) eqn:Hpre;
    [rewrite (bind_interpolate _ _ _ Hpre) | apply bind_interpolate_throw, Hpre].
  rewrite (bind_get _ _ _ _ Hn).
  destruct (rowsShow (field data "exports")) eqn:Hexp;
    [rewrite (bind_tableRows _ _ _ Hexp) | apply bind_tableRows_throw, Hexp].
  rewrite (bind_get _ _ _ _ Hn).
  destruct (rowsShow (field data "imports")) eqn:Himp;
    [rewrite (bind_tableRows _ _ _ Himp) | apply bind_tableRows_throw, Himp].
  rewrite (bind_get _ _ _ _ Hn).
  cbn [andb] in Hshow. rewrite <- rowsShow_or in Hshow.
  apply bind_tableRows_throw, Hshow.
Qed.








(** *** The order of the rows *)





(** *** Which elements a renderer writes *)

Section Footprint.

Variable id : string.

Lemma leaves_bind {A B : Type} (m : Exec Dom A) (k : A -> Exec Dom B) :
  leaves id m -> (forall a, leaves id (k a)) -> leaves id (bind m k).
Proof.
  intros Hm Hk d. rewrite bind_run. specialize (Hm d).
  destruct (m d) as [[a | e] d1]; simpl in Hm.
  - rewrite Hk. exact Hm.
  - exact Hm.
Qed.

Lemma leaves_lift {A : Type} (o : Outcome A) : leaves id (lift o).
Proof. intros d. reflexivity. Qed.

Lemma leaves_ret {A : Type} (a : A) : leaves id (@ret Dom A a).
Proof. intros d. reflexivity. Qed.

Lemma leaves_gets {A : Type} (f : Dom -> A) : leaves id (gets f).
Proof. intros d. reflexivity. Qed.

Lemma leaves_setText (other : string) (t : Text) :
  String.eqb id other = false -> leaves id (setText other t).
Proof. intros Hne d. simpl. rewrite Hne. reflexivity. Qed.

Lemma leaves_setTextContent (other : string) (v : JsVal) :
  String.eqb id other = false -> leaves id (setTextContent other v).
Proof.
  intros Hne d. unfold setTextContent. rewrite bind_run.
  destruct (nullish v); [simpl; rewrite Hne; reflexivity | ].
  unfold lift. destruct (Js.coerce v) as [[] | e]; simpl; [rewrite Hne | ]; reflexivity.
Qed.

Lemma leaves_setInnerHTML (other : string) (kids : list Html) :
  String.eqb id other = false -> leaves id (setInnerHTML other kids).
Proof. intros Hne d. simpl. rewrite Hne. reflexivity. Qed.

Lemma leaves_appendChild (other : string) (child : Html) :
  String.eqb id other = false -> leaves id (appendChild other child).
Proof. intros Hne d. simpl. rewrite Hne. reflexivity. Qed.

Lemma leaves_ctx (canvas : string) (c : CtxCall) : leaves id (ctx canvas c).
Proof. intros d. reflexivity. Qed.

Lemma leaves_clearCanvas (canvas : string) : leaves id (clearCanvas canvas).
Proof. intros d. reflexivity. Qed.

Lemma leaves_forEach {A : Type} (f : A -> Exec Dom unit) (l : list A) :
  (forall x, leaves id (f x)) -> leaves id (forEach f l).
Proof.
  intros Hf. induction l as [ | x r IH]; cbn [forEach].
  - apply leaves_ret.
  - apply leaves_bind; [apply Hf | intros _; exact IH].
Qed.

Lemma leaves_forEachIdx {A : Type} (f : A -> nat -> Exec Dom unit) (l : list A)
  (idx : nat) :
  (forall x i, leaves id (f x i)) -> leaves id (forEachIdx f idx l).
Proof.
  intros Hf. revert idx. induction l as [ | x r IH]; intros idx; cbn [forEachIdx].
  - apply leaves_ret.
  - apply leaves_bind; [apply Hf | intros _; apply IH].
Qed.

Lemma leaves_filterE {A : Type} (p : A -> Exec Dom bool) (l : list A) :
  (forall x, leaves id (p x)) -> leaves id (filterE p l).
Proof.
  intros Hp. induction l as [ | x r IH]; cbn [filterE].
  - apply leaves_ret.
  - apply leaves_bind; [apply Hp | intros keep].
    apply leaves_bind; [exact IH | intros rest; apply leaves_ret].
Qed.

Lemma leaves_mapE {A B : Type} (f : A -> Exec Dom B) (l : list A) :
  (forall x, leaves id (f x)) -> leaves id (mapE f l).
Proof.
  intros Hf. induction l as [ | x r IH]; cbn [mapE].
  - apply leaves_ret.
  - apply leaves_bind; [apply Hf | intros y].
    apply leaves_bind; [exact IH | intros rest; apply leaves_ret].
Qed.

Lemma leaves_findE {A : Type} (p : A -> Exec Dom bool) (l : list A) :
  (forall x, leaves id (p x)) -> leaves id (findE p l).
Proof.
  intros Hp. induction l as [ | x r IH]; cbn [findE].
  - apply leaves_ret.
  - apply leaves_bind; [apply Hp | intros [ | ]; [apply leaves_ret | exact IH]].
Qed.

Lemma keepsPanel_bind {A B : Type} (m : Exec World A) (k : A -> Exec World B) :
  keepsPanel id m -> (forall a, keepsPanel id (k a)) -> keepsPanel id (bind m k).
Proof.
  intros Hm Hk w. rewrite bind_run. specialize (Hm w).
  destruct (m w) as [[a | e] w1]; simpl in Hm.
  - rewrite Hk. exact Hm.
  - exact Hm.
Qed.

Lemma keepsPanel_inDom {A : Type} (m : Exec Dom A) :
  leaves id m -> keepsPanel id (inDom m).
Proof.
  intros Hm w. unfold inDom. specialize (Hm (dom w)).
  destruct (m (dom w)) as [o d1]. exact Hm.
Qed.

Lemma keepsPanel_lift {A : Type} (o : Outcome A) : keepsPanel id (lift o).
Proof. intros w. reflexivity. Qed.

Lemma keepsPanel_gets {A : Type} (f : World -> A) : keepsPanel id (gets f).
Proof. intros w. reflexivity. Qed.

Lemma keepsPanel_ret {A : Type} (a : A) : keepsPanel id (@ret World A a).
Proof. intros w. reflexivity. Qed.

Lemma keepsPanel_onSession (f : Session -> Session) : keepsPanel id (onSession f).
Proof. intros w. reflexivity. Qed.

Lemma keepsPanel_locationReload : keepsPanel id locationReload.
Proof. intros w. reflexivity. Qed.

Lemma keepsPanel_tryCatch {A : Type} (m : Exec World A) (h : Err -> Exec World A) :
  keepsPanel id m -> (forall e, keepsPanel id (h e)) -> keepsPanel id (tryCatch m h).
Proof.
  intros Hm Hh w. unfold tryCatch. specialize (Hm w).
  destruct (m w) as [[a | e] w1]; simpl in Hm.
  - exact Hm.
  - rewrite Hh. exact Hm.
Qed.

End Footprint.

(** Walks through a renderer: one lemma per construct, chosen by the shape
    of the step, a case split per branch, and the comparison of two
    element names by computation. *)
Ltac footprint_step :=
  lazymatch goal with
  | |- leaves _ (bind _ _) => apply leaves_bind; [ | intros ? ]
  | |- leaves _ (lift _) => apply leaves_lift
  | |- leaves _ (ret _) => apply leaves_ret
  | |- leaves _ (gets _) => apply leaves_gets
  | |- leaves _ (ctx _ _) => apply leaves_ctx
  | |- leaves _ (clearCanvas _) => apply leaves_clearCanvas
  | |- leaves _ (setText _ _) => apply leaves_setText; reflexivity
  | |- leaves _ (setTextContent _ _) => apply leaves_setTextContent; reflexivity
  | |- leaves _ (setInnerHTML _ _) => apply leaves_setInnerHTML; reflexivity
  | |- leaves _ (appendChild _ _) => apply leaves_appendChild; reflexivity
  | |- leaves _ (forEach _ _) => apply leaves_forEach; intros ?
  | |- leaves _ (forEachIdx _ _ _) => apply leaves_forEachIdx; intros ? ?
  | |- leaves _ (filterE _ _) => apply leaves_filterE; intros ?
  | |- leaves _ (mapE _ _) => apply leaves_mapE; intros ?
  | |- leaves _ (findE _ _) => apply leaves_findE; intros ?
  | |- leaves _ (if ?b then _ else _) => destruct b
  | |- leaves _ (match ?o with Some _ => _ | None => _ end) => destruct o
  | |- leaves _ (let _ := _ in _) => cbv zeta
  | |- leaves _ ((fun _ => _) _) => cbv beta
  | |- keepsPanel _ (bind _ _) => apply keepsPanel_bind; [ | intros ? ]
  | |- keepsPanel _ (inDom _) => apply keepsPanel_inDom
  | |- keepsPanel _ (lift _) => apply keepsPanel_lift
  | |- keepsPanel _ (gets _) => apply keepsPanel_gets
  | |- keepsPanel _ (ret _) => apply keepsPanel_ret
  | |- keepsPanel _ (onSession _) => apply keepsPanel_onSession
  | |- keepsPanel _ locationReload => apply keepsPanel_locationReload
  | |- keepsPanel _ (if ?b then _ else _) => destruct b
  | |- keepsPanel _ ((fun _ => _) _) => cbv beta
  end.

Ltac footprint := repeat footprint_step.

Ltac each_id H := repeat (destruct H as [<- | H]); try contradiction.





Lemma leaves_showStrategy (id : string) (data : JsVal) :
  In id laterPanels -> leaves id (showStrategy data).
Proof. intros Hid. unfold showStrategy. each_id Hid; footprint. Qed.






Lemma leaves_renderCountryMetrics (id target : string) (data : JsVal) :
  String.eqb id target = false -> leaves id (renderCountryMetrics target data).
Proof.
  intros Hne d.
  destruct (panelShows data) eqn:Hshow.
  - rewrite (renderCountryMetrics_run _ _ _ Hshow). simpl. rewrite Hne. reflexivity.
  - destruct (renderCountryMetrics_throw target data d Hshow) as [e ->]. reflexivity.
Qed.






Lemma pickCountry_run (countries : JsVal) (name alias : string) (d : Dom) :
  Js.truthy countries = true ->
  pickCountry countries name alias d =
  (Ok (Js.or (field countries name) (field countries alias)), d).
Proof.
  intros Ht. pose proof (truthy_not_nullish _ Ht) as Hn.
  unfold pickCountry. rewrite (bind_get _ _ _ _ Hn).
  rewrite bind_run. unfold lift, Js.or.
  destruct (Js.truthy (field countries name)).
  - reflexivity.
  - rewrite (get_ok _ _ Hn). reflexivity.
Qed.






(** *** The panel of an entity after a whole tick *)











(** ** The welfare chart *)

Lemma numbers_In (x : Q) (vals : list JsVal) :
  In x (numbers vals) <-> In (VNum x) vals.
Proof.
  induction vals as [ | v r IH]; [reflexivity | ].
  destruct v; simpl; rewrite ?IH; split; intros H;
    try (right; exact H);
    try (destruct H as [H | H]; [discriminate H | exact H]).
  - destruct H as [-> | H]; [left; reflexivity | right; exact H].
  - destruct H as [H | H]; [left; congruence | right; exact H].
Qed.

Lemma minOf_spec (qs : list Q) (last : Q) :
  (minOf qs last <= last)%Q /\
  (forall v, In v qs -> minOf qs last <= v)%Q /\
  (minOf qs last == last \/ exists v, In v qs /\ minOf qs last == v)%Q.
Proof.
  induction qs as [ | x r (IHlast & IHall & IHhit)]; simpl.
  - repeat split; [apply Qle_refl | intros v [] | left; reflexivity].
  - fold (minOf r last). repeat split.
    + eapply Qle_trans; [apply Q.le_min_r | exact IHlast].
    + intros v [-> | Hv]; [apply Q.le_min_l | ].
      eapply Qle_trans; [apply Q.le_min_r | apply IHall, Hv].
    + destruct (Q.min_spec x (minOf r last)) as [(_ & Heq) | (_ & Heq)].
      * right. exists x. split; [left; reflexivity | exact Heq].
      * destruct IHhit as [Hl | (v & Hv & Hev)].
        -- left. rewrite Heq. exact Hl.
        -- right. exists v. split; [right; exact Hv | rewrite Heq; exact Hev].
Qed.

Lemma maxOf_spec (qs : list Q) (last : Q) :
  (last <= maxOf qs last)%Q /\
  (forall v, In v qs -> v <= maxOf qs last)%Q /\
  (maxOf qs last == last \/ exists v, In v qs /\ maxOf qs last == v)%Q.
Proof.
  induction qs as [ | x r (IHlast & IHall & IHhit)]; simpl.
  - repeat split; [apply Qle_refl | intros v [] | left; reflexivity].
  - fold (maxOf r last). repeat split.
    + eapply Qle_trans; [exact IHlast | apply Q.le_max_r].
    + intros v [-> | Hv]; [apply Q.le_max_l | ].
      eapply Qle_trans; [apply IHall, Hv | apply Q.le_max_r].
    + destruct (Q.max_spec x (maxOf r last)) as [(_ & Heq) | (_ & Heq)].
      * destruct IHhit as [Hl | (v & Hv & Hev)].
        -- left. rewrite Heq. exact Hl.
        -- right. exists v. split; [right; exact Hv | rewrite Heq; exact Hev].
      * right. exists x. split; [left; reflexivity | exact Heq].
Qed.

Lemma draws_ctx (id : string) (c : CtxCall) : draws id (ctx id c).
Proof.
  intros d. simpl. rewrite String.eqb_refl. simpl. repeat split. eauto.
Qed.

Lemma draws_bind (id : string) (m k : Exec Dom unit) :
  draws id m -> draws id k -> draws id (bind m (fun _ => k)).
Proof.
  intros Hm Hk d. rewrite bind_run.
  destruct (Hm d) as (Hok & Hw & Hh & cs & Hcs).
  destruct (m d) as [[[] | e] d1]; [ | discriminate Hok]. simpl in *.
  destruct (Hk d1) as (Hok' & Hw' & Hh' & cs' & Hcs').
  repeat split; try congruence.
  exists (cs ++ cs'). rewrite Hcs', Hcs, app_assoc. reflexivity.
Qed.

(** [value - minValue] on a stored value that has a number. *)
Lemma draws_toNumber (id : string) (v : JsVal) (k : Num -> Exec Dom unit) :
  Js.convertible v = true ->
  draws id (k (Js.toNum v)) ->
  draws id (bind (lift (Js.toNumber v)) k).
Proof.
  intros Hc Hk d. rewrite bind_run. unfold lift. rewrite (toNumber_ok _ Hc).
  apply Hk.
Qed.

Lemma draws_forEachIdx (id : string) (f : JsVal -> nat -> Exec Dom unit)
  (l : list JsVal) (idx : nat) :
  Forall (fun v => Js.convertible v = true) l ->
  (forall x i, Js.convertible x = true -> draws id (f x i)) ->
  draws id (forEachIdx f idx l).
Proof.
  intros Hall Hf. revert idx.
  induction Hall as [ | x r Hx Hr IH]; intros idx; cbn [forEachIdx].
  - intros d. simpl. repeat split. exists []. symmetry. apply app_nil_r.
  - apply draws_bind; [apply Hf, Hx | apply IH].
Qed.

(** One line of the chart is drawn to its end when every value of its
    buffer has a number. *)
Lemma draws_drawLine (id : string) (canvasHeight : Q) (sc : WelfareScale)
  (values : list JsVal) (color : string) :
  Forall (fun v => Js.convertible v = true) values ->
  draws id (drawLine id canvasHeight sc values color).
Proof.
  intros Hall. unfold drawLine.
  apply draws_bind; [apply draws_ctx | ].
  apply draws_bind.
  - apply draws_forEachIdx; [exact Hall | ].
    intros value idx Hc. cbv zeta.
    apply draws_toNumber; [exact Hc | ].
    destruct (Nat.eqb idx 0); apply draws_ctx.
  - apply draws_bind; [apply draws_ctx | ].
    apply draws_bind; apply draws_ctx.
Qed.

Lemma draws_legend (id : string) (canvasWidth : Q) (name color : string)
  (textY swatchY : Z) :
  draws id (legend id canvasWidth name color textY swatchY).
Proof.
  unfold legend.
  apply draws_bind; [apply draws_ctx | ].
  apply draws_bind; [apply draws_ctx | ].
  apply draws_bind; apply draws_ctx.
Qed.

Lemma endsWith_bind (id : string) (last : list CtxCall) (m k : Exec Dom unit) :
  draws id m -> endsWith id last k -> endsWith id last (bind m (fun _ => k)).
Proof.
  intros Hm Hk d. rewrite bind_run.
  destruct (Hm d) as (Hok & _ & _ & cs & Hcs).
  destruct (m d) as [[[] | e] d1]; [ | discriminate Hok]. simpl in *.
  destruct (Hk d1) as (Hok' & cs' & Hcs').
  split; [exact Hok' | ].
  exists (cs ++ cs'). rewrite Hcs', Hcs, !app_assoc. reflexivity.
Qed.

Lemma endsWith_two (id : string) (c1 c2 : CtxCall) :
  endsWith id [c1; c2] (bind (ctx id c1) (fun _ => ctx id c2)).
Proof.
  intros d. simpl. rewrite !String.eqb_refl. simpl. rewrite ?String.eqb_refl.
  split; [reflexivity | ]. exists []. simpl. rewrite <- app_assoc. reflexivity.
Qed.

Lemma buffersConvertible_each (h : History) :
  buffersConvertible h ->
  Forall (fun v => Js.convertible v = true) (welfareAlpha h) /\
  Forall (fun v => Js.convertible v = true) (welfareBeta h) /\
  Forall (fun v => Js.convertible v = true) (welfareGamma h).
Proof.
  unfold buffersConvertible, stored. intros Hall.
  apply Forall_app in Hall. destruct Hall as (Ha & Hall).
  apply Forall_app in Hall. destruct Hall as (Hb & Hc).
  repeat split; assumption.
Qed.

(** When every stored value has a number the chart is drawn to its end,
    and ends with the two labels that show the computed bounds. *)
Lemma drawWelfare_labels (id : string) (h : History) (d : Dom) :
  buffersConvertible h ->
  let sc := welfareScale (width (canvases d id)) h in
  fst (drawWelfare id h d) = Ok tt /\
  exists before,
    calls (canvases (snd (drawWelfare id h d)) id) =
    before ++
    [fillText [Lit "Min: "; toFixed2 (minValue sc)] (Fin padding) (Fin (q 16));
     fillText [Lit "Max: "; toFixed2 (maxValue sc)] (Fin padding) (Fin (q 30))].
Proof.
  intros Hbuf. destruct (buffersConvertible_each h Hbuf) as (Ha & Hb & Hc).
  cbv zeta. remember (drawWelfare id h d) as r eqn:Hr.
  unfold drawWelfare in Hr.
  rewrite bind_run in Hr. unfold clearCanvas at 1, modify at 1 in Hr.
  rewrite bind_run in Hr. unfold gets at 1 in Hr.
  cbn [canvases setCalls] in Hr. rewrite String.eqb_refl in Hr.
  cbn [width height] in Hr. subst r.
  match goal with
  | |- fst (?m ?d1) = _ /\ _ =>
      assert (Hend : endsWith id
        [fillText [Lit "Min: "; toFixed2 (minValue (welfareScale (width (canvases d id)) h))]
           (Fin padding) (Fin (q 16));
         fillText [Lit "Max: "; toFixed2 (maxValue (welfareScale (width (canvases d id)) h))]
           (Fin padding) (Fin (q 30))] m);
      [ | destruct (Hend d1) as (Hok & cs & Hcs) ]
  end.
  { apply endsWith_bind; [apply draws_drawLine, Ha | ].
    apply endsWith_bind; [apply draws_drawLine, Hb | ].
    apply endsWith_bind; [apply draws_drawLine, Hc | ].
    apply endsWith_bind; [apply draws_ctx | ].
    apply endsWith_bind; [apply draws_ctx | ].
    apply endsWith_bind; [apply draws_ctx | ].
    apply endsWith_bind; [apply draws_ctx | ].
    apply endsWith_bind; [apply draws_ctx | ].
    apply endsWith_bind; [apply draws_legend | ].
    apply endsWith_bind; [apply draws_legend | ].
    apply endsWith_bind; [apply draws_ctx | ].
    apply endsWith_bind; [apply draws_ctx | ].
    apply endsWith_two. }
  split; [exact Hok | ].
  eexists. rewrite Hcs, app_assoc. reflexivity.
Qed.

Lemma inject_Z_pred (n : nat) :
  (1 <= n)%nat -> (q (Z.of_nat (n - 1)) == inject_Z (Z.of_nat n) - 1)%Q.
Proof.
  intros Hn. unfold q. rewrite Nat2Z.inj_sub by exact Hn.
  unfold Qeq, Qminus, Qplus, inject_Z. simpl. lia.
Qed.

(** C5. The lower bound of the chart is the least of 80 and the numbers
    stored in the three buffers, the upper bound the greatest of 100 and
    those numbers; the range is [max(1, upper - lower)]; the x step is the
    drawable width (canvas width less two paddings of 30) divided by one
    less than [max(buffer length, 2)], so that many points span it evenly.
    Numbers all within [85, 95] give the bounds 80 and 100; a 110 that no
    number exceeds gives the upper bound 110.  When every stored value has
    a number (none is an object with a member named [toString]), the chart
    is drawn to its end and the two labels drawn last show these
    bounds. *)
Theorem welfare_chart_scale (cw : Q) (h : History) :
  let sc := welfareScale cw h in
  let points := Nat.max (List.length (welfareAlpha h)) 2 in
  ((minValue sc <= 80)%Q /\
   (forall v, In (VNum v) (stored h) -> minValue sc <= v)%Q /\
   (minValue sc == 80 \/ exists v, In (VNum v) (stored h) /\ minValue sc == v)%Q) /\
  ((100 <= maxValue sc)%Q /\
   (forall v, In (VNum v) (stored h) -> v <= maxValue sc)%Q /\
   (maxValue sc == 100 \/ exists v, In (VNum v) (stored h) /\ maxValue sc == v)%Q) /\
  (range sc == Qmax 1 (maxValue sc - minValue sc))%Q /\
  (xStep sc == (cw - 60) / (inject_Z (Z.of_nat points) - 1))%Q /\
  (xStep sc * (inject_Z (Z.of_nat points) - 1) == cw - 60)%Q /\
  ((forall v, In (VNum v) (stored h) -> 85 <= v /\ v <= 95)%Q ->
   (minValue sc == 80 /\ maxValue sc == 100)%Q) /\
  ((exists v, In (VNum v) (stored h) /\ v == 110)%Q ->
   (forall v, In (VNum v) (stored h) -> v <= 110)%Q ->
   (maxValue sc == 110)%Q) /\
  (forall id d,
     width (canvases d id) = cw ->
     buffersConvertible h ->
     fst (drawWelfare id h d) = Ok tt /\
     exists before,
       calls (canvases (snd (drawWelfare id h d)) id) =
       before ++
       [fillText [Lit "Min: "; toFixed2 (minValue sc)] (Fin padding) (Fin (q 16));
        fillText [Lit "Max: "; toFixed2 (maxValue sc)] (Fin padding) (Fin (q 30))]).
Proof.
  cbv zeta.
  destruct (minOf_spec (allValues h) (q 80)) as (Hmin80 & Hminall & Hminhit).
  destruct (maxOf_spec (allValues h) (q 100)) as (Hmax100 & Hmaxall & Hmaxhit).
  assert (Hin : forall v, In (VNum v) (stored h) <-> In v (allValues h)).
  { intros v. unfold allValues, stored. symmetry. apply numbers_In. }
  assert (Hpoints : (1 <= Nat.max (List.length (welfareAlpha h)) 2)%nat) by lia.
  assert (Hden : ~ (inject_Z (Z.of_nat (Nat.max (List.length (welfareAlpha h)) 2)) - 1 == 0)%Q).
  { rewrite <- (inject_Z_pred _ Hpoints). unfold q, Qeq, inject_Z. simpl. lia. }
  assert (Hstep : (xStep (welfareScale cw h) ==
                   (cw - 60) / (inject_Z (Z.of_nat (Nat.max (List.length (welfareAlpha h)) 2)) - 1))%Q).
  { unfold welfareScale. cbn [xStep]. rewrite (inject_Z_pred _ Hpoints).
    unfold padding, q. setoid_replace (inject_Z 30 * inject_Z 2)%Q with 60%Q by reflexivity.
    reflexivity. }
  unfold welfareScale. cbn [minValue maxValue range].
  fold (welfareScale cw h).
  split; [ | split; [ | split; [ | split; [ | split; [ | split; [ | split]]]]]].
  - repeat split.
    + exact Hmin80.
    + intros v Hv. apply Hminall, Hin, Hv.
    + destruct Hminhit as [Hl | (v & Hv & Hev)]; [left; exact Hl | right].
      exists v. split; [apply Hin, Hv | exact Hev].
  - repeat split.
    + exact Hmax100.
    + intros v Hv. apply Hmaxall, Hin, Hv.
    + destruct Hmaxhit as [Hl | (v & Hv & Hev)]; [left; exact Hl | right].
      exists v. split; [apply Hin, Hv | exact Hev].
  - reflexivity.
  - exact Hstep.
  - rewrite Hstep. field. exact Hden.
  - intros Hband. split.
    + destruct Hminhit as [Hl | (v & Hv & Hev)]; [exact Hl | ].
      apply Hin, Hband in Hv. destruct Hv as (Hlo & _).
      rewrite Hev in Hmin80. unfold q, inject_Z in *. exfalso. lra.
    + destruct Hmaxhit as [Hl | (v & Hv & Hev)]; [exact Hl | ].
      apply Hin, Hband in Hv. destruct Hv as (_ & Hhi).
      rewrite Hev in Hmax100. unfold q, inject_Z in *. exfalso. lra.
  - intros (v & Hv & Hv110) Hbound.
    apply Qle_antisym.
    + destruct Hmaxhit as [Hl | (u & Hu & Heu)].
      * rewrite Hl. unfold q, inject_Z. lra.
      * rewrite Heu. apply Hbound, Hin, Hu.
    + rewrite <- Hv110. apply Hmaxall, Hin, Hv.
  - intros id d <- Hbuf. apply (drawWelfare_labels id h d Hbuf).
Qed.

Lemma welfare_chart_scale_witness :
  (minValue (welfareScale (q 400) historyInBand) == 80 /\
   maxValue (welfareScale (q 400) historyInBand) == 100)%Q /\
  (maxValue (welfareScale (q 400) historyWithPeak) == 110)%Q /\
  exists before,
    calls (canvases (snd (drawWelfare "welfare" historyInBand samplePage)) "welfare") =
    before ++
    [fillText [Lit "Min: "; Lit "80.00"] (Fin padding) (Fin (q 16));
     fillText [Lit "Max: "; Lit "100.00"] (Fin padding) (Fin (q 30))].
Proof.
  split; [ | split].
  - apply (welfare_chart_scale (q 400) historyInBand).
    intros v Hv. simpl in Hv.
    repeat (destruct Hv as [Hv | Hv];
            [try discriminate Hv; injection Hv as <-; split; discriminate | ]).
    contradiction.
  - apply (welfare_chart_scale (q 400) historyWithPeak).
    + exists (q 110). split; [simpl; auto | reflexivity].
    + intros v Hv. simpl in Hv.
      repeat (destruct Hv as [Hv | Hv];
              [try discriminate Hv; injection Hv as <-; discriminate | ]).
      contradiction.
  - pose proof (welfare_chart_scale (q 400) historyInBand) as Hscale.
    cbv zeta in Hscale.
    destruct Hscale as (_ & _ & _ & _ & _ & _ & _ & Hlabels).
    apply (Hlabels "welfare" samplePage).
    + reflexivity.
    + repeat constructor.
Defined.

(** ** The trade-flow charts *)



(** A loop that appends one child per entry, after converting its value. *)
Lemma forEach_appendChild (id : string) (cell : string * JsVal -> Html)
  (l : list (string * JsVal)) (d : Dom) :
  Forall (fun kv => Js.convertible (snd kv) = true) l ->
  let loop := forEach (fun kv =>
                bind (lift (Js.coerce (snd kv))) (fun _ => appendChild id (cell kv))) in
  fst (loop l d) = Ok tt /\
  elems (snd (loop l d)) id = elems d id ++ map cell l.
Proof.
  cbv zeta. intros Hall. revert d.
  induction Hall as [ | x r Hx Hr IH]; intros d.
  - simpl. rewrite app_nil_r. split; reflexivity.
  - cbn [forEach]. rewrite bind_run, (bind_coerce _ _ _ Hx).
    unfold appendChild at 1 3, modify.
    destruct (IH (setElems id (elems d id ++ [cell x]) d)) as (Hok & Hel).
    split; [exact Hok | ].
    rewrite Hel, setElems_same, <- app_assoc. reflexivity.
Qed.








(** C9. With [trade_flow] absent (or otherwise falsy) or empty, both
    renderers get the empty mapping and return normally: the bar chart
    consists of the clearing of the canvas and nothing else, whatever the
    size of the canvas, although its bar width is a division by a sector
    count of zero; the heatmap container is emptied and gets no cell; the
    maximum is its floor 1. *)
Theorem empty_trade_flow_draws_nothing (flow : JsVal) (canvas : string) (d : Dom) :
  Js.truthy flow = false \/ flow = VObj [] ->
  let tradeFlow := Js.or flow (VObj []) in
  fst (drawTradeFlow canvas tradeFlow d) = Ok tt /\
  calls (canvases (snd (drawTradeFlow canvas tradeFlow d)) canvas) =
    [clearRect (Fin 0) (Fin 0) (Fin (width (canvases d canvas)))
       (Fin (height (canvases d canvas)))] /\
  fst (renderHeatmap tradeFlow d) = Ok tt /\
  elems (snd (renderHeatmap tradeFlow d)) "heatmap" = [] /\
  mathMax1 [] = Fin 1 /\
  ndiv (Fin (width (canvases d canvas) - q 40)) (ofNat 0) = NaR.
Proof.
  intros Hflow. cbv zeta.
  assert (Hempty : Js.or flow (VObj []) = VObj []).
  { destruct Hflow as [Hf | ->]; [unfold Js.or; rewrite Hf | ]; reflexivity. }
  rewrite Hempty. simpl. rewrite String.eqb_refl. repeat split.
Qed.

Lemma empty_trade_flow_draws_nothing_witness :
  fst (drawTradeFlow "trade-flow" (VObj []) samplePage) = Ok tt /\
  calls (canvases (snd (drawTradeFlow "trade-flow" (VObj []) samplePage)) "trade-flow") =
    [clearRect (Fin 0) (Fin 0) (Fin (q 400)) (Fin (q 200))] /\
  fst (renderHeatmap (VObj []) samplePage) = Ok tt /\
  elems (snd (renderHeatmap (VObj []) samplePage)) "heatmap" = [] /\
  mathMax1 [] = Fin 1 /\
  ndiv (Fin (q 400 - q 40)) (ofNat 0) = NaR.
Proof.
  apply (empty_trade_flow_draws_nothing VUndef "trade-flow" samplePage).
  left. reflexivity.
Defined.

(** ** A document without [learning] *)

Lemma keepsCanvases_bind {A B : Type} (m : Exec Dom A) (k : A -> Exec Dom B) :
  keepsCanvases m -> (forall a, keepsCanvases (k a)) -> keepsCanvases (bind m k).
Proof.
  intros Hm Hk d. rewrite bind_run. specialize (Hm d).
  destruct (m d) as [[a | e] d1]; simpl in Hm.
  - rewrite Hk. exact Hm.
  - exact Hm.
Qed.

Lemma keepsCanvases_findE {A : Type} (p : A -> Exec Dom bool) (l : list A) :
  (forall x, keepsCanvases (p x)) -> keepsCanvases (findE p l).
Proof.
  intros Hp. induction l as [ | x r IH]; cbn [findE].
  - intros d. reflexivity.
  - apply keepsCanvases_bind; [apply Hp | intros [ | ]; [intros d; reflexivity | exact IH]].
Qed.

Lemma keepsCanvases_setTextContent (id : string) (v : JsVal) :
  keepsCanvases (setTextContent id v).
Proof.
  intros d. unfold setTextContent. rewrite bind_run.
  destruct (nullish v); [reflexivity | ].
  unfold lift. destruct (Js.coerce v) as [[] | e]; reflexivity.
Qed.

Lemma keepsCanvases_showStrategy (data : JsVal) : keepsCanvases (showStrategy data).
Proof.
  unfold showStrategy.
  repeat lazymatch goal with
    | |- keepsCanvases (bind _ _) => apply keepsCanvases_bind; [ | intros ? ]
    | |- keepsCanvases (findE _ _) => apply keepsCanvases_findE; intros ?
    | |- keepsCanvases (setTextContent _ _) => apply keepsCanvases_setTextContent
    | |- keepsCanvases (if ?b then _ else _) => destruct b
    | |- keepsCanvases (match ?o with Some _ => _ | None => _ end) => destruct o
    | |- keepsCanvases (let _ := _ in _) => cbv zeta
    | |- keepsCanvases ((fun _ => _) _) => cbv beta
    | |- keepsCanvases _ => intros d; reflexivity
    end.
Qed.

(** Without [learning] the rendering part ends at line 256 at the latest:
    nothing later has run; the staleness rule has, once lines 233-235 ran
    through. *)
Lemma render_stops_at_learning (data : JsVal) (w : World) :
  nullish data = false ->
  nullish (field data "learning") = true ->
  exists e w',
    render data w = (Throw e, w') /\
    (headerShows data = true ->
     session w' = staleUpdate (field data "timestamp") (session w)) /\
    history (session w') = history (session w) /\
    reloads w' = reloads w /\ console w' = console w /\
    (forall id, In id laterPanels -> elems (dom w') id = elems (dom w) id) /\
    canvases (dom w') = canvases (dom w).
Proof.
  intros Hn Hl.
  destruct (headerShows data) eqn:Hs.
  - unfold render.
    rewrite bind_run, (showHeader_eq _ _ Hn Hs).
    rewrite bind_run, (trackStaleness_ok _ _ Hn).
    rewrite bind_run. unfold inDom at 1.
    cbn [dom setSession setDom session reloads console].
    set (d1 := setElems "timestamp" _ _).
    assert (Hd1 : forall id, In id laterPanels -> elems d1 id = elems (dom w) id).
    { intros id Hid. each_id Hid; reflexivity. }
    pose proof (keepsCanvases_showStrategy data d1) as Hcanvas.
    assert (Hd3 : forall id, In id laterPanels ->
                    elems (snd (showStrategy data d1)) id = elems (dom w) id).
    { intros id Hid. rewrite (leaves_showStrategy id data Hid d1). apply Hd1, Hid. }
    pose proof (staleUpdate_history (field data "timestamp") (session w)) as Hh.
    destruct (showStrategy data d1) as [[[] | e] d3]; simpl in Hcanvas, Hd3.
    + rewrite bind_run. unfold inDom at 1, showLearning.
      cbn [dom setSession setDom session reloads console].
      rewrite (bind_get _ _ _ _ Hn).
      rewrite bind_run. unfold lift at 1.
      destruct (get_throw _ "alpha_aggression" Hl) as [e ->].
      eexists. eexists. split; [reflexivity | ].
      repeat split; [exact Hh | exact Hd3 | exact Hcanvas].
    + eexists. eexists. split; [reflexivity | ].
      repeat split; [exact Hh | exact Hd3 | exact Hcanvas].
  - destruct (render_header_stops data w Hn Hs) as (e & d & -> & Hcanvas & Hpanels).
    exists e, (setDom d w). split; [reflexivity | ].
    split; [discriminate | ]. repeat split; assumption.
Qed.

(** C3 fails on the code.  A document without [learning] stops every tick
    at line 256 at the latest: the error reaches the outer [catch] and is
    logged; the timeline, feed, messages, metrics, status and heatmap
    elements and both canvases are left as they were (no placeholder is
    written), nothing is pushed to the buffers, and the reload check is
    not reached, whatever the stale counter says; the staleness rule has
    run if lines 233-235 ran through.  On seven ticks with
    [snapshotNoLearning] from page load the counter reaches 6 and no
    reload is requested. *)
Theorem missing_learning_skips_rest_of_tick :
  (forall data w,
     nullish data = false ->
     nullish (field data "learning") = true ->
     let w' := snd (refresh (parsed data) w) in
     (exists e, console w' = console w ++ [e]) /\
     (headerShows data = true ->
      session w' = staleUpdate (field data "timestamp") (session w)) /\
     history (session w') = history (session w) /\
     reloads w' = reloads w /\
     (forall id, In id laterPanels -> elems (dom w') id = elems (dom w) id) /\
     canvases (dom w') = canvases (dom w)) /\
  let ticks := repeat (parsed snapshotNoLearning) 7 in
  let w := run (start samplePage) ticks in
  reloadTrace (start samplePage) ticks = repeat false 7 /\
  staleTicks (session w) = 6%nat /\
  reloads w = 0%nat /\
  console w = repeat (TypeError "Cannot read properties of undefined") 7 /\
  elems (dom w) "timeline" = [Shipped] /\
  elems (dom w) "heatmap" = [Shipped] /\
  calls (canvases (dom w) "trade-flow") = [] /\
  calls (canvases (dom w) "welfare") = [] /\
  history (session w) = mkHistory [] [] [].
Proof.
  split.
  - intros data w Hn Hl. cbv zeta.
    destruct (refresh_parsed data w) as (Hs & Hd & Hr & Hc).
    rewrite Hs, Hd, Hr, Hc.
    destruct (render_stops_at_learning data w Hn Hl)
      as (e & w' & -> & Hs' & Hh' & Hr' & Hc' & Hel & Hcv).
    cbn [fst snd]. rewrite Hr', Hc'.
    repeat split; try assumption.
    exists e. reflexivity.
  - vm_compute. repeat split.
Qed.

Lemma missing_learning_skips_rest_of_tick_witness :
  let w := start samplePage in
  let w' := snd (refresh (parsed snapshotNoLearning) w) in
  (exists e, console w' = console w ++ [e]) /\
  session w' = staleUpdate (VStr "t1") (session w) /\
  history (session w') = history (session w) /\
  reloads w' = reloads w /\
  (forall id, In id laterPanels -> elems (dom w') id = elems (dom w) id) /\
  canvases (dom w') = canvases (dom w).
Proof.
  cbv zeta.
  destruct missing_learning_skips_rest_of_tick as (Hgeneral & _).
  destruct (Hgeneral snapshotNoLearning (start samplePage) eq_refl eq_refl)
    as (Hlog & Hsession & Hhistory & Hreloads & Hpanels & Hcanvases).
  split; [exact Hlog | split; [exact (Hsession eq_refl) | ]].
  split; [exact Hhistory | split; [exact Hreloads | ]].
  split; [exact Hpanels | exact Hcanvases].
Defined.

(** ** Stages that return *)

Lemma returns_bind {St A B : Type} (m : Exec St A) (k : A -> Exec St B) :
  returns m -> (forall a, returns (k a)) -> returns (bind m k).
Proof.
  intros Hm Hk s. rewrite bind_run. specialize (Hm s).
  destruct (m s) as [[a | e] s1]; [apply Hk | discriminate Hm].
Qed.

Lemma returns_ret {St A : Type} (a : A) : returns (@ret St A a).
Proof. intros s. reflexivity. Qed.

Lemma returns_modify {St : Type} (f : St -> St) : returns (modify f).
Proof. intros s. reflexivity. Qed.

Lemma returns_read {St B : Type} (v : JsVal) (k : string) (rest : JsVal -> Exec St B) :
  nullish v = false ->
  returns (rest (field v k)) ->
  returns (bind (lift (Js.get v k)) rest).
Proof. intros Hn Hrest s. rewrite (bind_get _ _ _ _ Hn). apply Hrest. Qed.

Lemma returns_coerce {St B : Type} (v : JsVal) (rest : unit -> Exec St B) :
  Js.convertible v = true ->
  returns (rest tt) ->
  returns (bind (lift (Js.coerce v)) rest).
Proof. intros Hc Hrest s. rewrite (bind_coerce _ _ _ Hc). apply Hrest. Qed.

Lemma returns_setTextContent (id : string) (v : JsVal) :
  Js.convertible v = true -> returns (setTextContent id v).
Proof. intros Hc d. rewrite (setTextContent_run _ _ _ Hc). reflexivity. Qed.

Lemma returns_of_ok {St : Type} (m : Exec St unit) :
  (forall s, fst (m s) = Ok tt) -> returns m.
Proof. intros Hm s. rewrite Hm. reflexivity. Qed.

Lemma returns_ok {St : Type} (m : Exec St unit) (s : St) :
  returns m -> fst (m s) = Ok tt.
Proof.
  intros Hm. specialize (Hm s).
  destruct (fst (m s)) as [[] | e]; [reflexivity | discriminate Hm].
Qed.

Lemma inDom_returns (m : Exec Dom unit) (w : World) :
  returns m -> exists d, inDom m w = (Ok tt, setDom d w).
Proof.
  intros Hm. unfold inDom. pose proof (returns_ok m (dom w) Hm) as Hok.
  destruct (m (dom w)) as [o d]. simpl in Hok. subst o. eauto.
Qed.

(** ** The timeline and the feed *)

Lemma forEach_appends (id : string) (f : JsVal -> Exec Dom unit)
  (item : JsVal -> Html) (shows : JsVal -> bool) (l : list JsVal) (d : Dom) :
  (forall x d', shows x = true ->
     f x d' = (Ok tt, setElems id (elems d' id ++ [item x]) d')) ->
  Forall (fun x => shows x = true) l ->
  fst (forEach f l d) = Ok tt /\
  elems (snd (forEach f l d)) id = elems d id ++ map item l.
Proof.
  intros Hf. revert d. induction l as [ | x r IH]; intros d Hall.
  - simpl. rewrite app_nil_r. split; reflexivity.
  - cbn [forEach]. rewrite bind_run, (Hf _ _ (Forall_inv Hall)).
    destruct (IH (setElems id (elems d id ++ [item x]) d) (Forall_inv_tail Hall))
      as (Hok & Hel).
    split; [exact Hok | ].
    rewrite Hel, setElems_same, <- app_assoc. reflexivity.
Qed.

Lemma entryShows_fields (item : JsVal) :
  entryShows item = true ->
  nullish item = false /\
  Js.convertible (field item "timestamp") = true /\
  Js.convertible (field item "label") = true.
Proof.
  unfold entryShows. intros H.
  apply andb_prop in H. destruct H as (H & Hl).
  apply andb_prop in H. destruct H as (Hn & Ht).
  apply negb_true_iff in Hn. repeat split; assumption.
Qed.

Lemma renderTimeline_array (items : list JsVal) (d : Dom) :
  Forall (fun x => entryShows x = true) items ->
  fst (renderTimeline (VArr items) d) = Ok tt /\
  elems (snd (renderTimeline (VArr items) d)) "timeline" =
  latestFirst "Awaiting first policy updates..." timelineLi items.
Proof.
  intros Hall. destruct items as [ | x r]; [split; reflexivity | ].
  set (items := x :: r) in *.
  remember (renderTimeline (VArr items) d) as res eqn:Hres.
  unfold renderTimeline in Hres.
  rewrite bind_run in Hres. unfold setInnerHTML, modify in Hres.
  rewrite bind_run in Hres. unfold lift at 1 in Hres.
  cbn [Js.truthy Js.get String.eqb Ascii.eqb Bool.eqb] in Hres.
  rewrite (length_not_zero items) in Hres by discriminate.
  cbn [negb orb] in Hres.
  rewrite bind_run in Hres. unfold lift at 1 in Hres. cbn [Js.sliceReverse] in Hres.
  subst res.
  apply (forEach_appends "timeline" _ timelineLi entryShows (rev items)
           (setElems "timeline" [] d)).
  - intros y d' Hy. destruct (entryShows_fields _ Hy) as (Hn & Ht & Hl).
    rewrite (bind_get _ _ _ _ Hn), (bind_coerce _ _ _ Ht).
    rewrite (bind_get _ _ _ _ Hn), (bind_coerce _ _ _ Hl).
    reflexivity.
  - apply Forall_rev, Hall.
Qed.

Lemma renderFeed_array (events : list JsVal) (d : Dom) :
  Forall (fun x => eventShows x = true) events ->
  fst (renderFeed (VArr events) d) = Ok tt /\
  elems (snd (renderFeed (VArr events) d)) "feed" =
  latestFirst "No agent activity yet." eventLi events.
Proof.
  intros Hall. destruct events as [ | x r]; [split; reflexivity | ].
  set (events := x :: r) in *.
  remember (renderFeed (VArr events) d) as res eqn:Hres.
  unfold renderFeed in Hres.
  rewrite bind_run in Hres. unfold setInnerHTML, modify in Hres.
  rewrite bind_run in Hres. unfold lift at 1 in Hres.
  cbn [Js.truthy Js.get String.eqb Ascii.eqb Bool.eqb] in Hres.
  rewrite (length_not_zero events) in Hres by discriminate.
  cbn [negb orb] in Hres.
  rewrite bind_run in Hres. unfold lift at 1 in Hres. cbn [Js.sliceReverse] in Hres.
  subst res.
  apply forEach_eventItem, Forall_rev, Hall.
Qed.

(** ** The strategy line *)

Lemma findE_strategy (events : list JsVal) (d : Dom) :
  Forall (fun x => nullish x = false) events ->
  findE (fun event =>
           topic <- lift (Js.get event "topic") ;;
           ret (Js.strictEq topic (VStr "strategy")))
        events d =
  (Ok (find isStrategy events), d).
Proof.
  induction events as [ | e rest IH]; intros Hall; [reflexivity | ].
  cbn [findE find]. rewrite bind_run.
  rewrite (bind_get _ _ _ _ (Forall_inv Hall)). cbn [ret]. fold (isStrategy e).
  destruct (isStrategy e); [reflexivity | ].
  apply IH, (Forall_inv_tail Hall).
Qed.

Lemma isStrategy_truthy (event : JsVal) :
  isStrategy event = true -> Js.truthy event = true.
Proof.
  unfold isStrategy. destruct event; simpl; intros H; try discriminate H; reflexivity.
Qed.

(** Lines 242-254 on a document whose classification has a string and
    whose events are an array without [null] elements. *)
Lemma showStrategy_run (data : JsVal) (events : list JsVal) (d : Dom) :
  nullish data = false ->
  Js.convertible (field data "classification") = true ->
  Js.or (field data "events") (VArr []) = VArr events ->
  Forall (fun x => nullish x = false) events ->
  fst (showStrategy data d) = Ok tt /\
  elems (snd (showStrategy data d)) "payoff" = [TextNode (payoffText events)] /\
  elems (snd (showStrategy data d)) "classification" =
    textOf (field data "classification").
Proof.
  intros Hn Hc Hev Hall.
  remember (showStrategy data d) as res eqn:Hres.
  unfold showStrategy in Hres.
  rewrite (bind_get _ _ _ _ Hn) in Hres.
  rewrite (bind_ok _ _ _ _ _ (setTextContent_run _ _ _ Hc)) in Hres.
  rewrite bind_run in Hres. unfold setText at 1, modify at 1 in Hres.
  rewrite (bind_get _ _ _ _ Hn) in Hres.
  rewrite Hev in Hres. rewrite bind_run in Hres. unfold lift at 1 in Hres.
  cbn [Js.sliceReverse] in Hres.
  rewrite (bind_ok _ _ _ _ _ (findE_strategy _ _ (Forall_rev Hall))) in Hres.
  cbv zeta in Hres. unfold payoffText.
  destruct (find isStrategy (rev events)) as [event | ] eqn:Hfind.
  - pose proof (find_some _ _ Hfind) as (_ & Hstrategy).
    pose proof (isStrategy_truthy _ Hstrategy) as Ht.
    rewrite bind_run in Hres. unfold lift at 1 in Hres.
    rewrite Ht, (get_ok _ _ (truthy_not_nullish _ Ht)) in Hres. cbn [andb] in Hres.
    destruct (Js.truthy (field event "payload")) eqn:Hp.
    + rewrite (bind_get _ _ _ _ (truthy_not_nullish _ Hp)) in Hres.
      subst res. repeat split.
    + subst res. repeat split.
  - subst res. repeat split.
Qed.

(** A classification without a string stops the stage at line 242: the
    payoff line is not written. *)
Lemma showStrategy_stops (data : JsVal) (d : Dom) :
  nullish data = false ->
  Js.convertible (field data "classification") = false ->
  exists e, showStrategy data d = (Throw e, d).
Proof.
  intros Hn Hc. unfold showStrategy.
  rewrite (bind_get _ _ _ _ Hn).
  destruct (setTextContent_throw "classification" _ d Hc) as [e He].
  rewrite (bind_throw _ _ _ _ _ He). eauto.
Qed.

Lemma find_rev_latest {A : Type} (p : A -> bool) (before after : list A) (x : A) :
  p x = true ->
  Forall (fun y => p y = false) after ->
  find p (rev (before ++ x :: after)) = Some x.
Proof.
  intros Hx Hafter. rewrite rev_app_distr. cbn [rev]. rewrite <- app_assoc.
  cbn [app]. apply Forall_rev in Hafter. revert Hafter.
  generalize (rev after) as l. induction l as [ | y r IH]; intros Hall.
  - simpl. rewrite Hx. reflexivity.
  - simpl. rewrite (Forall_inv Hall). apply IH, (Forall_inv_tail Hall).
Qed.

Lemma find_rev_none {A : Type} (p : A -> bool) (l : list A) :
  Forall (fun y => p y = false) l -> find p (rev l) = None.
Proof.
  intros Hall. apply Forall_rev in Hall. revert Hall.
  generalize (rev l) as r. induction r as [ | y r IH]; intros Hall; [reflexivity | ].
  simpl. rewrite (Forall_inv Hall). apply IH, (Forall_inv_tail Hall).
Qed.

(** ** The status lines *)

Lemma statusShows_fields (data : JsVal) :
  statusShows data = true ->
  (Js.truthy (field data "system_health") = true ->
   Js.convertible (field (field data "system_health") "backend") = true) /\
  (Js.truthy (field data "agent_status") = true ->
   Forall (fun kv => Js.convertible (snd kv) = true)
     (entriesOf (field data "agent_status"))).
Proof.
  unfold statusShows. intros H.
  apply andb_prop in H. destruct H as (Hh & Ha). split.
  - intros Ht. rewrite Ht in Hh. exact Hh.
  - intros Ht. rewrite Ht in Ha. cbn [negb orb] in Ha.
    apply Forall_forall. intros kv Hkv.
    revert kv Hkv. apply forallb_forall. exact Ha.
Qed.

(** Lines 272-284, when the backend and every agent status have a string:
    each of the two regions is written when its field is there and left
    alone otherwise. *)
Lemma showStatus_run (data : JsVal) (d : Dom) :
  nullish data = false ->
  statusShows data = true ->
  let health := field data "system_health" in
  let agents := field data "agent_status" in
  fst (showStatus data d) = Ok tt /\
  elems (snd (showStatus data d)) "system-health" =
    (if Js.truthy health
     then [TextNode [Lit "State backend: "; Interp (field health "backend")]]
     else elems d "system-health") /\
  elems (snd (showStatus data d)) "agent-status" =
    (if Js.truthy agents
     then map agentLi (entriesOf agents)
     else elems d "agent-status").
Proof.
  intros Hn Hshow. cbv zeta.
  destruct (statusShows_fields _ Hshow) as (Hbackend & Hagents).
  remember (showStatus data d) as res eqn:Hres.
  unfold showStatus in Hres.
  rewrite (bind_get _ _ _ _ Hn) in Hres.
  rewrite bind_run in Hres.
  set (d1 := if Js.truthy (field data "system_health")
             then setElems "system-health"
                    [TextNode [Lit "State backend: ";
                               Interp (field (field data "system_health") "backend")]] d
             else d).
  assert (Hhealth :
    (if Js.truthy (field data "system_health")
     then backend <- lift (Js.get (field data "system_health") "backend") ;;
          lift (Js.coerce backend) ;;
          setText "system-health" [Lit "State backend: "; Interp backend]
     else ret tt) d = (Ok tt, d1)).
  { subst d1. destruct (Js.truthy (field data "system_health")) eqn:Hh; [ | reflexivity].
    rewrite (bind_get _ _ _ _ (truthy_not_nullish _ Hh)).
    rewrite (bind_coerce _ _ _ (Hbackend eq_refl)). reflexivity. }
  rewrite Hhealth in Hres.
  rewrite (bind_get _ _ _ _ Hn) in Hres.
  assert (Hd1h : elems d1 "system-health" =
                 if Js.truthy (field data "system_health")
                 then [TextNode [Lit "State backend: ";
                                 Interp (field (field data "system_health") "backend")]]
                 else elems d "system-health").
  { subst d1. destruct (Js.truthy (field data "system_health")); reflexivity. }
  assert (Hd1a : elems d1 "agent-status" = elems d "agent-status").
  { subst d1. destruct (Js.truthy (field data "system_health")); reflexivity. }
  destruct (Js.truthy (field data "agent_status")) eqn:Ha.
  - rewrite bind_run in Hres. unfold setInnerHTML at 1, modify at 1 in Hres.
    rewrite bind_run in Hres. unfold lift at 1 in Hres.
    rewrite (entries_ok _ Ha) in Hres.
    destruct (forEach_appendChild "agent-status" agentLi
                (entriesOf (field data "agent_status"))
                (setElems "agent-status" [] d1) (Hagents eq_refl)) as (Hok & Hel).
    assert (Hkeep : leaves "system-health"
                      (forEach (fun kv =>
                         bind (lift (Js.coerce (snd kv)))
                           (fun _ => appendChild "agent-status" (agentLi kv)))
                         (entriesOf (field data "agent_status")))).
    { apply leaves_forEach. intros kv.
      apply leaves_bind; [apply leaves_lift | intros _].
      apply leaves_appendChild. reflexivity. }
    subst res. split; [exact Hok | split].
    + etransitivity; [apply Hkeep | exact Hd1h].
    + exact Hel.
  - subst res. repeat split; assumption.
Qed.

(** ** Documents without a member named [toString] *)

(** Induction on a value, with the elements of an array and the members
    of an object at hand. *)
Lemma JsVal_nested_ind (P : JsVal -> Prop) :
  P VUndef -> P VNull -> (forall b, P (VBool b)) -> (forall x, P (VNum x)) ->
  (forall s, P (VStr s)) ->
  (forall items, Forall P items -> P (VArr items)) ->
  (forall props, Forall (fun p => P (snd p)) props -> P (VObj props)) ->
  forall v, P v.
Proof.
  intros Hu Hn Hb Hq Hs Harr Hobj.
  fix IH 1. intros [ | | b | x | s | items | props].
  - exact Hu.
  - exact Hn.
  - apply Hb.
  - apply Hq.
  - apply Hs.
  - apply Harr. revert items. fix IHitems 1. intros [ | x r].
    + constructor.
    + constructor; [apply IH | apply IHitems].
  - apply Hobj. revert props. fix IHprops 1. intros [ | [k x] r].
    + constructor.
    + constructor; [apply IH | apply IHprops].
Qed.

Lemma plain_convertible (v : JsVal) : plain v = true -> Js.convertible v = true.
Proof.
  induction v as [ | | b | x | s | items IH | props IH] using JsVal_nested_ind;
    try reflexivity.
  - cbn [plain Js.convertible]. intros Hp.
    apply forallb_forall. intros x Hx.
    rewrite Forall_forall in IH. apply IH; [exact Hx | ].
    revert x Hx. apply forallb_forall. exact Hp.
  - cbn [plain Js.convertible]. intros Hp.
    apply andb_prop in Hp. exact (proj1 Hp).
Qed.

Lemma plain_items (items : list JsVal) :
  plain (VArr items) = true -> Forall (fun x => plain x = true) items.
Proof.
  cbn [plain]. intros Hp. apply Forall_forall. apply forallb_forall. exact Hp.
Qed.

Lemma plain_props (props : list (string * JsVal)) :
  plain (VObj props) = true -> Forall (fun kv => plain (snd kv) = true) props.
Proof.
  cbn [plain]. intros Hp. apply andb_prop in Hp. destruct Hp as (_ & Hp).
  apply Forall_forall. intros kv Hkv.
  exact (proj1 (forallb_forall (fun p => plain (snd p)) props) Hp kv Hkv).
Qed.

Lemma plain_field (v : JsVal) (k : string) : plain v = true -> plain (field v k) = true.
Proof.
  intros Hp. destruct v as [ | | b | x | s | items | props]; unfold field; simpl;
    try reflexivity.
  - destruct (String.eqb k "length"); reflexivity.
  - destruct (String.eqb k "length"); reflexivity.
  - unfold Js.lookup.
    destruct (find (fun p => String.eqb (fst p) k) props) as [p | ] eqn:Hfind;
      [ | reflexivity].
    apply find_some in Hfind. destruct Hfind as (Hin & _).
    pose proof (plain_props props Hp) as Hall.
    rewrite Forall_forall in Hall. apply Hall, Hin.
Qed.

Lemma plain_or (a b : JsVal) : plain a = true -> plain b = true -> plain (Js.or a b) = true.
Proof. unfold Js.or. intros Ha Hb. destruct (Js.truthy a); assumption. Qed.

Lemma indexed_values {A : Type} (P : A -> Prop) (l : list A) (n : nat) :
  Forall P l -> Forall (fun kv => P (snd kv)) (Js.indexed n l).
Proof.
  intros Hall. revert n. induction Hall as [ | x r Hx Hr IH]; intros n; cbn [Js.indexed].
  - constructor.
  - constructor; [exact Hx | apply IH].
Qed.

Lemma chars_plain (s : string) : Forall (fun x => plain x = true) (Js.chars s).
Proof. induction s as [ | c r IH]; cbn [Js.chars]; constructor; [reflexivity | exact IH]. Qed.

Lemma plain_entries (v : JsVal) :
  plain v = true -> Forall (fun kv => plain (snd kv) = true) (entriesOf v).
Proof.
  intros Hp. destruct v as [ | | b | x | s | items | props]; unfold entriesOf; simpl;
    try constructor.
  - apply (indexed_values (fun x => plain x = true)), chars_plain.
  - apply (indexed_values (fun x => plain x = true)), plain_items, Hp.
  - apply plain_props, Hp.
Qed.

Lemma plain_field_convertible (v : JsVal) (k : string) :
  plain v = true -> Js.convertible (field v k) = true.
Proof. intros Hp. apply plain_convertible, plain_field, Hp. Qed.

Lemma plain_values_convertible (v : JsVal) :
  plain v = true ->
  Forall (fun kv => Js.convertible (snd kv) = true) (entriesOf v).
Proof.
  intros Hp. eapply Forall_impl; [ | apply plain_entries, Hp].
  intros kv Hkv. apply plain_convertible, Hkv.
Qed.

Lemma plain_headerShows (data : JsVal) : plain data = true -> headerShows data = true.
Proof.
  intros Hp. unfold headerShows.
  rewrite !(plain_field_convertible _ _ Hp). reflexivity.
Qed.

Lemma plain_eventShows (event : JsVal) :
  plain event = true -> nullish event = false -> eventShows event = true.
Proof.
  intros Hp Hn. unfold eventShows.
  rewrite Hn, !(plain_field_convertible _ _ Hp). reflexivity.
Qed.

Lemma plain_entryShows (item : JsVal) :
  plain item = true -> nullish item = false -> entryShows item = true.
Proof.
  intros Hp Hn. unfold entryShows.
  rewrite Hn, !(plain_field_convertible _ _ Hp). reflexivity.
Qed.

Lemma plain_rowsShow (obj : JsVal) : plain obj = true -> rowsShow obj = true.
Proof.
  intros Hp. unfold rowsShow. apply forallb_forall. intros kv Hkv.
  pose proof (plain_values_convertible _ (plain_or obj (VObj []) Hp eq_refl)) as Hall.
  rewrite Forall_forall in Hall. unfold interpolable.
  rewrite (Hall kv Hkv). apply orb_true_r.
Qed.

Lemma plain_panelShows (record : JsVal) : plain record = true -> panelShows record = true.
Proof.
  intros Hp. unfold panelShows, cardShows, interpolable.
  rewrite !(plain_field_convertible _ _ Hp), !orb_true_r.
  rewrite !(plain_rowsShow _ (plain_field _ _ Hp)).
  apply orb_true_r.
Qed.

Lemma plain_statusShows (data : JsVal) : plain data = true -> statusShows data = true.
Proof.
  intros Hp. unfold statusShows.
  rewrite (plain_field_convertible _ _ (plain_field _ "system_health" Hp)), orb_true_r.
  cbn [andb]. apply orb_true_iff. right.
  apply forallb_forall. intros kv Hkv.
  pose proof (plain_values_convertible _ (plain_field _ "agent_status" Hp)) as Hall.
  rewrite Forall_forall in Hall. apply Hall, Hkv.
Qed.

Lemma plain_entityRecord (data : JsVal) (name alias : string) :
  plain data = true -> plain (entityRecord data name alias) = true.
Proof.
  intros Hp. unfold entityRecord.
  destruct (Js.truthy (field data "countries")); [ | reflexivity].
  apply plain_or; apply plain_field, plain_field, Hp.
Qed.

(** ** Every stage on a well-shaped document *)

Lemma nonNull_plain_list (v : JsVal) (shows : JsVal -> bool) :
  (forall x, plain x = true -> nullish x = false -> shows x = true) ->
  plain v = true ->
  nonNullList v ->
  exists items, v = VArr items /\ Forall (fun x => shows x = true) items.
Proof.
  intros Hshows Hp (items & -> & Hall). exists items. split; [reflexivity | ].
  pose proof (plain_items items Hp) as Hplain.
  rewrite Forall_forall in *. intros x Hx. apply Hshows; auto.
Qed.

Lemma returns_showStrategy (data : JsVal) :
  wellShaped data -> returns (showStrategy data).
Proof.
  intros (Hn & Hp & _ & (events & Hev & Hevents) & _).
  apply returns_of_ok. intros d.
  apply (showStrategy_run data events d Hn (plain_field_convertible _ _ Hp) Hev Hevents).
Qed.

Lemma returns_showLearning (data : JsVal) :
  wellShaped data -> returns (showLearning data).
Proof.
  intros (Hn & Hp & Hl & _). unfold showLearning.
  pose proof (plain_field _ "learning" Hp) as Hpl.
  apply (returns_read _ _ _ Hn).
  apply (returns_read _ _ _ Hl).
  apply returns_bind;
    [apply returns_setTextContent, plain_field_convertible, Hpl | intros _].
  apply (returns_read _ _ _ Hl).
  apply returns_bind;
    [apply returns_setTextContent, plain_field_convertible, Hpl | intros _].
  apply (returns_read _ _ _ Hl).
  apply returns_setTextContent, plain_field_convertible, Hpl.
Qed.

Lemma returns_showCountries (data : JsVal) :
  nullish data = false -> plain data = true -> returns (showCountries data).
Proof.
  intros Hn Hp. apply returns_of_ok. intros d.
  pose proof (fun name alias => plain_panelShows _ (plain_entityRecord data name alias Hp))
    as Hshows.
  unfold showCountries.
  rewrite (bind_get _ _ _ _ Hn).
  destruct (Js.truthy (field data "countries")) eqn:Hc; [ | reflexivity].
  rewrite (bind_ok _ _ _ _ _ (pickCountry_run _ _ _ _ Hc)).
  rewrite (bind_ok _ _ _ _ _ (pickCountry_run _ _ _ _ Hc)).
  rewrite (bind_ok _ _ _ _ _ (pickCountry_run _ _ _ _ Hc)).
  pose proof (Hshows "Country Alpha" "alpha") as Ha.
  pose proof (Hshows "Country Beta" "beta") as Hb.
  pose proof (Hshows "Country Gamma" "gamma") as Hg.
  unfold entityRecord in Ha, Hb, Hg. rewrite Hc in Ha, Hb, Hg.
  set (a := Js.or (field (field data "countries") "Country Alpha") _) in *.
  set (b := Js.or (field (field data "countries") "Country Beta") _) in *.
  set (c := Js.or (field (field data "countries") "Country Gamma") _) in *.
  rewrite bind_run.
  destruct (Js.truthy a); [rewrite (renderCountryMetrics_run _ _ _ Ha) | cbn [ret]];
    rewrite bind_run;
    (destruct (Js.truthy b); [rewrite (renderCountryMetrics_run _ _ _ Hb) | cbn [ret]]);
    (destruct (Js.truthy c); [rewrite (renderCountryMetrics_run _ _ _ Hg) | cbn [ret]]);
    reflexivity.
Qed.

Lemma returns_renderMessages (events : list JsVal) :
  Forall (fun x => eventShows x = true) events -> returns (renderMessages (VArr events)).
Proof.
  intros Hall. apply returns_of_ok. intros d.
  destruct events as [ | e rest]; [reflexivity | ].
  apply renderMessages_array.
  - discriminate.
  - apply eventShows_not_null, Hall.
  - apply firstn_keeps_Forall, Forall_rev, filter_keeps_Forall, Hall.
Qed.

Lemma returns_renderPanels (data : JsVal) :
  wellShaped data -> returns (renderPanels data).
Proof.
  intros (Hn & Hp & _ & Hevents & Hitems).
  destruct (nonNull_plain_list _ eventShows plain_eventShows
              (plain_or _ (VArr []) (plain_field _ "events" Hp) eq_refl) Hevents)
    as (events & Hev & Hevshow).
  destruct (nonNull_plain_list _ entryShows plain_entryShows
              (plain_or _ (VArr []) (plain_field _ "policy_timeline" Hp) eq_refl) Hitems)
    as (items & Hit & Hitshow).
  unfold renderPanels.
  apply (returns_read _ _ _ Hn). rewrite Hit.
  apply returns_bind; [ | intros _].
  { apply returns_of_ok. intros d. apply renderTimeline_array, Hitshow. }
  apply (returns_read _ _ _ Hn). rewrite Hev.
  apply returns_bind; [ | intros _].
  { apply returns_of_ok. intros d. apply renderFeed_array, Hevshow. }
  apply returns_bind; [apply returns_renderMessages, Hevshow | intros _].
  apply returns_bind; [apply returns_showCountries; assumption | intros _].
  apply returns_of_ok. intros d.
  apply (showStatus_run data d Hn (plain_statusShows _ Hp)).
Qed.

Lemma returns_ctx (id : string) (c : CtxCall) : returns (ctx id c).
Proof. apply returns_modify. Qed.

Lemma returns_forEach {St A : Type} (f : A -> Exec St unit) (l : list A) :
  Forall (fun x => returns (f x)) l -> returns (forEach f l).
Proof.
  induction 1 as [ | x r Hx Hr IH]; cbn [forEach].
  - apply returns_ret.
  - apply returns_bind; [exact Hx | intros _; exact IH].
Qed.

Lemma returns_forEachIdx {St A : Type} (f : A -> nat -> Exec St unit)
  (l : list A) (idx : nat) :
  Forall (fun x => forall i, returns (f x i)) l -> returns (forEachIdx f idx l).
Proof.
  intros Hall. revert idx.
  induction Hall as [ | x r Hx Hr IH]; intros idx; cbn [forEachIdx].
  - apply returns_ret.
  - apply returns_bind; [apply Hx | intros _; apply IH].
Qed.

Lemma mathMax_ok (es : list (string * JsVal)) :
  Forall (fun kv => Js.convertible (snd kv) = true) es ->
  mathMax (map snd es) = Ok (mathMax1 (map snd es)).
Proof.
  intros Hall. unfold mathMax.
  replace (forallb Js.convertible (map snd es)) with true; [reflexivity | ].
  symmetry. apply forallb_forall. intros v Hv.
  apply in_map_iff in Hv. destruct Hv as (kv & <- & Hkv).
  rewrite Forall_forall in Hall. apply Hall, Hkv.
Qed.

Lemma returns_drawBar (id : string) (H : Q) (max bw : Num) (kv : string * JsVal)
  (idx : nat) :
  Js.convertible (snd kv) = true -> returns (drawBar id H max bw kv idx).
Proof.
  intros Hc. unfold drawBar. intros d.
  rewrite bind_run. unfold lift at 1. rewrite (toNumber_ok _ Hc).
  revert d. cbv zeta.
  repeat (apply returns_bind; [apply returns_ctx | intros _]).
  apply returns_coerce; [exact Hc | ]. apply returns_ctx.
Qed.

Lemma returns_drawTradeFlow (id : string) (flow : JsVal) :
  plain flow = true -> returns (drawTradeFlow id (Js.or flow (VObj []))).
Proof.
  intros Hp. unfold drawTradeFlow.
  pose proof (plain_values_convertible _ (plain_or flow (VObj []) Hp eq_refl)) as Hall.
  apply returns_bind; [apply returns_modify | intros _].
  rewrite (entries_ok _ (or_truthy flow (VObj []) eq_refl)).
  intros d. rewrite bind_run. unfold lift at 1.
  rewrite bind_run. unfold gets at 1.
  rewrite bind_run. unfold lift at 1. rewrite (mathMax_ok _ Hall).
  apply returns_forEachIdx.
  eapply Forall_impl; [ | exact Hall].
  intros kv Hkv idx. apply returns_drawBar, Hkv.
Qed.

Lemma returns_renderHeatmap (flow : JsVal) :
  plain flow = true -> returns (renderHeatmap (Js.or flow (VObj []))).
Proof.
  intros Hp. unfold renderHeatmap. rewrite or_or.
  pose proof (plain_values_convertible _ (plain_or flow (VObj []) Hp eq_refl)) as Hall.
  apply returns_bind; [apply returns_modify | intros _].
  rewrite (entries_ok _ (or_truthy flow (VObj []) eq_refl)).
  intros d. rewrite bind_run. unfold lift at 1.
  rewrite bind_run. unfold lift at 1. rewrite (mathMax_ok _ Hall).
  apply returns_forEach.
  eapply Forall_impl; [ | exact Hall].
  intros kv Hkv. apply returns_coerce; [exact Hkv | apply returns_modify].
Qed.

(** Lines 297-299 return when the flows and the stored values have a
    number. *)
Lemma drawCharts_ok (data : JsVal) (w : World) :
  nullish data = false ->
  plain data = true ->
  buffersConvertible (history (session w)) ->
  fst (drawCharts data w) = Ok tt.
Proof.
  intros Hn Hp Hbuf. unfold drawCharts.
  rewrite (bind_get _ _ _ _ Hn).
  pose proof (plain_field _ "trade_flow" Hp) as Hflow.
  destruct (inDom_returns _ w (returns_drawTradeFlow "trade-flow" _ Hflow)) as [d1 H1].
  rewrite (bind_ok _ _ _ _ _ H1).
  destruct (inDom_returns _ (setDom d1 w) (returns_renderHeatmap _ Hflow)) as [d2 H2].
  rewrite (bind_ok _ _ _ _ _ H2).
  rewrite bind_run. unfold gets at 1. cbn [session setDom].
  unfold inDom. cbn [dom setDom].
  destruct (drawWelfare_labels "welfare" (history (session w)) d2 Hbuf) as (Hok & _).
  destruct (drawWelfare "welfare" (history (session w)) d2) as [o d3].
  exact Hok.
Qed.

Lemma Forall_tl {A : Type} (P : A -> Prop) (l : list A) : Forall P l -> Forall P (tl l).
Proof. intros Hall. destruct Hall; [constructor | assumption]. Qed.

Lemma pushWelfare_convertible (a b c : JsVal) (h : History) :
  Js.convertible a = true -> Js.convertible b = true -> Js.convertible c = true ->
  buffersConvertible h -> buffersConvertible (pushWelfare a b c h).
Proof.
  intros Ha Hb Hc Hbuf.
  destruct (buffersConvertible_each h Hbuf) as (Halpha & Hbeta & Hgamma).
  assert (Hpa : Forall (fun v => Js.convertible v = true) (welfareAlpha h ++ [a])).
  { apply Forall_app. split; [exact Halpha | repeat constructor; exact Ha]. }
  assert (Hpb : Forall (fun v => Js.convertible v = true) (welfareBeta h ++ [b])).
  { apply Forall_app. split; [exact Hbeta | repeat constructor; exact Hb]. }
  assert (Hpc : Forall (fun v => Js.convertible v = true) (welfareGamma h ++ [c])).
  { apply Forall_app. split; [exact Hgamma | repeat constructor; exact Hc]. }
  unfold pushWelfare, buffersConvertible, stored.
  cbn [welfareAlpha welfareBeta welfareGamma].
  destruct (Nat.ltb 20 (List.length (welfareAlpha h ++ [a])));
    cbn [welfareAlpha welfareBeta welfareGamma];
    (apply Forall_app; split; [ | apply Forall_app; split]);
    first [assumption | apply Forall_tl; assumption].
Qed.

Lemma welfareStep_convertible (data : JsVal) (h : History) :
  plain data = true -> buffersConvertible h -> buffersConvertible (welfareStep data h).
Proof.
  intros Hp Hbuf. unfold welfareStep.
  destruct (Js.truthy (field data "welfare_impact")); [ | exact Hbuf].
  apply pushWelfare_convertible;
    try (apply plain_field_convertible, plain_field, Hp); exact Hbuf.
Qed.

(** On a well-shaped document, with nothing in the buffers that line 174
    would throw on, the rendering part of a tick reaches its last
    statement. *)
Lemma render_completes (data : JsVal) (w : World) :
  wellShaped data ->
  buffersConvertible (history (session w)) ->
  fst (render data w) = Ok tt.
Proof.
  intros Hshape Hbuf.
  pose proof Hshape as (Hn & Hp & _).
  unfold render.
  rewrite (bind_ok _ _ _ _ _ (showHeader_eq data w Hn (plain_headerShows _ Hp))).
  rewrite (bind_ok _ _ _ _ _ (trackStaleness_ok data _ Hn)).
  match goal with
  | |- fst (bind (inDom _) _ ?w2) = _ =>
      destruct (inDom_returns _ w2 (returns_showStrategy data Hshape)) as [d3 H3]
  end.
  rewrite (bind_ok _ _ _ _ _ H3).
  match goal with
  | |- fst (bind (inDom _) _ ?w3) = _ =>
      destruct (inDom_returns _ w3 (returns_showLearning data Hshape)) as [d4 H4]
  end.
  rewrite (bind_ok _ _ _ _ _ H4).
  match goal with
  | |- fst (bind (inDom _) _ ?w4) = _ =>
      destruct (inDom_returns _ w4 (returns_renderPanels data Hshape)) as [d5 H5]
  end.
  rewrite (bind_ok _ _ _ _ _ H5).
  match goal with
  | |- fst (bind (recordWelfare _) _ ?w5) = _ =>
      destruct (recordWelfare_ok data w5 Hn)
        as (w6 & H6 & _ & _ & _ & _ & _ & Hh6)
  end.
  rewrite (bind_ok _ _ _ _ _ H6).
  cbn [session setDom setSession] in Hh6. rewrite staleUpdate_history in Hh6.
  assert (Hbuf6 : buffersConvertible (history (session w6))).
  { rewrite Hh6. apply welfareStep_convertible; assumption. }
  pose proof (drawCharts_ok data w6 Hn Hp Hbuf6) as Hcharts.
  rewrite bind_run.
  destruct (drawCharts data w6) as [[[] | e] w7]; [ | discriminate Hcharts].
  destruct (reloadWhenStale_run w7) as (w8 & -> & _). reflexivity.
Qed.

(** A tick on a well-shaped document: nothing thrown, nothing logged, the
    buffers still free of values without a number, and the reload decided
    by the stale counter alone. *)
Lemma tick_on_well_shaped (data : JsVal) (w : World) :
  wellShaped data ->
  buffersConvertible (history (session w)) ->
  fst (render data w) = Ok tt /\
  console (snd (refresh (parsed data) w)) = console w /\
  buffersConvertible (history (session (snd (refresh (parsed data) w)))) /\
  reloaded (parsed data) w =
    Nat.leb 6 (staleTicks (session (snd (refresh (parsed data) w)))).
Proof.
  intros Hshape Hbuf. pose proof (render_completes data w Hshape Hbuf) as Hok.
  pose proof (render_ok_not_null data w Hok) as Hn.
  pose proof (render_ok_header data w Hok) as Hs.
  destruct Hshape as (_ & Hp & _).
  split; [exact Hok | split; [ | split]].
  - destruct (refresh_parsed data w) as (_ & _ & _ & ->).
    destruct (render_effect data w Hn Hs) as (_ & _ & _ & _ & -> & _).
    rewrite Hok. apply app_nil_r.
  - destruct (refresh_parsed data w) as (-> & _).
    destruct (render_effect data w Hn Hs) as (_ & _ & _ & Hh & _).
    rewrite Hh by (rewrite Hok; reflexivity).
    apply welfareStep_convertible; assumption.
  - rewrite (reloaded_parsed data w Hn Hs), Hok.
    destruct (refresh_staleness data w Hn Hs) as (_ & ->). reflexivity.
Qed.

(** X1. A document that has [learning], whose [events] and
    [policy_timeline], where present, are arrays without [null] elements,
    and in which no object has a member named [toString], takes the tick
    to its last statement, provided the buffers hold no value from an
    earlier document that line 174 would throw on: nothing is thrown and
    nothing is logged, whatever else is missing or of the wrong type, the
    buffers stay free of such values, and the reload is requested exactly
    when the stale counter has reached 6. *)
Theorem well_shaped_tick_runs_to_end (data : JsVal) (w : World) :
  wellShaped data ->
  buffersConvertible (history (session w)) ->
  fst (render data w) = Ok tt /\
  console (snd (refresh (parsed data) w)) = console w /\
  buffersConvertible (history (session (snd (refresh (parsed data) w)))) /\
  reloaded (parsed data) w =
    Nat.leb 6 (staleTicks (session (snd (refresh (parsed data) w)))).
Proof. apply tick_on_well_shaped. Qed.

Lemma snapshotOddShapes_wellShaped : wellShaped snapshotOddShapes.
Proof.
  repeat split.
  - exists [VObj [("topic", VStr "market")]]. split; [reflexivity | ].
    repeat constructor.
  - exists []. split; [reflexivity | constructor].
Qed.

Lemma well_shaped_tick_runs_to_end_witness :
  fst (render snapshotOddShapes (start samplePage)) = Ok tt /\
  console (snd (refresh (parsed snapshotOddShapes) (start samplePage))) =
    console (start samplePage) /\
  buffersConvertible
    (history (session (snd (refresh (parsed snapshotOddShapes) (start samplePage))))) /\
  reloaded (parsed snapshotOddShapes) (start samplePage) =
    Nat.leb 6 (staleTicks (session (snd (refresh (parsed snapshotOddShapes)
                                           (start samplePage))))).
Proof.
  apply well_shaped_tick_runs_to_end.
  - exact snapshotOddShapes_wellShaped.
  - constructor.
Defined.

(** A tick that starts with the counter at 5 or less, on a well-shaped
    document or on a failed fetch: it calls [location.reload], having
    counted to 6, or it ends with the counter at 5 or less. *)
Lemma tick_reloads_at_six (fetched : Fetched) (w : World) :
  tickOk fetched ->
  buffersConvertible (history (session w)) ->
  (staleTicks (session w) <= 5)%nat ->
  buffersConvertible (history (session (snd (refresh fetched w)))) /\
  (reloaded fetched w = true /\
   (6 <= staleTicks (session (snd (refresh fetched w))))%nat \/
   reloaded fetched w = false /\
   (staleTicks (session (snd (refresh fetched w))) <= 5)%nat).
Proof.
  intros Hok Hbuf Hle.
  destruct fetched as [ | [ | ] [data | ]];
    try (split; [exact Hbuf | right; split; [apply Nat.ltb_irrefl | exact Hle]]).
  change (Response true (Some data)) with (parsed data). simpl in Hok.
  destruct (tick_on_well_shaped data w Hok Hbuf) as (_ & _ & Hbuf' & Hre).
  split; [exact Hbuf' | ]. rewrite Hre.
  destruct (Nat.leb_spec 6 (staleTicks (session (snd (refresh (parsed data) w)))))
    as [Hsix | Hlt].
  - left. split; [reflexivity | exact Hsix].
  - right. split; [reflexivity | lia].
Qed.

(** What a run from page load keeps true when every parsed document is
    well-shaped. *)
Lemma tick_keeps_bound (fetched : Fetched) (w : World) :
  tickOk fetched ->
  (staleTicks (session w) <= 5)%nat /\ buffersConvertible (history (session w)) ->
  (staleTicks (session (tick fetched w)) <= 5)%nat /\
  buffersConvertible (history (session (tick fetched w))).
Proof.
  intros Hok (Hle & Hbuf).
  destruct (tick_reloads_at_six fetched w Hok Hbuf Hle)
    as (Hbuf' & [(Hre & _) | (Hre & Hle')]);
    unfold tick; fold (reloaded fetched w); rewrite Hre.
  - simpl. split; [lia | constructor].
  - split; assumption.
Qed.

(** X2. A tick that starts with the stale counter at 5 or less, on a
    well-shaped document or on a failed fetch, and with nothing in the
    buffers that line 174 would throw on, either calls [location.reload],
    the counter having reached 6, or ends with the counter at 5 or less.
    So over every run from page load in which each parsed document is
    well-shaped (failed fetches may be mixed in), the stale counter is at
    most 5 at every tick boundary: the tick that would bring it to 6
    reloads the page. *)
Theorem stale_counter_bounded :
  (forall fetched w,
     tickOk fetched ->
     buffersConvertible (history (session w)) ->
     (staleTicks (session w) <= 5)%nat ->
     reloaded fetched w = true /\
     (6 <= staleTicks (session (snd (refresh fetched w))))%nat \/
     reloaded fetched w = false /\
     (staleTicks (session (snd (refresh fetched w))) <= 5)%nat) /\
  (forall page ticks,
     Forall tickOk ticks ->
     (staleTicks (session (run (start page) ticks)) <= 5)%nat).
Proof.
  split.
  - intros fetched w Hok Hbuf Hle.
    exact (proj2 (tick_reloads_at_six fetched w Hok Hbuf Hle)).
  - intros page ticks Hall.
    assert (Hgen : forall w,
              (staleTicks (session w) <= 5)%nat /\
              buffersConvertible (history (session w)) ->
              (staleTicks (session (run w ticks)) <= 5)%nat).
    { induction Hall as [ | f rest Hf Hrest IH]; intros w Hw; simpl.
      - exact (proj1 Hw).
      - apply IH, tick_keeps_bound; assumption. }
    apply Hgen. split; [simpl; lia | constructor].
Qed.

Lemma stale_counter_bounded_witness :
  (reloaded (parsed snapshotOddShapes) (start samplePage) = false /\
   (staleTicks (session (snd (refresh (parsed snapshotOddShapes) (start samplePage))))
    <= 5)%nat) /\
  (staleTicks (session (run (start samplePage)
                          [parsed snapshotOddShapes; Rejected;
                           parsed snapshotOddShapes; Response false None])) <= 5)%nat.
Proof.
  destruct stale_counter_bounded as (Htick & Hrun).
  split.
  - destruct (Htick (parsed snapshotOddShapes) (start samplePage))
      as [(Hre & _) | Hkept].
    + exact snapshotOddShapes_wellShaped.
    + constructor.
    + simpl. lia.
    + discriminate Hre.
    + exact Hkept.
  - apply Hrun.
    apply Forall_cons; [exact snapshotOddShapes_wellShaped | ].
    apply Forall_cons; [exact I | ].
    apply Forall_cons; [exact snapshotOddShapes_wellShaped | ].
    apply Forall_cons; [exact I | apply Forall_nil].
Defined.

(** ** The buffers as sliding windows *)

Lemma fifoPush_lastn {A : Type} (v : A) (l : list A) :
  fifoPush 20 v (lastn 20 l) = lastn 20 (l ++ [v]).
Proof.
  unfold fifoPush, lastn. rewrite length_skipn, length_app. cbn [List.length].
  destruct (Nat.ltb_spec (List.length l - (List.length l - 20)) 20) as [Hlt | Hge].
  - replace (List.length l - 20)%nat with 0%nat by lia.
    replace (List.length l + 1 - 20)%nat with 0%nat by lia.
    reflexivity.
  - rewrite skipn_skipn, skipn_app.
    replace (1 + (List.length l - 20))%nat with (List.length l + 1 - 20)%nat by lia.
    replace (List.length l + 1 - 20 - List.length l)%nat with 0%nat by lia.
    reflexivity.
Qed.

Lemma lastn_length {A : Type} (n : nat) (l : list A) :
  List.length (lastn n l) = Nat.min n (List.length l).
Proof. unfold lastn. rewrite length_skipn. lia. Qed.

Lemma pushAll_windows (triples : list (JsVal * JsVal * JsVal))
  (la lb lc : list JsVal) :
  List.length la = List.length lb ->
  List.length lb = List.length lc ->
  pushAll (mkHistory (lastn 20 la) (lastn 20 lb) (lastn 20 lc)) triples =
  mkHistory (lastn 20 (la ++ map (fun t => fst (fst t)) triples))
    (lastn 20 (lb ++ map (fun t => snd (fst t)) triples))
    (lastn 20 (lc ++ map snd triples)).
Proof.
  revert la lb lc. induction triples as [ | [[a b] c] rest IH]; intros la lb lc Hab Hbc.
  - simpl. rewrite !app_nil_r. reflexivity.
  - cbn [pushAll fold_left fst snd map]. fold (pushAll).
    rewrite pushWelfare_fifo.
    + cbn [welfareAlpha welfareBeta welfareGamma]. rewrite !fifoPush_lastn.
      change (fold_left _ rest ?h) with (pushAll h rest).
      rewrite IH by (rewrite !length_app; simpl; lia).
      rewrite <- !app_assoc. reflexivity.
    + unfold lockstep. cbn [welfareAlpha welfareBeta welfareGamma].
      rewrite !lastn_length. lia.
Qed.

Lemma run_history (docs : list JsVal) (w : World) :
  ticksComplete w docs ->
  reloadTrace w (map parsed docs) = repeat false (List.length docs) ->
  history (session (run w (map parsed docs))) =
  fold_left (fun h d => welfareStep d h) docs (history (session w)).
Proof.
  revert w. induction docs as [ | d rest IH]; intros w Hrun Htrace; [reflexivity | ].
  cbn [map reloadTrace List.length repeat] in Htrace.
  injection Htrace as Hre Hrest.
  destruct Hrun as (Hok & Hrun).
  pose proof (render_ok_not_null d w Hok) as Hn.
  pose proof (render_ok_header d w Hok) as Hs.
  cbn [map run fold_left]. change (fold_left _ (map parsed rest) ?x) with (run x (map parsed rest)).
  rewrite IH; [ | exact Hrun | exact Hrest].
  f_equal. rewrite (tick_not_reloaded _ _ Hre).
  destruct (refresh_parsed d w) as (-> & _).
  destruct (render_effect d w Hn Hs) as (_ & _ & _ & Hh & _).
  apply Hh. rewrite Hok. reflexivity.
Qed.

Lemma welfareSteps_pushAll (docs : list JsVal) (h : History) :
  Forall (fun d => Js.truthy (field d "welfare_impact") = true) docs ->
  fold_left (fun acc d => welfareStep d acc) docs h =
  pushAll h
    (map (fun d => (impactOf d "Country Alpha", impactOf d "Country Beta",
                    impactOf d "Country Gamma")) docs).
Proof.
  revert h. induction docs as [ | d rest IH]; intros h Hall; [reflexivity | ].
  cbn [fold_left map pushAll fst snd]. fold pushAll.
  change (fold_left _ (map _ rest) ?x) with (pushAll x (map (fun d => (impactOf d "Country Alpha", impactOf d "Country Beta", impactOf d "Country Gamma")) rest)).
  rewrite IH by exact (Forall_inv_tail Hall).
  f_equal. unfold welfareStep. rewrite (Forall_inv Hall). reflexivity.
Qed.

(** X3. From page load, over ticks that all run to their last statement
    on documents that carry [welfare_impact], none of them reloading the
    page, each buffer holds the values of the last 20 documents for its
    entity (of all documents while there are fewer), oldest first; a value
    missing from [welfare_impact] is stored as [undefined]. *)
Theorem history_buffers_are_sliding_windows (page : Dom) (docs : list JsVal) :
  ticksComplete (start page) docs ->
  Forall (fun d => Js.truthy (field d "welfare_impact") = true) docs ->
  reloadTrace (start page) (map parsed docs) = repeat false (List.length docs) ->
  history (session (run (start page) (map parsed docs))) =
  mkHistory (lastn 20 (map (fun d => impactOf d "Country Alpha") docs))
    (lastn 20 (map (fun d => impactOf d "Country Beta") docs))
    (lastn 20 (map (fun d => impactOf d "Country Gamma") docs)).
Proof.
  intros Hrun Himpact Htrace.
  rewrite (run_history docs (start page) Hrun Htrace).
  rewrite (welfareSteps_pushAll docs _ Himpact).
  change (history (session (start page)))
    with (mkHistory (lastn 20 []) (lastn 20 []) (lastn 20 [])).
  rewrite pushAll_windows by reflexivity.
  cbn [app]. rewrite !map_map. reflexivity.
Qed.

Lemma history_buffers_are_sliding_windows_witness :
  let docs := map (fun n => snapshotImpact (if Nat.even n then "a" else "b")
                              (Z.of_nat n)) (seq 1 22) in
  history (session (run (start samplePage) (map parsed docs))) =
  mkHistory (map (fun n => VNum (q (Z.of_nat n))) (seq 3 20))
    (repeat VUndef 20) (repeat VUndef 20).
Proof.
  cbv zeta.
  rewrite history_buffers_are_sliding_windows.
  - vm_compute. reflexivity.
  - vm_compute. repeat split.
  - apply Forall_forall. intros d Hd. apply in_map_iff in Hd.
    destruct Hd as (n & <- & _). reflexivity.
  - vm_compute. reflexivity.
Defined.

(** ** The list panels *)

(** X4. The timeline shows one item per entry of [policy_timeline], the
    latest entry first, when no entry is [null] and the timestamp and the
    label of every entry have a string; with no entry, or no
    [policy_timeline] at all, it shows the single "Awaiting first policy
    updates..." item.  The list is never left empty. *)
Theorem timeline_latest_first (timeline : JsVal) (items : list JsVal) (d : Dom) :
  Js.or timeline (VArr []) = VArr items ->
  Forall (fun x => entryShows x = true) items ->
  let d' := snd (renderTimeline (Js.or timeline (VArr [])) d) in
  fst (renderTimeline (Js.or timeline (VArr [])) d) = Ok tt /\
  elems d' "timeline" =
    latestFirst "Awaiting first policy updates..." timelineLi items /\
  List.length (elems d' "timeline") = Nat.max 1 (List.length items).
Proof.
  intros -> Hall. cbv zeta.
  destruct (renderTimeline_array items d Hall) as (Hok & Hel).
  split; [exact Hok | split; [exact Hel | ]].
  rewrite Hel. destruct items as [ | x r]; [reflexivity | ].
  unfold latestFirst. rewrite length_map, length_rev. simpl. lia.
Qed.

Lemma timeline_latest_first_witness :
  let items := [VObj [("label", VStr "first")]; VObj [("label", VStr "second")]] in
  let d' := snd (renderTimeline (Js.or (VArr items) (VArr [])) samplePage) in
  fst (renderTimeline (Js.or (VArr items) (VArr [])) samplePage) = Ok tt /\
  elems d' "timeline" =
    [timelineLi (VObj [("label", VStr "second")]);
     timelineLi (VObj [("label", VStr "first")])] /\
  List.length (elems d' "timeline") = 2%nat.
Proof.
  cbv zeta.
  apply (timeline_latest_first
           (VArr [VObj [("label", VStr "first")]; VObj [("label", VStr "second")]])
           [VObj [("label", VStr "first")]; VObj [("label", VStr "second")]]).
  - reflexivity.
  - repeat constructor.
Defined.

(** X5. The feed shows every event, the latest first, each with its
    timestamp, source, title and memo, when no event is [null] and these
    four fields of every event have a string; with no event, or no
    [events] at all, it shows the single "No agent activity yet." item. *)
Theorem feed_latest_first (events : JsVal) (items : list JsVal) (d : Dom) :
  Js.or events (VArr []) = VArr items ->
  Forall (fun x => eventShows x = true) items ->
  let d' := snd (renderFeed (Js.or events (VArr [])) d) in
  fst (renderFeed (Js.or events (VArr [])) d) = Ok tt /\
  elems d' "feed" = latestFirst "No agent activity yet." eventLi items /\
  List.length (elems d' "feed") = Nat.max 1 (List.length items).
Proof.
  intros -> Hall. cbv zeta.
  destruct (renderFeed_array items d Hall) as (Hok & Hel).
  split; [exact Hok | split; [exact Hel | ]].
  rewrite Hel. destruct items as [ | x r]; [reflexivity | ].
  unfold latestFirst. rewrite length_map, length_rev. simpl. lia.
Qed.

Lemma feed_latest_first_witness :
  let items := [VObj [("title", VStr "first")]; VObj [("title", VStr "second")]] in
  let d' := snd (renderFeed (Js.or (VArr items) (VArr [])) samplePage) in
  fst (renderFeed (Js.or (VArr items) (VArr [])) samplePage) = Ok tt /\
  elems d' "feed" =
    [eventLi (VObj [("title", VStr "second")]);
     eventLi (VObj [("title", VStr "first")])] /\
  List.length (elems d' "feed") = 2%nat.
Proof.
  cbv zeta.
  apply (feed_latest_first
           (VArr [VObj [("title", VStr "first")]; VObj [("title", VStr "second")]])
           [VObj [("title", VStr "first")]; VObj [("title", VStr "second")]]).
  - reflexivity.
  - repeat constructor.
Defined.

Lemma firstn_incl {A : Type} (n : nat) (l : list A) : incl (firstn n l) l.
Proof.
  intros x Hx. rewrite <- (firstn_skipn n l). apply in_or_app. left. exact Hx.
Qed.

(** X6. For a non-empty array of events, none of them [null] and each with
    a string for its timestamp, source, title and memo, the messages panel
    holds the events with an allowed topic, the latest first, cut after
    twelve: at most twelve items, every one of an allowed topic, and every
    one also an item of the feed rendered from the same events. *)
Theorem messages_are_recent_allowed_feed_items (events : list JsVal) (d : Dom) :
  events <> [] ->
  Forall (fun x => eventShows x = true) events ->
  let shown := firstn 12 (rev (filter allowedTopic events)) in
  fst (renderMessages (VArr events) d) = Ok tt /\
  elems (snd (renderMessages (VArr events) d)) "messages" = map eventLi shown /\
  (List.length shown <= 12)%nat /\
  Forall (fun e => allowedTopic e = true) shown /\
  incl (elems (snd (renderMessages (VArr events) d)) "messages")
       (elems (snd (renderFeed (VArr events) d)) "feed").
Proof.
  intros Hne Hall. cbv zeta.
  destruct (renderMessages_array events d Hne (eventShows_not_null _ Hall))
    as (Hok & Hmsg).
  { apply firstn_keeps_Forall, Forall_rev, filter_keeps_Forall, Hall. }
  destruct (renderFeed_array events d Hall) as (_ & Hfeed).
  assert (Hsub : incl (firstn 12 (rev (filter allowedTopic events))) (rev events)).
  { intros x Hx. apply firstn_incl in Hx. apply in_rev in Hx.
    apply filter_In in Hx. apply in_rev. rewrite rev_involutive. exact (proj1 Hx). }
  split; [exact Hok | split; [exact Hmsg | split; [apply firstn_le_length | split]]].
  - apply Forall_forall. intros x Hx. apply firstn_incl in Hx.
    apply in_rev in Hx. apply filter_In in Hx. exact (proj2 Hx).
  - rewrite Hmsg, Hfeed. destruct events as [ | e rest]; [contradiction | ].
    unfold latestFirst. intros x Hx. apply in_map_iff in Hx.
    destruct Hx as (y & <- & Hy). apply in_map, Hsub, Hy.
Qed.

Lemma messages_are_recent_allowed_feed_items_witness :
  let events := [VObj [("topic", VStr "policy"); ("title", VStr "a")];
                 VObj [("topic", VStr "other")];
                 VObj [("topic", VStr "market"); ("title", VStr "b")]] in
  fst (renderMessages (VArr events) samplePage) = Ok tt /\
  elems (snd (renderMessages (VArr events) samplePage)) "messages" =
    [eventLi (VObj [("topic", VStr "market"); ("title", VStr "b")]);
     eventLi (VObj [("topic", VStr "policy"); ("title", VStr "a")])].
Proof.
  cbv zeta.
  pose proof (messages_are_recent_allowed_feed_items
                [VObj [("topic", VStr "policy"); ("title", VStr "a")];
                 VObj [("topic", VStr "other")];
                 VObj [("topic", VStr "market"); ("title", VStr "b")]] samplePage)
    as Hmessages.
  cbv zeta in Hmessages.
  destruct Hmessages as (Hok & Hshown & _).
  - discriminate.
  - repeat constructor.
  - split; [exact Hok | exact Hshown].
Defined.

(** ** A [null] among the events *)

Lemma eventItem_throws (target : string) (event : JsVal) (d : Dom) :
  nullish event = true -> exists e, eventItem target event d = (Throw e, d).
Proof.
  intros Hn. unfold eventItem. rewrite bind_run. unfold lift.
  destruct (get_throw event "timestamp" Hn) as [e ->]. eauto.
Qed.

Lemma forEach_eventItem_stops (target : string) (shown rest : list JsVal)
  (bad : JsVal) (d : Dom) :
  Forall (fun x => eventShows x = true) shown ->
  nullish bad = true ->
  exists e d',
    forEach (eventItem target) (shown ++ bad :: rest) d = (Throw e, d') /\
    elems d' target = elems d target ++ map eventLi shown.
Proof.
  intros Hall Hbad. revert d. induction shown as [ | x r IH]; intros d.
  - cbn [app forEach map]. rewrite bind_run.
    destruct (eventItem_throws target bad d Hbad) as [e ->].
    exists e, d. split; [reflexivity | symmetry; apply app_nil_r].
  - cbn [app forEach map]. rewrite bind_run.
    rewrite (eventItem_run _ _ _ (Forall_inv Hall)).
    destruct (IH (Forall_inv_tail Hall)
                (setElems target (elems d target ++ [eventLi x]) d))
      as (e & d' & -> & Hel).
    exists e, d'. split; [reflexivity | ].
    rewrite Hel, setElems_same, <- app_assoc. reflexivity.
Qed.

Lemma filterE_topicAllowed_throws (events : list JsVal) (d : Dom) :
  Exists (fun x => nullish x = true) events ->
  exists e, filterE topicAllowed events d = (Throw e, d).
Proof.
  induction events as [ | x r IH]; intros Hex; [inversion Hex | ].
  cbn [filterE]. rewrite bind_run. unfold topicAllowed at 1.
  rewrite bind_run. unfold lift at 1.
  destruct (nullish x) eqn:Hx.
  - destruct (get_throw x "topic" Hx) as [e ->]. eauto.
  - rewrite (get_ok _ _ Hx). cbn [ret]. rewrite bind_run.
    inversion Hex as [? ? Hbad | ? ? Hlater]; subst; [congruence | ].
    destruct (IH Hlater) as [e ->]. eauto.
Qed.

(** X7. One [null] among the events breaks both lists, each in its own
    way: the feed, written latest first, keeps the items of the events
    that come after the [null] (events whose four fields have a string)
    and stops there with a TypeError; the messages list is emptied and
    gets no item at all, the error arising while the topics are
    filtered. *)
Theorem null_event_stops_feed_and_messages
  (before after : list JsVal) (bad : JsVal) (d : Dom) :
  nullish bad = true ->
  Forall (fun x => eventShows x = true) after ->
  let events := VArr (before ++ bad :: after) in
  (exists e, fst (renderFeed events d) = Throw e) /\
  elems (snd (renderFeed events d)) "feed" = map eventLi (rev after) /\
  (exists e, fst (renderMessages events d) = Throw e) /\
  elems (snd (renderMessages events d)) "messages" = [].
Proof.
  intros Hbad Hall. cbv zeta.
  assert (Hne : before ++ bad :: after <> []) by (destruct before; discriminate).
  assert (Hfeed : exists e d',
            renderFeed (VArr (before ++ bad :: after)) d = (Throw e, d') /\
            elems d' "feed" = map eventLi (rev after)).
  { unfold renderFeed.
    rewrite bind_run. unfold setInnerHTML, modify.
    rewrite bind_run. unfold lift at 1.
    cbn [Js.truthy Js.get String.eqb Ascii.eqb Bool.eqb].
    rewrite (length_not_zero _ Hne). cbn [negb orb].
    rewrite bind_run. unfold lift at 1. cbn [Js.sliceReverse].
    rewrite rev_app_distr. cbn [rev]. rewrite <- app_assoc. cbn [app].
    destruct (forEach_eventItem_stops "feed" (rev after) (rev before) bad
                (setElems "feed" [] d) (Forall_rev Hall) Hbad)
      as (e & d' & -> & Hel).
    exists e, d'. split; [reflexivity | exact Hel]. }
  assert (Hmsg : exists e,
            renderMessages (VArr (before ++ bad :: after)) d =
            (Throw e, setElems "messages" [] d)).
  { unfold renderMessages.
    rewrite bind_run. unfold setInnerHTML, modify.
    rewrite bind_run. unfold lift at 1.
    cbn [Js.truthy Js.get String.eqb Ascii.eqb Bool.eqb].
    rewrite (length_not_zero _ Hne). cbn [negb orb].
    rewrite bind_run. unfold lift at 1. cbn [Js.asArray].
    rewrite bind_run.
    destruct (filterE_topicAllowed_throws (before ++ bad :: after)
                (setElems "messages" [] d)) as [e ->].
    - apply Exists_app. right. left. exact Hbad.
    - eauto. }
  destruct Hfeed as (e1 & d1 & -> & Hel). destruct Hmsg as (e2 & ->).
  split; [exists e1; reflexivity | split; [exact Hel | split]].
  - exists e2. reflexivity.
  - reflexivity.
Qed.

Lemma null_event_stops_feed_and_messages_witness :
  let events := VArr ([VObj [("title", VStr "old")]] ++ VNull ::
                      [VObj [("title", VStr "new")]]) in
  (exists e, fst (renderFeed events samplePage) = Throw e) /\
  elems (snd (renderFeed events samplePage)) "feed" =
    [eventLi (VObj [("title", VStr "new")])] /\
  (exists e, fst (renderMessages events samplePage) = Throw e) /\
  elems (snd (renderMessages events samplePage)) "messages" = [].
Proof.
  apply null_event_stops_feed_and_messages.
  - reflexivity.
  - repeat constructor.
Defined.

(** X8. When the classification has a string (line 242 runs through) and
    no event is [null], the payoff line is taken from the latest event
    with topic [strategy]: its [payload.payoff_matrix] (an empty object
    when that is missing) if it has a payload, the "awaiting update" text
    if it has none; earlier strategy events are ignored, and without any
    strategy event the line shows the "awaiting update" text.  A
    classification without a string stops the stage before the payoff
    line is written. *)
Theorem payoff_from_latest_strategy_event
  (data : JsVal) (events : list JsVal) (d : Dom) :
  nullish data = false ->
  Js.or (field data "events") (VArr []) = VArr events ->
  Forall (fun x => nullish x = false) events ->
  (Js.convertible (field data "classification") = true ->
   fst (showStrategy data d) = Ok tt /\
   elems (snd (showStrategy data d)) "classification" =
     textOf (field data "classification") /\
   elems (snd (showStrategy data d)) "payoff" = [TextNode (payoffText events)]) /\
  (Js.convertible (field data "classification") = false ->
   exists e, showStrategy data d = (Throw e, d)) /\
  (forall before event after,
     events = before ++ event :: after ->
     isStrategy event = true ->
     Forall (fun e => isStrategy e = false) after ->
     payoffText events =
       if Js.truthy (field event "payload")
       then [Lit "Payoff matrix: ";
             JsonOf (Js.or (field (field event "payload") "payoff_matrix") (VObj []))]
       else awaitingPayoff) /\
  (Forall (fun e => isStrategy e = false) events ->
   payoffText events = awaitingPayoff).
Proof.
  intros Hn Hev Hall. split; [ | split; [ | split]].
  - intros Hc.
    destruct (showStrategy_run data events d Hn Hc Hev Hall) as (Hok & Hpay & Hclass).
    split; [exact Hok | split; [exact Hclass | exact Hpay]].
  - apply (showStrategy_stops data d Hn).
  - intros before event after -> Hs Hafter. unfold payoffText.
    rewrite (find_rev_latest isStrategy before after event Hs Hafter). reflexivity.
  - intros Hnone. unfold payoffText. rewrite (find_rev_none _ _ Hnone). reflexivity.
Qed.

Lemma payoff_from_latest_strategy_event_witness :
  let older := VObj [("topic", VStr "strategy");
                     ("payload", VObj [("payoff_matrix", VStr "old")])] in
  let latest := VObj [("topic", VStr "strategy");
                      ("payload", VObj [("payoff_matrix", VStr "new")])] in
  let noise := VObj [("topic", VStr "market")] in
  elems (snd (showStrategy (VObj [("events", VArr [older; latest; noise])]) samplePage))
    "payoff" = [TextNode [Lit "Payoff matrix: "; JsonOf (VStr "new")]].
Proof.
  cbv zeta.
  pose proof (payoff_from_latest_strategy_event
    (VObj [("events",
            VArr [VObj [("topic", VStr "strategy");
                        ("payload", VObj [("payoff_matrix", VStr "old")])];
                  VObj [("topic", VStr "strategy");
                        ("payload", VObj [("payoff_matrix", VStr "new")])];
                  VObj [("topic", VStr "market")]])])
    [VObj [("topic", VStr "strategy");
           ("payload", VObj [("payoff_matrix", VStr "old")])];
     VObj [("topic", VStr "strategy");
           ("payload", VObj [("payoff_matrix", VStr "new")])];
     VObj [("topic", VStr "market")]]
    samplePage eq_refl eq_refl) as Hpayoff.
  destruct Hpayoff as (Hshown & _ & Hlatest & _); [repeat constructor | ].
  destruct (Hshown eq_refl) as (_ & _ & Hpay).
  rewrite Hpay.
  rewrite (Hlatest
    [VObj [("topic", VStr "strategy");
           ("payload", VObj [("payoff_matrix", VStr "old")])]]
    (VObj [("topic", VStr "strategy");
           ("payload", VObj [("payoff_matrix", VStr "new")])])
    [VObj [("topic", VStr "market")]] eq_refl eq_refl).
  - reflexivity.
  - repeat constructor.
Defined.

(** X9. When the backend, if [system_health] is there, and the status of
    every agent, if [agent_status] is there, have a string, the status
    stage returns: with [system_health] present its line shows the
    backend; with [agent_status] present the agent list is replaced by one
    item per agent, in the order [Object.entries] lists them; a region
    whose field is absent is not written and keeps what it showed. *)
Theorem status_regions_written_when_present (data : JsVal) (d : Dom) :
  nullish data = false ->
  statusShows data = true ->
  let d' := snd (showStatus data d) in
  fst (showStatus data d) = Ok tt /\
  (Js.truthy (field data "system_health") = true ->
   elems d' "system-health" =
     [TextNode [Lit "State backend: ";
                Interp (field (field data "system_health") "backend")]]) /\
  (Js.truthy (field data "system_health") = false ->
   elems d' "system-health" = elems d "system-health") /\
  (forall agents,
     field data "agent_status" = VObj agents ->
     elems d' "agent-status" = map agentLi agents) /\
  (Js.truthy (field data "agent_status") = false ->
   elems d' "agent-status" = elems d "agent-status").
Proof.
  intros Hn Hshow. cbv zeta.
  destruct (showStatus_run data d Hn Hshow) as (Hok & Hhealth & Hagents).
  split; [exact Hok | split; [ | split; [ | split]]].
  - intros Ht. rewrite Hhealth, Ht. reflexivity.
  - intros Hf. rewrite Hhealth, Hf. reflexivity.
  - intros agents Ha. rewrite Hagents, Ha. reflexivity.
  - intros Hf. rewrite Hagents, Hf. reflexivity.
Qed.

Lemma status_regions_written_when_present_witness :
  let data := VObj [("agent_status",
                     VObj [("alpha", VStr "idle"); ("market", VStr "busy")])] in
  let d' := snd (showStatus data samplePage) in
  fst (showStatus data samplePage) = Ok tt /\
  elems d' "system-health" = [Shipped] /\
  elems d' "agent-status" =
    [agentLi ("alpha", VStr "idle"); agentLi ("market", VStr "busy")].
Proof.
  cbv zeta.
  pose proof (status_regions_written_when_present
    (VObj [("agent_status", VObj [("alpha", VStr "idle"); ("market", VStr "busy")])])
    samplePage eq_refl eq_refl) as Hstatus.
  cbv zeta in Hstatus. destruct Hstatus as (Hok & _ & Hkeep & Hagents & _).
  split; [exact Hok | split].
  - apply Hkeep. reflexivity.
  - apply (Hagents [("alpha", VStr "idle"); ("market", VStr "busy")]). reflexivity.
Defined.

(** ** The bar chart *)








